(** * MineSkin generation engine: a shallow embedding of the generator

    The definitions follow [Generator] (validation, duplicate probes, id
    allocation, the three orchestrator entry points and the success and error
    handlers), [AccountSchema.statics.findUsable] and the callback-style
    [authenticate] of the legacy authentication module.

    Numbers are [Z]; a document field that may be absent is an [option];
    collections are lists in natural order; effects are threaded through a
    state-and-exception monad over a [World]. *)

From Stdlib Require Import ZArith String List Bool Lia.
From stdpp Require Import base option list strings pretty gmap.
From Equations Require Import Equations.
Import ListNotations.
Local Open Scope string_scope.
Local Open Scope Z_scope.

(** ** Enumerations of the generator *)

Inductive SkinModel := CLASSIC | SLIM | UNKNOWN.

(** The [model] path of the skin schema is a string restricted to
    ["steve"; "slim"; "unknown"]; these are the values of the enumeration. *)
Definition SkinModel_str (m : SkinModel) : string :=
  match m with
  | CLASSIC => "steve"
  | SLIM => "slim"
  | UNKNOWN => "unknown"
  end.

Definition SkinModel_eqb (a b : SkinModel) : bool :=
  match a, b with
  | CLASSIC, CLASSIC | SLIM, SLIM | UNKNOWN, UNKNOWN => true
  | _, _ => false
  end.

Inductive GenerateType := URL | UPLOAD | USER.

Inductive GenError :=
| FAILED_TO_CREATE_ID
| NO_ACCOUNT_AVAILABLE
| SKIN_CHANGE_FAILED
| INVALID_IMAGE
| INVALID_IMAGE_URL
| INVALID_IMAGE_UPLOAD
| INVALID_SKIN_DATA.

Inductive DuplicateSource := MINESKIN_URL | TEXTURE_URL | IMAGE_HASH | USER_UUID.

Definition MAX_ID_TRIES : Z := 10.
Definition MAX_FOLLOW_REDIRECTS : Z := 5.
Definition MAX_IMAGE_SIZE : Z := 20000.
Definition ALLOWED_IMAGE_TYPES : list string := ["image/png"].
Definition URL_FOLLOW_WHITELIST : list string := ["novask.in"; "imgur.com"].

(** ** Decoded images *)

(** What [Jimp.read] yields: the dimensions and the RGBA bytes, four per
    pixel, row after row. *)
Record Jimp := {
  getWidth : Z;
  getHeight : Z;
  bitmap_data : list Z
}.

(** [image.scan(x, y, w, h, f)]: rows from [y], columns from [x], the
    callback receiving the byte offset [(width * y + x) << 2] of the pixel. *)
Definition scan {S : Type} (image : Jimp) (x y w h : Z)
    (f : Z -> Z -> Z -> S -> S) (s : S) : S :=
  fold_left
    (fun acc _y =>
       fold_left
         (fun acc' _x => f _x _y (Z.shiftl (getWidth image * _y + _x) 2) acc')
         (seqZ x w) acc)
    (seqZ y h) s.

(** [buffer[i]]: a byte, or nothing ([undefined]) out of range. *)
Definition byteAt (data : list Z) (i : Z) : option Z :=
  if i <? 0 then None else data !! Z.to_nat i.

(** [a === 255] on what [byteAt] gives. *)
Definition is255 (a : option Z) : bool :=
  match a with
  | Some v => v =? 255
  | None => false
  end.

(** The outcome of [validateImageData]: the detected model, or the
    [INVALID_IMAGE] error (code 400) on bad dimensions. *)
Definition validateImageData (image : Jimp) : GenError * Z + SkinModel :=
  let width := getWidth image in
  let height := getHeight image in
  if negb (width =? 64) || (negb (height =? 64) && negb (height =? 32)) then
    inl (INVALID_IMAGE, 400)
  else if height <? 64 then
    inr CLASSIC
  else
    let allTransparent :=
      scan image 54 20 2 12
        (fun x y idx allTransparent =>
           let a := byteAt (bitmap_data image) (idx + 3) in
           if is255 a then false else allTransparent)
        true in
    if allTransparent then inr SLIM else inr CLASSIC.

(** The step of [validateTempFile] that overwrites an unknown model of the
    options by the detected one. *)
Definition switchModel (optionsModel detected : SkinModel) : SkinModel :=
  if SkinModel_eqb optionsModel UNKNOWN && negb (SkinModel_eqb detected UNKNOWN)
  then detected else optionsModel.

(** The alpha byte of pixel [(x, y)] of a 64-wide image. *)
Definition alpha (image : Jimp) (x y : Z) : option Z :=
  byteAt (bitmap_data image) (4 * (64 * y + x) + 3).

(** A decoded 64x64 image. *)
Definition is64x64 (image : Jimp) : Prop :=
  getWidth image = 64 /\ getHeight image = 64 /\
  Z.of_nat (length (bitmap_data image)) = 64 * 64 * 4.

(** ** Documents of the two collections

    [_id] is the identity of a stored document: [save] replaces the stored
    document that has the same [_id]. *)

Module Account.

(** The paths of the account schema that the generator and [findUsable]
    read or write. [None] stands for an absent path (for [requestServer]
    also for [null]). *)
Record t := Build {
  _id : nat;
  id : Z;
  uuid : string;
  enabled : bool;
  requestServer : option string;
  lastRequestServer : option string;
  lastSelected : option Z;
  lastUsed : option Z;
  forcedTimeoutAt : option Z;
  timeAdded : option Z;
  errorCounter : option Z;
  successCounter : option Z;
  totalErrorCounter : option Z;
  totalSuccessCounter : option Z;
  sameTextureCounter : option Z;
  accessToken : option string
}.

Definition set_requestServer v (d : t) : t :=
  let 'Build x0 x1 x2 x3 x4 x5 x6 x7 x8 x9 x10 x11 x12 x13 x14 x15 := d in
  Build x0 x1 x2 x3 v x5 x6 x7 x8 x9 x10 x11 x12 x13 x14 x15.

Definition set_lastRequestServer v (d : t) : t :=
  let 'Build x0 x1 x2 x3 x4 x5 x6 x7 x8 x9 x10 x11 x12 x13 x14 x15 := d in
  Build x0 x1 x2 x3 x4 v x6 x7 x8 x9 x10 x11 x12 x13 x14 x15.

Definition set_lastSelected v (d : t) : t :=
  let 'Build x0 x1 x2 x3 x4 x5 x6 x7 x8 x9 x10 x11 x12 x13 x14 x15 := d in
  Build x0 x1 x2 x3 x4 x5 v x7 x8 x9 x10 x11 x12 x13 x14 x15.

Definition set_lastUsed v (d : t) : t :=
  let 'Build x0 x1 x2 x3 x4 x5 x6 x7 x8 x9 x10 x11 x12 x13 x14 x15 := d in
  Build x0 x1 x2 x3 x4 x5 x6 v x8 x9 x10 x11 x12 x13 x14 x15.

Definition set_forcedTimeoutAt v (d : t) : t :=
  let 'Build x0 x1 x2 x3 x4 x5 x6 x7 x8 x9 x10 x11 x12 x13 x14 x15 := d in
  Build x0 x1 x2 x3 x4 x5 x6 x7 v x9 x10 x11 x12 x13 x14 x15.

Definition set_errorCounter v (d : t) : t :=
  let 'Build x0 x1 x2 x3 x4 x5 x6 x7 x8 x9 x10 x11 x12 x13 x14 x15 := d in
  Build x0 x1 x2 x3 x4 x5 x6 x7 x8 x9 v x11 x12 x13 x14 x15.

Definition set_successCounter v (d : t) : t :=
  let 'Build x0 x1 x2 x3 x4 x5 x6 x7 x8 x9 x10 x11 x12 x13 x14 x15 := d in
  Build x0 x1 x2 x3 x4 x5 x6 x7 x8 x9 x10 v x12 x13 x14 x15.

Definition set_totalErrorCounter v (d : t) : t :=
  let 'Build x0 x1 x2 x3 x4 x5 x6 x7 x8 x9 x10 x11 x12 x13 x14 x15 := d in
  Build x0 x1 x2 x3 x4 x5 x6 x7 x8 x9 x10 x11 v x13 x14 x15.

Definition set_totalSuccessCounter v (d : t) : t :=
  let 'Build x0 x1 x2 x3 x4 x5 x6 x7 x8 x9 x10 x11 x12 x13 x14 x15 := d in
  Build x0 x1 x2 x3 x4 x5 x6 x7 x8 x9 x10 x11 x12 v x14 x15.

Definition set_accessToken v (d : t) : t :=
  let 'Build x0 x1 x2 x3 x4 x5 x6 x7 x8 x9 x10 x11 x12 x13 x14 x15 := d in
  Build x0 x1 x2 x3 x4 x5 x6 x7 x8 x9 x10 x11 x12 x13 x14 v.

End Account.

Module Skin.

Record t := Build {
  _id : nat;
  id : Z;
  hash : option string;
  uuid : option string;
  name : string;
  model : string;
  visibility : Z;
  value : string;
  signature : string;
  url : string;
  minecraftTextureHash : option string;
  textureHash : option string;
  time : Z;
  generateDuration : Z;
  account : option Z;
  type : GenerateType;
  via : option string;
  ua : option string;
  duplicate : Z;
  views : Z
}.

Definition set_duplicate v (d : t) : t :=
  let 'Build x0 x1 x2 x3 x4 x5 x6 x7 x8 x9 x10 x11 x12 x13 x14 x15 x16 x17 x18 x19 := d in
  Build x0 x1 x2 x3 x4 x5 x6 x7 x8 x9 x10 x11 x12 x13 x14 x15 x16 x17 v x19.

End Skin.

(** ** Values that cross the generator's interfaces *)

Definition Buffer := list Z.

Record GenerateOptions := {
  opt_name : string;
  opt_model : SkinModel;
  opt_visibility : Z
}.

Record ClientInfo := {
  client_via : option string;
  client_userAgent : option string
}.

Record Texture := { texture_url : string }.
Record Textures := { SKIN : option Texture; CAPE : option Texture }.
Record SkinValue := { textures : option Textures }.

Record SkinData := {
  data_value : string;
  data_signature : string;
  decodedValue : option SkinValue
}.

Record SkinMeta := {
  meta_uuid : string;
  meta_imageHash : string;
  meta_mojangHash : string
}.

Record GenerateResult := {
  res_duplicate : option Skin.t;
  res_data : option SkinData;
  res_meta : option SkinMeta;
  res_account : option Account.t
}.

(** [TempFileValidationResult]: a [GenerateResult] with the validated bytes. *)
Record TempFileValidationResult := {
  tfv_result : GenerateResult;
  tfv_buffer : option Buffer;
  tfv_size : option Z;
  tfv_dimensions : option (Z * Z);
  tfv_fileType : option string;
  tfv_hash : option string
}.

(** What the generator reads of the response to the HEAD request. *)
Record AxiosResponse := {
  responseUrl : option string;
  content_type : option string;
  content_length : option Z
}.

Record TempFile := { path : nat }.

(** The three ways the skin-change request can end: accepted, rejected with
    an upstream response, rejected without one. *)
Inductive SkinChangeOutcome := Accepted | RejectedWithResponse | RejectedNoResponse.

(** ** Thrown values and results *)

Inductive Exn :=
| GeneratorError (code : GenError) (msg : string) (httpCode : Z)
    (account : option Account.t)
| AuthenticationError (details : string)
| MineSkinError (code msg : string)
| OtherError (what : string).

Inductive Res (A : Type) :=
| Return (a : A)
| Throw (e : Exn).
Arguments Return {A} a.
Arguments Throw {A} e.

(** ** The state-and-exception monad

    A thrown value keeps the state reached so far, as an exception in an
    [async] function keeps the writes made before it. *)

Definition M (S A : Type) : Type := S -> Res A * S.

Definition ret {S A : Type} (a : A) : M S A := fun s => (Return a, s).

Definition throw {S A : Type} (e : Exn) : M S A := fun s => (Throw e, s).

Definition bind {S A B : Type} (m : M S A) (k : A -> M S B) : M S B :=
  fun s =>
    match m s with
    | (Return a, s') => k a s'
    | (Throw e, s') => (Throw e, s')
    end.

Definition gets {S A : Type} (f : S -> A) : M S A := fun s => (Return (f s), s).

Definition modify {S : Type} (f : S -> S) : M S unit := fun s => (Return tt, f s).

(** [try { m } catch (e) { h e }] *)
Definition try_catch {S A : Type} (m : M S A) (h : Exn -> M S A) : M S A :=
  fun s =>
    match m s with
    | (Return a, s') => (Return a, s')
    | (Throw e, s') => h e s'
    end.

(** [try { m } finally { f }]: [f] runs on both exits; the outcome of [m]
    stands unless [f] itself throws. *)
Definition try_finally {S A : Type} (m : M S A) (f : M S unit) : M S A :=
  fun s =>
    let (r, s1) := m s in
    match f s1 with
    | (Return _, s2) => (r, s2)
    | (Throw e, s2) => (Throw e, s2)
    end.

(** A function's local variables next to the shared state: [lift] runs a
    computation on the shared state, [with_locals] runs a body from the
    initial values of its locals. *)
Definition lift {L S A : Type} (m : M S A) : M (L * S) A :=
  fun ls => let (r, s') := m (snd ls) in (r, (fst ls, s')).

Definition with_locals {L S A : Type} (l0 : L) (m : M (L * S) A) : M S A :=
  fun s => let (r, ls) := m (l0, s) in (r, snd ls).

Declare Scope gen_scope.
Delimit Scope gen_scope with gen.
Notation "x <- m ;; k" := (bind m (fun x => k))
  (at level 100, m at next level, k at level 200, right associativity) : gen_scope.
Notation "m ;; k" := (bind m (fun _ => k))
  (at level 100, k at level 200, right associativity) : gen_scope.
Local Open Scope gen_scope.

(** ** The world the generator acts on *)

Inductive Event :=
| EvHead (url : string)
| EvDownload (url : string)
| EvSkinChangeUrl (accountId : Z) (variant : SkinModel) (url : string)
| EvSkinChangeUpload (accountId : Z) (variant : SkinModel) (file : Buffer)
| EvGetSkinData (uuid : string)
| EvDuplicateMetric (source : DuplicateSource) (type : GenerateType)
| EvNewMetric (type : GenerateType)
| EvDurationMetric (ms : Z) (type : GenerateType) (account : option Z)
| EvWarn (msg : string).

Record World := MkWorld {
  skins : list Skin.t;
  accounts : list Account.t;
  lockedAccounts : gset Z;
  tempFiles : gmap nat Buffer;
  options : GenerateOptions;
  tick : nat;
  trace : list Event
}.

Definition set_skins v (w : World) : World :=
  let 'MkWorld x0 x1 x2 x3 x4 x5 x6 := w in MkWorld v x1 x2 x3 x4 x5 x6.
Definition set_accounts v (w : World) : World :=
  let 'MkWorld x0 x1 x2 x3 x4 x5 x6 := w in MkWorld x0 v x2 x3 x4 x5 x6.
Definition set_lockedAccounts v (w : World) : World :=
  let 'MkWorld x0 x1 x2 x3 x4 x5 x6 := w in MkWorld x0 x1 v x3 x4 x5 x6.
Definition set_tempFiles v (w : World) : World :=
  let 'MkWorld x0 x1 x2 x3 x4 x5 x6 := w in MkWorld x0 x1 x2 v x4 x5 x6.
Definition set_options v (w : World) : World :=
  let 'MkWorld x0 x1 x2 x3 x4 x5 x6 := w in MkWorld x0 x1 x2 x3 v x5 x6.
Definition set_tick v (w : World) : World :=
  let 'MkWorld x0 x1 x2 x3 x4 x5 x6 := w in MkWorld x0 x1 x2 x3 x4 v x6.
Definition set_trace v (w : World) : World :=
  let 'MkWorld x0 x1 x2 x3 x4 x5 x6 := w in MkWorld x0 x1 x2 x3 x4 x5 v.

(** ** The environment

    Everything the generator obtains from outside: the configuration, the
    library functions it calls on values, and the answers of the clock, the
    random source, the network and the disk. An answer of the outside world
    is indexed by [tick], the number of questions asked before it, so two
    calls of one operation may be answered differently. *)
Record Env := {
  (* configuration *)
  config_server : option string;
  config_errorThreshold : option Z;
  optimus_prime : Z;
  optimus_inverse : Z;
  optimus_random : Z;
  (* library functions *)
  MINESKIN_URL_REGEX_exec : string -> option (list string);
  MINECRAFT_TEXTURE_REGEX_exec : string -> option (list string);
  parseInt : string -> Z;
  URL_parse_host : string -> option (option string);
  imageSize : Buffer -> option (Z * Z);
  fileType_fromBuffer : Buffer -> option string;
  Jimp_read : Buffer -> option Jimp;
  imageHash : Buffer -> option string;
  decodeJson : string -> option (option SkinValue);
  getHashFromMojangTextureUrl : string -> option string;
  longAndShortUuid : string -> option (string * string);
  stripUuid : string -> string;
  (* answers of the outside world *)
  Date_now : nat -> Z;
  random32BitNumber : nat -> Z;
  uuid_v4 : nat -> string;
  axios_head : nat -> string -> option AxiosResponse;
  Temp_file_ok : nat -> bool;
  Temp_downloadImage : nat -> string -> option Buffer;
  Temp_copyUploadedImage : nat -> Buffer -> option Buffer;
  minecraftServicesRequest : nat -> SkinChangeOutcome;
  Caching_getSkinData : nat -> string -> option (option SkinData);
  Authentication_authenticate : nat -> Account.t -> Exn + Account.t
}.

(** ** JavaScript truthiness on the values met here *)

Definition truthy_str (s : string) : bool := negb (String.eqb s "").

Definition truthy_ostr (o : option string) : bool :=
  match o with
  | Some s => truthy_str s
  | None => false
  end.

Definition truthy_onum (o : option Z) : bool :=
  match o with
  | Some v => negb (v =? 0)
  | None => false
  end.

Definition isSome {A : Type} (o : option A) : bool :=
  match o with
  | Some _ => true
  | None => false
  end.

(** [x || d] on a number that may be absent. *)
Definition num_or (o : option Z) (d : Z) : Z :=
  match o with
  | Some v => if v =? 0 then d else v
  | None => d
  end.

(** [x++] on a counter: an absent counter becomes [NaN], which no later
    increment turns back into a number; it is kept as [None]. *)
Definition incr (o : option Z) : option Z := (fun v => v + 1) <$> o.

(** ** Collections *)

Definition fresh_id (ids : list nat) : nat := S (foldr Nat.max 0%nat ids).

Definition replace_by_id {A : Type} (key : A -> nat) (d : A) (l : list A) : list A :=
  map (fun x => if Nat.eqb (key x) (key d) then d else x) l.

Inductive TempDir := URL_DIR | UPL_DIR | MOJ_DIR.

Section Generator.

Variable env : Env.

(** *** Primitive effects *)

(** The next answer of the outside world. *)
Definition ask {A : Type} (f : nat -> A) : M World A :=
  fun w => (Return (f (tick w)), set_tick (S (tick w)) w).

Definition emit (ev : Event) : M World unit :=
  modify (fun w => set_trace (trace w ++ [ev]) w).

(** [Skin.findOne(filter)]: the first stored skin that passes the filter. *)
Definition Skin_findOne (filter : Skin.t -> bool) : M World (option Skin.t) :=
  gets (fun w => find filter (skins w)).

(** [existingSkin.save()] *)
Definition Skin_save (d : Skin.t) : M World Skin.t :=
  modify (fun w => set_skins (replace_by_id Skin._id d (skins w)) w) ;;
  ret d.

(** [new Skin(fields).save()]: [fields] is the record still without its
    identity. *)
Definition Skin_create (fields : nat -> Skin.t) : M World Skin.t :=
  ids <- gets (fun w => map Skin._id (skins w)) ;;
  let d := fields (fresh_id ids) in
  modify (fun w => set_skins (skins w ++ [d]) w) ;;
  ret d.

Definition Account_save (d : Account.t) : M World Account.t :=
  modify (fun w => set_accounts (replace_by_id Account._id d (accounts w)) w) ;;
  ret d.

(** Modelled from the spec: the temp-file manager, whose module is not part
    of the sources at hand: [acquire(dir)] gives a handle on a new file (or
    fails), [handle.path] names it, [handle.release()] removes it. *)
Definition Temp_file (dir : TempDir) : M World TempFile :=
  ok <- ask (Temp_file_ok env) ;;
  if ok then
    p <- gets (fun w => fresh (dom (tempFiles w))) ;;
    modify (fun w => set_tempFiles (<[p := []]> (tempFiles w)) w) ;;
    ret {| path := p |}
  else throw (OtherError "Temp.file").

Definition TempFile_remove (tempFile : TempFile) : M World unit :=
  modify (fun w => set_tempFiles (delete (path tempFile) (tempFiles w)) w).

(** Modelled from the spec: [downloadTo(handle, url)] streams a response to
    the handle, or fails. *)
Definition Temp_downloadImage_to (url : string) (tempFile : TempFile) : M World unit :=
  emit (EvDownload url) ;;
  r <- ask (fun n => Temp_downloadImage env n url) ;;
  match r with
  | Some bytes =>
      modify (fun w => set_tempFiles (<[path tempFile := bytes]> (tempFiles w)) w)
  | None => throw (OtherError "downloadImage")
  end.

Definition Temp_copyUploadedImage_to (file : Buffer) (tempFile : TempFile) : M World unit :=
  r <- ask (fun n => Temp_copyUploadedImage env n file) ;;
  match r with
  | Some bytes =>
      modify (fun w => set_tempFiles (<[path tempFile := bytes]> (tempFiles w)) w)
  | None => throw (OtherError "copyUploadedImage")
  end.

Definition fs_readFile (p : nat) : M World Buffer :=
  r <- gets (fun w => tempFiles w !! p) ;;
  match r with
  | Some bytes => ret bytes
  | None => throw (OtherError "ENOENT")
  end.

(** *** Saving *)

Definition MAX_INT : Z := 2147483647.

(** [optimus.encode]: multiply by the prime, keep 31 bits, xor the salt. *)
Definition optimus_encode (num : Z) : Z :=
  Z.lxor (Z.land (num * optimus_prime env) MAX_INT) (optimus_random env).

Definition optimus_decode (num : Z) : Z :=
  Z.land (Z.lxor num (optimus_random env) * optimus_inverse env) MAX_INT.

Equations? makeRandomSkinId (tryN : Z) (w : World) : Res Z * World
  by wf (Z.to_nat (MAX_ID_TRIES + 1 - tryN)) lt :=
makeRandomSkinId tryN w with Z_gt_dec tryN MAX_ID_TRIES := {
  | left _ =>
      throw (GeneratorError FAILED_TO_CREATE_ID
               ("Failed to create unique skin ID after " +:+ pretty tryN +:+ " tries!")
               500 None) w
  | right _ =>
      (rand <- ask (random32BitNumber env) ;;
       let newId := optimus_encode rand in
       existing <- Skin_findOne (fun s => Skin.id s =? newId) ;;
       match existing with
       | Some _ => fun w1 => makeRandomSkinId (tryN + 1) w1
       | None => ret newId
       end) w }.
Proof. unfold MAX_ID_TRIES in *. lia. Qed.

Definition makeNewSkinId : M World Z := makeRandomSkinId 0.

(** [a!.b]: reading through an absent value is a [TypeError]. *)
Definition nonNull {S A : Type} (o : option A) : M S A :=
  match o with
  | Some a => ret a
  | None => throw (OtherError "TypeError")
  end.

(** [time] is kept in milliseconds: the stored number is [Date.now() / 1000],
    not rounded. *)
Definition saveSkin (result : GenerateResult) (client : ClientInfo)
    (type : GenerateType) (start : Z) : M World Skin.t :=
  id <- makeNewSkinId ;;
  opts <- gets options ;;
  data <- nonNull (res_data result) ;;
  decoded <- nonNull (decodedValue data) ;;
  txs <- nonNull (textures decoded) ;;
  skin <- nonNull (SKIN txs) ;;
  now1 <- ask (Date_now env) ;;
  now2 <- ask (Date_now env) ;;
  Skin_create (fun _id =>
    {| Skin._id := _id;
       Skin.id := id;
       Skin.hash := meta_imageHash <$> res_meta result;
       Skin.uuid := meta_uuid <$> res_meta result;
       Skin.name := opt_name opts;
       Skin.model := SkinModel_str (opt_model opts);
       Skin.visibility := opt_visibility opts;
       Skin.value := data_value data;
       Skin.signature := data_signature data;
       Skin.url := texture_url skin;
       Skin.minecraftTextureHash := getHashFromMojangTextureUrl env (texture_url skin);
       Skin.textureHash := meta_mojangHash <$> res_meta result;
       Skin.time := now1;
       Skin.generateDuration := now2 - start;
       Skin.account := Account.id <$> res_account result;
       Skin.type := type;
       Skin.via := client_via client;
       Skin.ua := client_userAgent client;
       Skin.duplicate := 0;
       Skin.views := 0 |}).

Definition getDuplicateOrSaved (result : GenerateResult) (client : ClientInfo)
    (type : GenerateType) (start : Z) : M World Skin.t :=
  match res_duplicate result with
  | Some duplicate => ret duplicate
  | None =>
      match res_data result with
      | Some _ =>
          emit (EvNewMetric type) ;;
          saveSkin result client type start
      | None => throw (MineSkinError "unknown" "Something went wrong while generating")
      end
  end.

(** *** Duplicate checks *)

(** [existingSkin.duplicate++], the metric, [existingSkin.save()]. *)
Definition countDuplicate (existingSkin : Skin.t) (source : DuplicateSource)
    (type : GenerateType) : M World Skin.t :=
  let existingSkin := Skin.set_duplicate (Skin.duplicate existingSkin + 1) existingSkin in
  emit (EvDuplicateMetric source type) ;;
  Skin_save existingSkin.

Definition findDuplicateFromUrl (url : string) (type : GenerateType)
    : M World (option Skin.t) :=
  opts <- gets options ;;
  if negb (truthy_str url) || (Z.of_nat (String.length url) <? 8)
     || negb (String.prefix "http" url) then ret None
  else
    let mineskinUrlResult := MINESKIN_URL_REGEX_exec env url in
    if isSome mineskinUrlResult && (3 <=? Z.of_nat (length (default [] mineskinUrlResult)))
    then
      let mineskinId := parseInt env (nth 2 (default [] mineskinUrlResult) "") in
      existingSkin <- Skin_findOne (fun s =>
        (Skin.id s =? mineskinId)
        && String.eqb (Skin.name s) (opt_name opts)
        && String.eqb (Skin.model s) (SkinModel_str (opt_model opts))
        && (Skin.visibility s =? opt_visibility opts)) ;;
      match existingSkin with
      | Some existingSkin =>
          s <- countDuplicate existingSkin MINESKIN_URL type ;; ret (Some s)
      | None => ret None
      end
    else
      let minecraftTextureResult := MINECRAFT_TEXTURE_REGEX_exec env url in
      if isSome minecraftTextureResult
         && (2 <=? Z.of_nat (length (default [] minecraftTextureResult)))
      then
        let textureUrl := nth 0 (default [] minecraftTextureResult) "" in
        let textureHash := nth 1 (default [] minecraftTextureResult) "" in
        existingSkin <- Skin_findOne (fun s =>
          (String.eqb (Skin.url s) textureUrl
           || bool_decide (Skin.minecraftTextureHash s = Some textureHash))
          && String.eqb (Skin.name s) (opt_name opts)
          && String.eqb (Skin.model s) (SkinModel_str (opt_model opts))
          && (Skin.visibility s =? opt_visibility opts)) ;;
        match existingSkin with
        | Some existingSkin =>
            s <- countDuplicate existingSkin TEXTURE_URL type ;; ret (Some s)
        | None => ret None
        end
      else ret None.

(** The filter of the image-hash probe: [hash], [name: options.name],
    [model: options.name], [visibility: options.visibility]. *)
Definition imageHashFilter (hash : string) (opts : GenerateOptions) (s : Skin.t) : bool :=
  bool_decide (Skin.hash s = Some hash)
  && String.eqb (Skin.name s) (opt_name opts)
  && String.eqb (Skin.model s) (opt_name opts)
  && (Skin.visibility s =? opt_visibility opts).

Definition findDuplicateFromImageHash (hash : string) (type : GenerateType)
    : M World (option Skin.t) :=
  opts <- gets options ;;
  if negb (truthy_str hash) || (Z.of_nat (String.length hash) <? 30) then ret None
  else
    existingSkin <- Skin_findOne (imageHashFilter hash opts) ;;
    match existingSkin with
    | Some existingSkin =>
        s <- countDuplicate existingSkin IMAGE_HASH type ;; ret (Some s)
    | None => ret None
    end.

(** The filter of the user-UUID probe: [uuid], [name: options.name],
    [model: options.name], [visibility: options.visibility]. *)
Definition uuidFilter (uuid : string) (opts : GenerateOptions) (s : Skin.t) : bool :=
  bool_decide (Skin.uuid s = Some uuid)
  && String.eqb (Skin.name s) (opt_name opts)
  && String.eqb (Skin.model s) (opt_name opts)
  && (Skin.visibility s =? opt_visibility opts).

Definition findDuplicateFromUuid (uuid : string) (type : GenerateType)
    : M World (option Skin.t) :=
  opts <- gets options ;;
  if negb (truthy_str uuid) || (Z.of_nat (String.length uuid) <? 34) then ret None
  else
    existingSkin <- Skin_findOne (uuidFilter uuid opts) ;;
    match existingSkin with
    | Some existingSkin =>
        s <- countDuplicate existingSkin USER_UUID type ;; ret (Some s)
    | None => ret None
    end.

(** *** The account pool: [findUsable] *)

(** [{ path: { $exists: false } }] or [{ path: { $lt: bound } }] *)
Definition absent_or_lt (o : option Z) (bound : Z) : bool :=
  match o with
  | None => true
  | Some v => v <? bound
  end.

(** [{ path: { $lt: bound } }]: an absent path does not match. *)
Definition present_lt (o : option Z) (bound : Z) : bool :=
  match o with
  | None => false
  | Some v => v <? bound
  end.

(** The query of [findUsable] at epoch second [time], with [locked] the
    account ids that [Caching.getLockedAccounts()] returns. *)
Definition usableFilter (time : Z) (locked : gset Z) (a : Account.t) : bool :=
  Account.enabled a
  && negb (bool_decide (Account.id a ∈ locked))
  && (match Account.requestServer a with
      | None => true
      | Some s => String.eqb s "default" || bool_decide (Some s = config_server env)
      end)
  && absent_or_lt (Account.lastSelected a) (time - 50)
  && absent_or_lt (Account.lastUsed a) (time - 100)
  && absent_or_lt (Account.forcedTimeoutAt a) (time - 500)
  && present_lt (Account.errorCounter a) (num_or (config_errorThreshold env) 10)
  && present_lt (Account.timeAdded a) (time - 60).

(** Ascending order on a sort key: an absent path sorts before any number. *)
Definition key_lt (a b : option Z) : bool :=
  match a, b with
  | None, Some _ => true
  | Some x, Some y => x <? y
  | _, None => false
  end.

(** [sort({ lastUsed: 1, lastSelected: 1, sameTextureCounter: 1 })]:
    [a] sorts strictly before [b]. *)
Definition sortsBefore (a b : Account.t) : bool :=
  key_lt (Account.lastUsed a) (Account.lastUsed b)
  || (bool_decide (Account.lastUsed a = Account.lastUsed b)
      && (key_lt (Account.lastSelected a) (Account.lastSelected b)
          || (bool_decide (Account.lastSelected a = Account.lastSelected b)
              && key_lt (Account.sameTextureCounter a) (Account.sameTextureCounter b)))).

(** The first document in sort order; among equals, the first stored. *)
Definition firstSorted (l : list Account.t) : option Account.t :=
  fold_left
    (fun best a =>
       match best with
       | None => Some a
       | Some b => if sortsBefore a b then Some a else Some b
       end)
    l None.

(** What [findUsable] writes on the account it found: the selection time,
    and zero for each counter that is not a non-zero number yet. *)
Definition markSelected (time : Z) (account : Account.t) : Account.t :=
  let account := Account.set_lastSelected (Some time) account in
  let account :=
    if negb (truthy_onum (Account.successCounter account))
    then Account.set_successCounter (Some 0) account else account in
  let account :=
    if negb (truthy_onum (Account.errorCounter account))
    then Account.set_errorCounter (Some 0) account else account in
  let account :=
    if negb (truthy_onum (Account.totalSuccessCounter account))
    then Account.set_totalSuccessCounter (Some 0) account else account in
  if negb (truthy_onum (Account.totalErrorCounter account))
  then Account.set_totalErrorCounter (Some 0) account else account.

(** Modelled from the spec: the locked set kept by [Caching], whose module is
    not part of the sources at hand: a process-wide set of account ids,
    consulted during the eligibility query; an id enters it on acquire. *)
Definition Caching_getLockedAccounts : M World (gset Z) := gets lockedAccounts.

Definition Caching_lockSelectedAccount (id : Z) : M World unit :=
  modify (fun w => set_lockedAccounts ({[id]} ∪ lockedAccounts w) w).

Definition findUsable : M World (option Account.t) :=
  now <- ask (Date_now env) ;;
  let time := now / 1000 in
  locked <- Caching_getLockedAccounts ;;
  found <- gets (fun w => firstSorted (List.filter (usableFilter time locked) (accounts w))) ;;
  match found with
  | None =>
      emit (EvWarn "There are no accounts available!") ;;
      ret None
  | Some account =>
      Caching_lockSelectedAccount (Account.id account) ;;
      a <- Account_save (markSelected time account) ;;
      ret (Some a)
  end.

Definition updateRequestServer (newRequestServer : option string) (this : Account.t)
    : Account.t :=
  let this :=
    if truthy_ostr (Account.requestServer this)
       && negb (bool_decide (Account.requestServer this = newRequestServer))
    then Account.set_lastRequestServer (Account.requestServer this) this
    else this in
  Account.set_requestServer newRequestServer this.

(** *** Authentication *)

(** Modelled from the spec: [Authentication.authenticate], whose module is
    not part of the sources at hand: [ensureAuthenticated(account)] gives the
    account with a valid token, or raises. The environment answers. *)
Definition Authentication_authenticate_M (account : Account.t) : M World Account.t :=
  r <- ask (fun n => Authentication_authenticate env n account) ;;
  match r with
  | inl e => throw e
  | inr account' => ret account'
  end.

Definition getAndAuthenticateAccount : M World Account.t :=
  account <- findUsable ;;
  match account with
  | None =>
      emit (EvWarn "[Generator] No account available!") ;;
      throw (GeneratorError NO_ACCOUNT_AVAILABLE "No account available" 500 None)
  | Some account =>
      account <- Authentication_authenticate_M account ;;
      now <- ask (Date_now env) ;;
      let account := Account.set_lastUsed (Some (now / 1000)) account in
      let account := updateRequestServer (config_server env) account in
      ret account
  end.

(** *** Success and error handlers

    Both mutate the account object they are given; the mutated object is
    returned. *)

Definition handleGenerateSuccess (account : option Account.t)
    : M World (option Account.t) :=
  match account with
  | None => ret None
  | Some account =>
      try_catch
        (let account := Account.set_errorCounter (Some 0) account in
         let account :=
           Account.set_successCounter (incr (Account.successCounter account)) account in
         let account :=
           Account.set_totalSuccessCounter (incr (Account.totalSuccessCounter account))
             account in
         a <- Account_save account ;;
         ret (Some a))
        (fun e1 => emit (EvWarn "Sentry") ;; ret (Some account))
  end.

Definition isAuthenticationError (e : Exn) : bool :=
  match e with
  | AuthenticationError _ => true
  | _ => false
  end.

Definition handleGenerateError (e : Exn) (account : option Account.t)
    : M World (option Account.t) :=
  match account with
  | None => ret None
  | Some account =>
      try_catch
        (let account := Account.set_successCounter (Some 0) account in
         let account :=
           Account.set_errorCounter (incr (Account.errorCounter account)) account in
         let account :=
           Account.set_totalErrorCounter (incr (Account.totalErrorCounter account))
             account in
         account <-
           (if isAuthenticationError e then
              now <- ask (Date_now env) ;;
              let account := Account.set_forcedTimeoutAt (Some (now / 1000)) account in
              emit (EvWarn "[Generator] Account forced timeout") ;;
              ret (updateRequestServer None account)
            else ret account) ;;
         a <- Account_save account ;;
         ret (Some a))
        (fun e1 => emit (EvWarn "Sentry") ;; ret (Some account))
  end.

(** *** Validation *)

Definition getUrlFromResponse (response : AxiosResponse) : option string :=
  responseUrl response.

Definition getSizeFromResponse (response : AxiosResponse) : option Z :=
  content_length response.

Definition getContentTypeFromResponse (response : AxiosResponse) : option string :=
  content_type response.

Definition dimensionsMessage (width height : Z) : string :=
  "Invalid image dimensions. Must be 64x32 or 64x64 (Were "
  +:+ pretty width +:+ "x" +:+ pretty height +:+ ")".

(** [validateImageData(buffer)]: [Jimp.read], then the checks on the
    decoded image. *)
Definition validateImageData_buffer (buffer : Buffer) : M World SkinModel :=
  match Jimp_read env buffer with
  | None => throw (OtherError "Jimp.read")
  | Some image =>
      match validateImageData image with
      | inl (code, httpCode) =>
          throw (GeneratorError code
                   (dimensionsMessage (getWidth image) (getHeight image)) httpCode None)
      | inr model => ret model
      end
  end.

(** [!type || !type.startsWith("image") || !ALLOWED_IMAGE_TYPES.includes(type)] *)
Definition badImageType (mime : option string) : bool :=
  match mime with
  | None => true
  | Some m =>
      negb (truthy_str m) || negb (String.prefix "image" m)
      || negb (bool_decide (m ∈ ALLOWED_IMAGE_TYPES))
  end.

(** [!size || size < 100 || size > MAX_IMAGE_SIZE] *)
Definition badImageSize (size : option Z) : bool :=
  negb (truthy_onum size) || present_lt size 100
  || match size with Some v => v >? MAX_IMAGE_SIZE | None => false end.

Definition emptyResult : GenerateResult :=
  {| res_duplicate := None; res_data := None; res_meta := None; res_account := None |}.

Definition duplicateResult (duplicate : Skin.t) : GenerateResult :=
  {| res_duplicate := Some duplicate; res_data := None; res_meta := None;
     res_account := None |}.

Definition validateTempFile (tempFile : TempFile) (type : GenerateType)
    : M World TempFileValidationResult :=
  imageBuffer <- fs_readFile (path tempFile) ;;
  let size := Z.of_nat (length imageBuffer) in
  if badImageSize (Some size) then
    throw (GeneratorError INVALID_IMAGE "Invalid file size" 400 None)
  else
    dimensions <- match imageSize env imageBuffer with
                  | Some d => ret d
                  | None => throw (OtherError "imageSize")
                  end ;;
    if negb (fst dimensions =? 64)
       || (negb (snd dimensions =? 64) && negb (snd dimensions =? 32)) then
      throw (GeneratorError INVALID_IMAGE
               (dimensionsMessage (fst dimensions) (snd dimensions)) 400 None)
    else
      let fType := fileType_fromBuffer env imageBuffer in
      if badImageType fType then
        throw (GeneratorError INVALID_IMAGE
                 ("Invalid file type: "
                  +:+ (if isSome fType then "[object Object]" else "undefined"))
                 400 None)
      else
        dataValidation <- validateImageData_buffer imageBuffer ;;
        modify (fun w =>
          let opts := options w in
          set_options
            {| opt_name := opt_name opts;
               opt_model := switchModel (opt_model opts) dataValidation;
               opt_visibility := opt_visibility opts |} w) ;;
        imgHash <- match imageHash env imageBuffer with
                   | Some h => ret h
                   | None => throw (OtherError "imageHash")
                   end ;;
        hashDuplicate <- findDuplicateFromImageHash imgHash type ;;
        match hashDuplicate with
        | Some hashDuplicate =>
            ret {| tfv_result := duplicateResult hashDuplicate;
                   tfv_buffer := None; tfv_size := None; tfv_dimensions := None;
                   tfv_fileType := None; tfv_hash := None |}
        | None =>
            ret {| tfv_result := emptyResult;
                   tfv_buffer := Some imageBuffer; tfv_size := Some size;
                   tfv_dimensions := Some dimensions; tfv_fileType := fType;
                   tfv_hash := Some imgHash |}
        end.

(** [decodeValue(data)]: the decoded value, also stored in the data. *)
Definition decodeValue (data : SkinData) : M World (option SkinValue * SkinData) :=
  match decodeJson env (data_value data) with
  | None => throw (OtherError "JSON.parse")
  | Some decoded =>
      ret (decoded,
           {| data_value := data_value data; data_signature := data_signature data;
              decodedValue := decoded |})
  end.

Definition hasSkinInfo (decoded : option SkinValue) : bool :=
  match decoded with
  | Some v =>
      match textures v with
      | Some t => isSome (SKIN t)
      | None => false
      end
  | None => false
  end.

(** [hasOwnProperty(accountOrUuid, "id")]: the plain object [{ uuid }] has
    no [id], and an account document has its paths on the prototype of the
    model, not as properties of its own. *)
Definition hasOwnProperty_id (accountOrUuid : option Account.t) : bool := false.

(** [getSkinData(accountOrUuid)]: [uuid] is [accountOrUuid.uuid], [account]
    the argument itself when it is an account; an error carries the account
    only if [hasOwnProperty(accountOrUuid, "id")]. *)
Definition getSkinData (uuid : string) (account : option Account.t) : M World SkinData :=
  let account := if hasOwnProperty_id account then account else None in
  let uuid := stripUuid env uuid in
  emit (EvGetSkinData uuid) ;;
  r <- ask (fun n => Caching_getSkinData env n uuid) ;;
  data <- match r with
          | Some d => ret d
          | None => throw (OtherError "Caching.getSkinData")
          end ;;
  match data with
  | None => throw (GeneratorError INVALID_SKIN_DATA "Skin data was invalid" 500 account)
  | Some data =>
      if negb (truthy_str (data_value data)) then
        throw (GeneratorError INVALID_SKIN_DATA "Skin data was invalid" 500 account)
      else
        dd <- decodeValue data ;;
        if negb (hasSkinInfo (fst dd)) then
          throw (GeneratorError INVALID_SKIN_DATA "Skin data has no skin info" 500 account)
        else ret (snd dd)
  end.

(** [data.decodedValue!.textures!.SKIN!.url] *)
Definition skinUrlOf {S : Type} (data : SkinData) : M S string :=
  decoded <- nonNull (decodedValue data) ;;
  txs <- nonNull (textures decoded) ;;
  skin <- nonNull (SKIN txs) ;;
  ret (texture_url skin).

Definition getMojangHash (url : string) : M World string :=
  tempFile <- Temp_file MOJ_DIR ;;
  try_finally
    (Temp_downloadImage_to url tempFile ;;
     imageBuffer <- fs_readFile (path tempFile) ;;
     match imageHash env imageBuffer with
     | Some h => ret h
     | None => throw (OtherError "imageHash")
     end)
    (TempFile_remove tempFile).

(** *** The three entry points *)

(** The local variables [account] and [tempFile] of [generateFromUrl] and
    [generateFromUpload]: assigned in the [try] block, read in [catch] and
    [finally]. *)
Record Locals := {
  l_account : option Account.t;
  l_tempFile : option TempFile
}.

Definition noLocals : Locals := {| l_account := None; l_tempFile := None |}.

Definition assign_account (a : option Account.t) : M (Locals * World) unit :=
  modify (fun ls => ({| l_account := a; l_tempFile := l_tempFile (fst ls) |}, snd ls)).

Definition assign_tempFile (t : TempFile) : M (Locals * World) unit :=
  modify (fun ls => ({| l_account := l_account (fst ls); l_tempFile := Some t |}, snd ls)).

(** [catch (e) { await this.handleGenerateError(e, account); throw e; }] *)
Definition catchGenerate {A : Type} (e : Exn) : M (Locals * World) A :=
  account <- gets (fun ls => l_account (fst ls)) ;;
  lift (handleGenerateError e account) ;;
  throw e.

(** [finally { if (tempFile) { tempFile.remove(); } }] *)
Definition finallyGenerate : M (Locals * World) unit :=
  tempFile <- gets (fun ls => l_tempFile (fst ls)) ;;
  match tempFile with
  | Some t => lift (TempFile_remove t)
  | None => ret tt
  end.

Definition followUrl (urlStr : string) : M World (option AxiosResponse) :=
  if negb (truthy_str urlStr) then ret None
  else
    try_catch
      (match URL_parse_host env urlStr with
       | None => throw (OtherError "URL.parse")
       | Some host =>
           if bool_decide (default "" host ∈ URL_FOLLOW_WHITELIST) && isSome host then
             emit (EvHead urlStr) ;;
             r <- ask (fun n => axios_head env n urlStr) ;;
             match r with
             | Some response => ret (Some response)
             | None => throw (OtherError "HEAD")
             end
           else ret None
       end)
      (fun e => emit (EvWarn "Sentry") ;; ret None).

(** The skin-change request and its [.catch]. *)
Definition skinChangeRequest (ev : Event) (account : Account.t) : M World unit :=
  emit ev ;;
  outcome <- ask (minecraftServicesRequest env) ;;
  match outcome with
  | Accepted => ret tt
  | RejectedWithResponse =>
      throw (GeneratorError SKIN_CHANGE_FAILED "Failed to change skin" 500 (Some account))
  | RejectedNoResponse => throw (OtherError "request")
  end.

(** [body.append("file", new Blob([buffer], ...), ...)] on a [FormData] of
    the form-data library, which takes strings, buffers and streams: on a
    [Blob] the call raises a [TypeError]. *)
Definition FormData_append_Blob {S : Type} (file : Buffer) : M S unit :=
  throw (OtherError "TypeError").

(** The common tail of [generateFromUrl] and [generateFromUpload] once the
    skin-change request went through. *)
Definition finishGenerate (account : Account.t) (tempFileValidation : TempFileValidationResult)
    : M (Locals * World) GenerateResult :=
  data <- lift (getSkinData (Account.uuid account) (Some account)) ;;
  skinUrl <- skinUrlOf data ;;
  mojangHash <- lift (getMojangHash skinUrl) ;;
  account' <- lift (handleGenerateSuccess (Some account)) ;;
  assign_account account' ;;
  u <- lift (ask (uuid_v4 env)) ;;
  ret {| res_duplicate := None;
         res_data := Some data;
         res_account := account';
         res_meta := Some {| meta_uuid := u;
                             meta_imageHash := default "" (tfv_hash tempFileValidation);
                             meta_mojangHash := mojangHash |} |}.

Definition generateFromUrl (originalUrl : string) : M World GenerateResult :=
  with_locals noLocals
    (try_finally
       (try_catch
          (followResponse <- lift (followUrl originalUrl) ;;
           match followResponse with
           | None =>
               throw (GeneratorError INVALID_IMAGE_URL "Failed to find image from url"
                        500 None)
           | Some followResponse =>
               let url := getUrlFromResponse followResponse in
               if negb (truthy_ostr url) then
                 throw (GeneratorError INVALID_IMAGE_URL "Failed to follow url" 500 None)
               else
                 let url := default "" url in
                 urlDuplicate <- lift (findDuplicateFromUrl url URL) ;;
                 match urlDuplicate with
                 | Some urlDuplicate => ret (duplicateResult urlDuplicate)
                 | None =>
                     let contentType := getContentTypeFromResponse followResponse in
                     if badImageType contentType then
                       throw (GeneratorError INVALID_IMAGE
                                ("Invalid image content type: "
                                 +:+ default "undefined" contentType)
                                400 None)
                     else
                       let size := getSizeFromResponse followResponse in
                       if badImageSize size then
                         throw (GeneratorError INVALID_IMAGE "Invalid image file size"
                                  400 None)
                       else
                         tempFile <- lift (Temp_file URL_DIR) ;;
                         assign_tempFile tempFile ;;
                         try_catch
                           (lift (Temp_downloadImage_to url tempFile))
                           (fun e =>
                              throw (GeneratorError INVALID_IMAGE "Failed to download image"
                                       500 None)) ;;
                         tempFileValidation <- lift (validateTempFile tempFile URL) ;;
                         match res_duplicate (tfv_result tempFileValidation) with
                         | Some _ => ret (tfv_result tempFileValidation)
                         | None =>
                             account <- lift getAndAuthenticateAccount ;;
                             assign_account (Some account) ;;
                             variant <- gets (fun ls => opt_model (options (snd ls))) ;;
                             lift (skinChangeRequest
                                     (EvSkinChangeUrl (Account.id account) variant url)
                                     account) ;;
                             finishGenerate account tempFileValidation
                         end
                 end
           end)
          catchGenerate)
       finallyGenerate).

Definition generateFromUrlAndSave (url : string) (client : ClientInfo) : M World Skin.t :=
  start <- ask (Date_now env) ;;
  data <- generateFromUrl url ;;
  doc <- getDuplicateOrSaved data client URL start ;;
  end_ <- ask (Date_now env) ;;
  emit (EvDurationMetric (end_ - start) URL (Account.id <$> res_account data)) ;;
  ret doc.

Definition generateFromUpload (file : Buffer) : M World GenerateResult :=
  with_locals noLocals
    (try_finally
       (try_catch
          (tempFile <- lift (Temp_file UPL_DIR) ;;
           assign_tempFile tempFile ;;
           try_catch
             (lift (Temp_copyUploadedImage_to file tempFile))
             (fun e =>
                throw (GeneratorError INVALID_IMAGE "Failed to upload image" 500 None)) ;;
           tempFileValidation <- lift (validateTempFile tempFile UPLOAD) ;;
           match res_duplicate (tfv_result tempFileValidation) with
           | Some _ => ret (tfv_result tempFileValidation)
           | None =>
               account <- lift getAndAuthenticateAccount ;;
               assign_account (Some account) ;;
               variant <- gets (fun ls => opt_model (options (snd ls))) ;;
               FormData_append_Blob (default [] (tfv_buffer tempFileValidation)) ;;
               lift (skinChangeRequest
                       (EvSkinChangeUpload (Account.id account) variant
                          (default [] (tfv_buffer tempFileValidation)))
                       account) ;;
               finishGenerate account tempFileValidation
           end)
          catchGenerate)
       finallyGenerate).

Definition generateFromUploadAndSave (file : Buffer) (client : ClientInfo)
    : M World Skin.t :=
  start <- ask (Date_now env) ;;
  data <- generateFromUpload file ;;
  doc <- getDuplicateOrSaved data client UPLOAD start ;;
  end_ <- ask (Date_now env) ;;
  emit (EvDurationMetric (end_ - start) UPLOAD (Account.id <$> res_account data)) ;;
  ret doc.

Definition generateFromUser (uuid : string) : M World GenerateResult :=
  uuids <- nonNull (longAndShortUuid env uuid) ;;
  uuidDuplicate <- findDuplicateFromUuid (fst uuids) USER ;;
  match uuidDuplicate with
  | Some uuidDuplicate => ret (duplicateResult uuidDuplicate)
  | None =>
      data <- getSkinData (snd uuids) None ;;
      skinUrl <- skinUrlOf data ;;
      mojangHash <- getMojangHash skinUrl ;;
      ret {| res_duplicate := None;
             res_data := Some data;
             res_account := None;
             res_meta := Some {| meta_uuid := fst uuids;
                                 meta_imageHash := mojangHash;
                                 meta_mojangHash := mojangHash |} |}
  end.

Definition generateFromUserAndSave (user : string) (client : ClientInfo) : M World Skin.t :=
  start <- ask (Date_now env) ;;
  data <- generateFromUser user ;;
  doc <- getDuplicateOrSaved data client USER start ;;
  end_ <- ask (Date_now env) ;;
  emit (EvDurationMetric (end_ - start) USER (Account.id <$> res_account data)) ;;
  ret doc.

End Generator.

(** ** The callback-style authentication module *)

Module Auth.

(** The account paths this module reads or writes. *)
Record Account := {
  id : Z;
  username : string;
  passwordNew : string;
  requestIp : string;
  clientToken : option string;
  accessToken : option string
}.

Definition set_clientToken (v : option string) (a : Account) : Account :=
  {| id := id a; username := username a; passwordNew := passwordNew a;
     requestIp := requestIp a; clientToken := v; accessToken := accessToken a |}.

Definition set_accessToken (v : option string) (a : Account) : Account :=
  {| id := id a; username := username a; passwordNew := passwordNew a;
     requestIp := requestIp a; clientToken := clientToken a; accessToken := v |}.

(** The JSON body of a response: its [error] and [accessToken] members. *)
Record Body := {
  error : option string;
  body_accessToken : option string
}.

(** What [request] hands to its callback: [err], or a response with its
    status code and its body (which may be absent). *)
Inductive Reply :=
| NetError (err : string)
| Response (statusCode : Z) (body : option Body).

(** The requests sent and the saves made, in order. *)
Inductive Event :=
| POST_validate (accessToken clientToken : option string)
| POST_refresh (accessToken clientToken : option string)
| POST_authenticate (username password : string) (clientToken : option string)
| Save (account : Account).

(** How a call ends: [cb(err, account)], or an exception nobody catches. *)
Inductive Outcome :=
| Cb_err_net (err : string)
| Cb_err_body (body : Body)
| Cb_ok (account : Account)
| Uncaught (what : string).

(** The answers of the outside world to one call of [authenticate]. *)
Record Env := {
  validate_reply : Reply;
  refresh_reply : Reply;
  authenticate_reply : Reply;
  uuid : string;
  decrypt : string -> string
}.

Section Authenticate.

Variable env : Env.

Definition loginCallback (account : Account) : list Event * Outcome :=
  let account :=
    if negb (truthy_ostr (clientToken account))
    then set_clientToken (Some (uuid env)) account else account in
  let post :=
    POST_authenticate (username account) (decrypt env (passwordNew account))
      (clientToken account) in
  match authenticate_reply env with
  | NetError err => ([post], Cb_err_net err)
  | Response _ None => ([post], Uncaught "TypeError")
  | Response _ (Some body) =>
      if truthy_ostr (error body) then ([post], Cb_err_body body)
      else
        let account := set_accessToken (body_accessToken body) account in
        ([post; Save account], Cb_ok account)
  end.

Definition refresh (account : Account) : list Event * Outcome :=
  let post := POST_refresh (accessToken account) (clientToken account) in
  let failed (_ : unit) :=
    let account := set_accessToken None account in
    let (evs, out) := loginCallback account in
    (post :: Save account :: evs, out) in
  match refresh_reply env with
  | NetError err => failed tt
  | Response _ None => ([post], Uncaught "TypeError")
  | Response _ (Some body) =>
      if truthy_ostr (error body) then failed tt
      else
        let account := set_accessToken (body_accessToken body) account in
        ([post; Save account], Cb_ok account)
  end.

(** [err || response.statusCode < 200 || response.statusCode > 230
     || (body && body.error)] *)
Definition validateFailed (r : Reply) : bool :=
  match r with
  | NetError _ => true
  | Response statusCode body =>
      (statusCode <? 200) || (statusCode >? 230)
      || match body with
         | Some b => truthy_ostr (error b)
         | None => false
         end
  end.

Definition authenticate (account : Account) : list Event * Outcome :=
  if truthy_ostr (clientToken account) && truthy_ostr (accessToken account) then
    let post := POST_validate (accessToken account) (clientToken account) in
    if validateFailed (validate_reply env) then
      let (evs, out) := refresh account in
      (post :: evs, out)
    else ([post], Cb_ok account)
  else loginCallback account.

End Authenticate.

End Auth.

(** ** Statistics on the account pool

    [countGlobalUsable], [getAccountsPerServer] and
    [getPreferredAccountServer] of the account schema, and the counts that
    [Generator.getStats] takes of the pool. *)

Section AccountStats.

Variable env : Env.

(** [Model.count(filter)] *)
Definition count {A : Type} (filter : A -> bool) (l : list A) : Z :=
  Z.of_nat (length (List.filter filter l)).

(** [{ enabled: true, errorCounter: { $lt: (config.errorThreshold || 10) } }] *)
Definition globalUsableFilter (a : Account.t) : bool :=
  Account.enabled a
  && present_lt (Account.errorCounter a) (num_or (config_errorThreshold env) 10).

Definition countGlobalUsable : M World Z :=
  gets (fun w => count globalUsableFilter (accounts w)).

(** [{ path: { $lt: (time - d) } }] where [time] is [Date.now() / 1000],
    not rounded: on a stored whole number of seconds [v], [v < now / 1000 - d]
    is [1000 * v < now - 1000 * d]. An absent path does not match. *)
Definition present_lt_ms (o : option Z) (now d : Z) : bool :=
  match o with
  | None => false
  | Some v => 1000 * v <? now - 1000 * d
  end.

(** The filter of the [useableAccounts] count of [getStats]; [undefined] in
    [$in] matches an absent or [null] path. *)
Definition statsUseableFilter (now : Z) (a : Account.t) : bool :=
  Account.enabled a
  && (match Account.requestServer a with
      | None => true
      | Some s => String.eqb s "default" || bool_decide (Some s = config_server env)
      end)
  && present_lt_ms (Account.lastUsed a) now 100
  && present_lt_ms (Account.forcedTimeoutAt a) now 500
  && present_lt (Account.errorCounter a) (num_or (config_errorThreshold env) 10)
  && present_lt_ms (Account.timeAdded a) now 60.

Record Stats := {
  stats_server : option string;
  stats_accounts : Z;
  stats_serverAccounts : Z;
  stats_healthyAccounts : Z;
  stats_useableAccounts : Z
}.

(** [getStats], one evaluation of its body (the method is memoized for a
    minute). The [delay] member is left out: [calculateDelay] derives it
    from a constant that is not part of the sources at hand. *)
Definition getStats : M World Stats :=
  now <- ask (Date_now env) ;;
  enabledAccounts <- gets (fun w => count Account.enabled (accounts w)) ;;
  serverAccounts <-
    gets (fun w =>
            count (fun a => Account.enabled a
                            && bool_decide (Account.requestServer a = config_server env))
              (accounts w)) ;;
  healthyAccounts <- countGlobalUsable ;;
  useableAccounts <- gets (fun w => count (statsUseableFilter now) (accounts w)) ;;
  ret {| stats_server := config_server env;
         stats_accounts := enabledAccounts;
         stats_serverAccounts := serverAccounts;
         stats_healthyAccounts := healthyAccounts;
         stats_useableAccounts := useableAccounts |}.

End AccountStats.

(** [{ $match: { enabled: true, errorCounter: { $lt: 10 } } }] *)
Definition perServerMatch (a : Account.t) : bool :=
  Account.enabled a && present_lt (Account.errorCounter a) 10.

(** [{ $group: { _id: '$requestServer', count: { $sum: 1 } } }]: one more
    for the group of [k]. The groups are kept in order of first occurrence;
    the aggregation itself promises no order. *)
Fixpoint group_bump (k : option string) (groups : list (option string * Z))
    : list (option string * Z) :=
  match groups with
  | [] => [(k, 1)]
  | (k', c) :: rest =>
      if bool_decide (k = k') then (k', c + 1) :: rest
      else (k', c) :: group_bump k rest
  end.

Definition groupByServer (l : list Account.t) : list (option string * Z) :=
  fold_left (fun groups a => group_bump (Account.requestServer a) groups) l [].

(** [{ $sort: { count: 1 } }], by insertion. *)
Fixpoint sort_insert (x : option string * Z) (l : list (option string * Z))
    : list (option string * Z) :=
  match l with
  | [] => [x]
  | y :: rest => if snd x <=? snd y then x :: y :: rest else y :: sort_insert x rest
  end.

Definition sortByCount (l : list (option string * Z)) : list (option string * Z) :=
  foldr sort_insert [] l.

Record ServerCount := {
  server : option string;
  server_count : Z
}.

Definition getAccountsPerServer : M World (list ServerCount) :=
  accountsPerServer <-
    gets (fun w => sortByCount (groupByServer (List.filter perServerMatch (accounts w)))) ;;
  ret (map (fun a => {| server := fst a; server_count := snd a |}) accountsPerServer).

(** The outer [option] is [undefined] (no group at all); the inner one is
    the [_id] of the first group, [null] for the accounts bound to no
    server. *)
Definition getPreferredAccountServer : M World (option (option string)) :=
  accountsPerServer <- getAccountsPerServer ;;
  match accountsPerServer with
  | [] => ret None
  | first :: _ => ret (Some (server first))
  end.

(** ** The counters of the statistics collection *)

Module Stat.

Record t := Build {
  _id : nat;
  key : string;
  value : option Z
}.

Definition set_value v (d : t) : t := Build (_id d) (key d) v.

(** [Stat.inc(key, amount)] on the collection: the first document with the
    key gets [value += amount] and is saved; without such a document, the
    call warns and changes nothing. On an absent [value] the sum is [NaN],
    which [save()] rejects with a [ValidationError]: the collection is
    unchanged. *)
Definition inc (key : string) (amount : Z) : M (list t) unit :=
  stat <- gets (find (fun s => String.eqb (Stat.key s) key)) ;;
  match stat with
  | None => ret tt
  | Some stat =>
      match value stat with
      | None => throw (OtherError "ValidationError")
      | Some v => modify (replace_by_id _id (set_value (Some (v + amount)) stat))
      end
  end.

End Stat.

(** * Notions used to state the properties *)

(** ** Variant detection *)

Definition opaqueAt (image : Jimp) (x y : Z) : bool := is255 (alpha image x y).

(** The model that [validateTempFile] leaves in options whose model was
    [optionsModel], for a buffer decoded as [image]. *)
Definition inferredModel (optionsModel : SkinModel) (image : Jimp) : option SkinModel :=
  match validateImageData image with
  | inr detected => Some (switchModel optionsModel detected)
  | inl _ => None
  end.

(** ** Id allocation *)

(** The id encoded from the [n]-th answer of the random source is in the
    catalog. *)
Definition idTaken (env : Env) (w : World) (n : nat) : bool :=
  isSome (find (fun s => Skin.id s =? optimus_encode env (random32BitNumber env n))
            (skins w)).

(** The error of [makeRandomSkinId] when it gives up: it is raised by the
    call with [tryN = 11]. *)
Definition failedToCreateId : Exn :=
  GeneratorError FAILED_TO_CREATE_ID
    "Failed to create unique skin ID after 11 tries!" 500 None.

(** ** Eligibility of a pool member *)

Definition errorThreshold (env : Env) : Z := num_or (config_errorThreshold env) 10.

(** The predicate that the query of [findUsable] enforces at epoch second
    [now]: a timestamp that the account does not have puts no constraint. *)
Definition eligible (env : Env) (now : Z) (locked : gset Z) (a : Account.t) : Prop :=
  Account.enabled a = true
  /\ (exists c, Account.errorCounter a = Some c /\ c < errorThreshold env)
  /\ (exists t, Account.timeAdded a = Some t /\ t < now - 60)
  /\ (forall t, Account.lastUsed a = Some t -> t < now - 100)
  /\ (forall t, Account.lastSelected a = Some t -> t < now - 50)
  /\ (forall t, Account.forcedTimeoutAt a = Some t -> t < now - 500)
  /\ (Account.requestServer a = None \/ Account.requestServer a = Some "default"
      \/ Account.requestServer a = config_server env)
  /\ Account.id a ∉ locked.

(** The three comparisons on timestamps read as they are written, on values
    the account has. *)
Definition timestamps_below (now : Z) (a : Account.t) : Prop :=
  (exists t, Account.lastUsed a = Some t /\ t < now - 100)
  /\ (exists t, Account.lastSelected a = Some t /\ t < now - 50)
  /\ (exists t, Account.forcedTimeoutAt a = Some t /\ t < now - 500).

(** ** Duplicates *)

(** The record a probe returns for the stored record [d0]. *)
Definition counted (d0 : Skin.t) : Skin.t :=
  Skin.set_duplicate (Skin.duplicate d0 + 1) d0.

(** ** What a run leaves behind *)

Definition isDuplicateMetric (ev : Event) : bool :=
  match ev with
  | EvDuplicateMetric _ _ => true
  | _ => false
  end.

Definition isSkinChange (ev : Event) : bool :=
  match ev with
  | EvSkinChangeUrl _ _ _ | EvSkinChangeUpload _ _ _ => true
  | _ => false
  end.

(** From [w] to [w'] the catalog, the pool and the locked set are the same,
    and the events emitted are neither duplicate metrics nor skin-change
    requests. *)
Definition quiet (w w' : World) : Prop :=
  skins w' = skins w /\ accounts w' = accounts w
  /\ lockedAccounts w' = lockedAccounts w
  /\ exists evs, trace w' = (trace w ++ evs)%list
       /\ Forall (fun ev => isDuplicateMetric ev = false /\ isSkinChange ev = false) evs.

(** From [w] to [w'] no duplicate metric is emitted. *)
Definition novel (w w' : World) : Prop :=
  exists evs, trace w' = (trace w ++ evs)%list
    /\ Forall (fun ev => isDuplicateMetric ev = false) evs.

(** From [w] to [w'] the stored record [d0] was counted once more as a
    duplicate, giving [d]; the pool and the locked set are the same and no
    skin-change request is emitted. *)
Definition hit (d : Skin.t) (w w' : World) : Prop :=
  (exists d0, In d0 (skins w) /\ d = counted d0)
  /\ skins w' = replace_by_id Skin._id d (skins w)
  /\ accounts w' = accounts w
  /\ lockedAccounts w' = lockedAccounts w
  /\ exists evs, trace w' = (trace w ++ evs)%list
       /\ Forall (fun ev => isSkinChange ev = false) evs.

(** A probe either misses and changes nothing, or hits. *)
Definition probed (w : World) (r : Res (option Skin.t)) (w' : World) : Prop :=
  match r with
  | Return (Some d) => hit d w w'
  | Return None => w' = w
  | Throw _ => False
  end.

(** A call that cannot raise, and is quiet. *)
Definition returns_quiet {A : Type} (w : World) (r : Res A) (w' : World) : Prop :=
  match r with
  | Return _ => quiet w w'
  | Throw _ => False
  end.

(** A call that cannot raise, and emits no duplicate metric. *)
Definition returns_novel {A : Type} (w : World) (r : Res A) (w' : World) : Prop :=
  match r with
  | Return _ => novel w w'
  | Throw _ => False
  end.

(** [validateTempFile] either finds no duplicate and is quiet, or returns
    the duplicate that the image-hash probe hit. *)
Definition validated (w : World) (r : Res TempFileValidationResult) (w' : World) : Prop :=
  match r with
  | Return v =>
      (res_duplicate (tfv_result v) = None /\ quiet w w')
      \/ (exists d, tfv_result v = duplicateResult d /\ hit d w w')
  | Throw _ => quiet w w'
  end.


(** The outcome of an entry point that saves. *)
Definition saved (w : World) (r : Res Skin.t) (w' : World) : Prop :=
  match r with
  | Return s => hit s w w' \/ novel w w'
  | Throw _ => novel w w'
  end.

(** [Temp.file]: a new handle names a file that did not exist. *)
Definition acquired (w : World) (r : Res TempFile) (w' : World) : Prop :=
  match r with
  | Return t => tempFiles w !! path t = None /\ tempFiles w' = <[path t := []]> (tempFiles w)
  | Throw _ => tempFiles w' = tempFiles w
  end.

(** The three entry points as one operation on a request. *)
Inductive GenerateRequest :=
| FromUrl (url : string)
| FromUpload (file : Buffer)
| FromUser (user : string).

Definition generateAndSave (env : Env) (request : GenerateRequest) (client : ClientInfo)
    : M World Skin.t :=
  match request with
  | FromUrl url => generateFromUrlAndSave env url client
  | FromUpload file => generateFromUploadAndSave env file client
  | FromUser user => generateFromUserAndSave env user client
  end.

(** ** The three probes as one *)

Inductive Probe :=
| ProbeUrl (url : string)
| ProbeImageHash (hash : string)
| ProbeUuid (uuid : string).

Definition runProbe (env : Env) (p : Probe) (type : GenerateType)
    : M World (option Skin.t) :=
  match p with
  | ProbeUrl url => findDuplicateFromUrl env url type
  | ProbeImageHash hash => findDuplicateFromImageHash hash type
  | ProbeUuid uuid => findDuplicateFromUuid uuid type
  end.

(** What a probe looks up, and the length below which it does not look. *)
Definition probeKey (p : Probe) : string :=
  match p with
  | ProbeUrl s | ProbeImageHash s | ProbeUuid s => s
  end.

Definition probeMinLength (p : Probe) : nat :=
  match p with
  | ProbeUrl _ => 8
  | ProbeImageHash _ => 30
  | ProbeUuid _ => 34
  end.

Definition probeSource (p : Probe) : list DuplicateSource :=
  match p with
  | ProbeUrl _ => [MINESKIN_URL; TEXTURE_URL]
  | ProbeImageHash _ => [IMAGE_HASH]
  | ProbeUuid _ => [USER_UUID]
  end.

(** ** Notions on the pool statistics *)

(** The number of accounts of [l] that pass [perServerMatch] and are bound
    to [server]. *)
Definition healthyOn (server : option string) (l : list Account.t) : Z :=
  count (fun a => perServerMatch a && bool_decide (Account.requestServer a = server)) l.

(** The count recorded for [k] in a list of groups, 0 without a group. *)
Definition groupCount (k : option string) (groups : list (option string * Z)) : Z :=
  default 0 (snd <$> find (fun g => bool_decide (fst g = k)) groups).


(** Counts in ascending order. *)
Fixpoint ascending (l : list ServerCount) : Prop :=
  match l with
  | [] => True
  | a :: rest => Forall (fun b => server_count a <= server_count b) rest /\ ascending rest
  end.

(** The groups are well formed: one group per server, none empty. *)
Definition groupsOk (groups : list (option string * Z)) : Prop :=
  NoDup (map fst groups) /\ Forall (fun g => 1 <= snd g) groups.

(** Ascending counts, on the groups. *)
Fixpoint ascendingGroups (l : list (option string * Z)) : Prop :=
  match l with
  | [] => True
  | a :: rest => Forall (fun b => snd a <= snd b) rest /\ ascendingGroups rest
  end.

(** ** What a run leaves behind, further *)

(** From [w] to [w'] neither the catalog nor the options change. *)
Definition steady (w w' : World) : Prop :=
  skins w' = skins w /\ options w' = options w.

(** A call that cannot raise, and is steady. *)
Definition returns_steady {A : Type} (w : World) (r : Res A) (w' : World) : Prop :=
  match r with
  | Return _ => steady w w'
  | Throw _ => False
  end.

(** From [w] to [w'] the options keep their name and visibility, and their
    model unless it was unknown. *)
Definition optionsKept (w w' : World) : Prop :=
  opt_name (options w') = opt_name (options w)
  /\ opt_visibility (options w') = opt_visibility (options w)
  /\ (opt_model (options w') = opt_model (options w)
      \/ (opt_model (options w) = UNKNOWN /\ opt_model (options w') <> UNKNOWN)).

(** From [w] to [w'] the pool and the locked set are the same and no
    skin-change request is emitted. *)
Definition poolKept (w w' : World) : Prop :=
  accounts w' = accounts w
  /\ lockedAccounts w' = lockedAccounts w
  /\ exists evs, trace w' = (trace w ++ evs)%list
       /\ Forall (fun ev => isSkinChange ev = false) evs.

(** The errors by which a request is rejected as invalid. *)
Definition isValidationError (e : Exn) : bool :=
  match e with
  | GeneratorError INVALID_IMAGE _ _ _
  | GeneratorError INVALID_IMAGE_URL _ _ _
  | GeneratorError INVALID_IMAGE_UPLOAD _ _ _ => true
  | _ => false
  end.

(** How the catalog evolves over a generation: a stored record with the
    name and the visibility of the request is counted once more, or nothing
    changes. *)
Definition catalogued (w : World) (r : Res GenerateResult) (w' : World) : Prop :=
  match r with
  | Return g =>
      (exists d d0, g = duplicateResult d /\ In d0 (skins w) /\ d = counted d0
         /\ skins w' = replace_by_id Skin._id d (skins w)
         /\ Skin.name d = opt_name (options w)
         /\ Skin.visibility d = opt_visibility (options w))
      \/ (res_duplicate g = None /\ skins w' = skins w)
  | Throw _ => skins w' = skins w
  end.

(** * Concrete inputs *)

(** A 64x64 image whose pixel [(x, y)] has alpha [a x y] (and no colour). *)
Definition armImage (a : Z -> Z -> Z) : Jimp :=
  {| getWidth := 64;
     getHeight := 64;
     bitmap_data := i ← seqZ 0 (64 * 64); [0; 0; 0; a (i mod 64) (i / 64)] |}.

(** Fully opaque. *)
Definition opaqueImage : Jimp := armImage (fun _ _ => 255).

(** Opaque at [(54, 20)] only, transparent elsewhere. *)
Definition onePixelImage : Jimp :=
  armImage (fun x y => if (x =? 54) && (y =? 20) then 255 else 0).

(** A hash of forty characters, as the image hash and as a long UUID. *)
Definition hash40 : string := "0123456789abcdef0123456789abcdef01234567".

(** An environment in which every step of a request succeeds up to the
    skin-change request, which ends as [skinChange]. The clock starts at
    epoch second 1000000 and advances by one second per question. *)
Definition testEnv (skinChange : SkinChangeOutcome) : Env :=
  {| config_server := Some "node1";
     config_errorThreshold := None;
     optimus_prime := 3;
     optimus_inverse := 715827883;
     optimus_random := 5;
     MINESKIN_URL_REGEX_exec := fun _ => None;
     MINECRAFT_TEXTURE_REGEX_exec := fun _ => None;
     parseInt := fun _ => 0;
     URL_parse_host := fun _ => Some (Some "imgur.com");
     imageSize := fun _ => Some (64, 64);
     fileType_fromBuffer := fun _ => Some "image/png";
     Jimp_read := fun _ => Some opaqueImage;
     imageHash := fun _ => Some hash40;
     decodeJson := fun _ =>
       Some (Some {| textures :=
                       Some {| SKIN := Some {| texture_url := "http://textures/1" |};
                               CAPE := None |} |});
     getHashFromMojangTextureUrl := fun _ => Some "1";
     longAndShortUuid := fun _ => Some (hash40, "short");
     stripUuid := fun s => s;
     Date_now := fun n => 1000000000 + 1000 * Z.of_nat n;
     random32BitNumber := fun n => Z.of_nat n;
     uuid_v4 := fun _ => "uuid";
     axios_head := fun _ _ =>
       Some {| responseUrl := Some "http://imgur.com/a.png";
               content_type := Some "image/png";
               content_length := Some 128 |};
     Temp_file_ok := fun _ => true;
     Temp_downloadImage := fun _ _ => Some (replicate 128 0);
     Temp_copyUploadedImage := fun _ b => Some b;
     minecraftServicesRequest := fun _ => skinChange;
     Caching_getSkinData := fun _ _ =>
       Some (Some {| data_value := "value"; data_signature := "sig";
                     decodedValue := None |});
     Authentication_authenticate := fun _ a => inr a |}.

(** A pool member that was never selected nor timed out, last used at epoch
    second 5. *)
Definition account1 : Account.t :=
  {| Account._id := 1; Account.id := 7; Account.uuid := "acc-uuid";
     Account.enabled := true;
     Account.requestServer := None; Account.lastRequestServer := None;
     Account.lastSelected := None; Account.lastUsed := Some 5;
     Account.forcedTimeoutAt := None; Account.timeAdded := Some 0;
     Account.errorCounter := Some 2; Account.successCounter := Some 3;
     Account.totalErrorCounter := Some 4; Account.totalSuccessCounter := Some 9;
     Account.sameTextureCounter := None; Account.accessToken := Some "token" |}.

(** The same pool member, never used. *)
Definition account2 : Account.t := Account.set_lastUsed None account1.

Definition options1 : GenerateOptions :=
  {| opt_name := "slim"; opt_model := CLASSIC; opt_visibility := 0 |}.

Definition client1 : ClientInfo :=
  {| client_via := Some "api"; client_userAgent := Some "test" |}.

(** A stored skin named "slim", of model "slim", with hash and uuid
    [hash40]. *)
Definition skin1 : Skin.t :=
  {| Skin._id := 1; Skin.id := 1234; Skin.hash := Some hash40; Skin.uuid := Some hash40;
     Skin.name := "slim"; Skin.model := "slim"; Skin.visibility := 0;
     Skin.value := "v"; Skin.signature := "s"; Skin.url := "http://textures/0";
     Skin.minecraftTextureHash := Some "0"; Skin.textureHash := Some "t";
     Skin.time := 0; Skin.generateDuration := 10; Skin.account := Some 7;
     Skin.type := UPLOAD; Skin.via := None; Skin.ua := None;
     Skin.duplicate := 4; Skin.views := 0 |}.

Definition world (catalog : list Skin.t) (pool : list Account.t) (opts : GenerateOptions)
    : World :=
  {| skins := catalog; accounts := pool; lockedAccounts := ∅; tempFiles := ∅;
     options := opts; tick := 0; trace := [] |}.

(** An uploaded file of 128 bytes. *)
Definition file128 : Buffer := replicate 128 0.

(** Legacy accounts: with both tokens, and with an access token only. *)
Definition legacyAccount : Auth.Account :=
  {| Auth.id := 7; Auth.username := "user"; Auth.passwordNew := "secret";
     Auth.requestIp := "10.0.0.1"; Auth.clientToken := Some "client";
     Auth.accessToken := Some "access" |}.

Definition legacyAccountNoClient : Auth.Account :=
  Auth.set_clientToken None legacyAccount.

(** The outside world of one call of [authenticate]: [validate] answers
    [validate]; refresh and login succeed with new tokens. *)
Definition authEnv (validate : Auth.Reply) : Auth.Env :=
  {| Auth.validate_reply := validate;
     Auth.refresh_reply :=
       Auth.Response 200
         (Some {| Auth.error := None; Auth.body_accessToken := Some "refreshed" |});
     Auth.authenticate_reply :=
       Auth.Response 200
         (Some {| Auth.error := None; Auth.body_accessToken := Some "fresh" |});
     Auth.uuid := "new-client";
     Auth.decrypt := fun s => s |}.

Definition options2 : GenerateOptions :=
  {| opt_name := "slim"; opt_model := SLIM; opt_visibility := 0 |}.

(** [testEnv Accepted], except that the authentication fails. *)
Definition authFailingEnv : Env :=
  let env := testEnv Accepted in
  {| config_server := config_server env;
     config_errorThreshold := config_errorThreshold env;
     optimus_prime := optimus_prime env;
     optimus_inverse := optimus_inverse env;
     optimus_random := optimus_random env;
     MINESKIN_URL_REGEX_exec := MINESKIN_URL_REGEX_exec env;
     MINECRAFT_TEXTURE_REGEX_exec := MINECRAFT_TEXTURE_REGEX_exec env;
     parseInt := parseInt env;
     URL_parse_host := URL_parse_host env;
     imageSize := imageSize env;
     fileType_fromBuffer := fileType_fromBuffer env;
     Jimp_read := Jimp_read env;
     imageHash := imageHash env;
     decodeJson := decodeJson env;
     getHashFromMojangTextureUrl := getHashFromMojangTextureUrl env;
     longAndShortUuid := longAndShortUuid env;
     stripUuid := stripUuid env;
     Date_now := Date_now env;
     random32BitNumber := random32BitNumber env;
     uuid_v4 := uuid_v4 env;
     axios_head := axios_head env;
     Temp_file_ok := Temp_file_ok env;
     Temp_downloadImage := Temp_downloadImage env;
     Temp_copyUploadedImage := Temp_copyUploadedImage env;
     minecraftServicesRequest := minecraftServicesRequest env;
     Caching_getSkinData := Caching_getSkinData env;
     Authentication_authenticate := fun _ _ => inl (AuthenticationError "Invalid credentials") |}.

(** ** Variations of an environment *)

Definition with_MINESKIN_URL_REGEX_exec v (env : Env) : Env :=
  {|
     config_server := config_server env;
     config_errorThreshold := config_errorThreshold env;
     optimus_prime := optimus_prime env;
     optimus_inverse := optimus_inverse env;
     optimus_random := optimus_random env;
     MINESKIN_URL_REGEX_exec := v;
     MINECRAFT_TEXTURE_REGEX_exec := MINECRAFT_TEXTURE_REGEX_exec env;
     parseInt := parseInt env;
     URL_parse_host := URL_parse_host env;
     imageSize := imageSize env;
     fileType_fromBuffer := fileType_fromBuffer env;
     Jimp_read := Jimp_read env;
     imageHash := imageHash env;
     decodeJson := decodeJson env;
     getHashFromMojangTextureUrl := getHashFromMojangTextureUrl env;
     longAndShortUuid := longAndShortUuid env;
     stripUuid := stripUuid env;
     Date_now := Date_now env;
     random32BitNumber := random32BitNumber env;
     uuid_v4 := uuid_v4 env;
     axios_head := axios_head env;
     Temp_file_ok := Temp_file_ok env;
     Temp_downloadImage := Temp_downloadImage env;
     Temp_copyUploadedImage := Temp_copyUploadedImage env;
     minecraftServicesRequest := minecraftServicesRequest env;
     Caching_getSkinData := Caching_getSkinData env;
     Authentication_authenticate := Authentication_authenticate env |}.

Definition with_parseInt v (env : Env) : Env :=
  {|
     config_server := config_server env;
     config_errorThreshold := config_errorThreshold env;
     optimus_prime := optimus_prime env;
     optimus_inverse := optimus_inverse env;
     optimus_random := optimus_random env;
     MINESKIN_URL_REGEX_exec := MINESKIN_URL_REGEX_exec env;
     MINECRAFT_TEXTURE_REGEX_exec := MINECRAFT_TEXTURE_REGEX_exec env;
     parseInt := v;
     URL_parse_host := URL_parse_host env;
     imageSize := imageSize env;
     fileType_fromBuffer := fileType_fromBuffer env;
     Jimp_read := Jimp_read env;
     imageHash := imageHash env;
     decodeJson := decodeJson env;
     getHashFromMojangTextureUrl := getHashFromMojangTextureUrl env;
     longAndShortUuid := longAndShortUuid env;
     stripUuid := stripUuid env;
     Date_now := Date_now env;
     random32BitNumber := random32BitNumber env;
     uuid_v4 := uuid_v4 env;
     axios_head := axios_head env;
     Temp_file_ok := Temp_file_ok env;
     Temp_downloadImage := Temp_downloadImage env;
     Temp_copyUploadedImage := Temp_copyUploadedImage env;
     minecraftServicesRequest := minecraftServicesRequest env;
     Caching_getSkinData := Caching_getSkinData env;
     Authentication_authenticate := Authentication_authenticate env |}.

Definition with_URL_parse_host v (env : Env) : Env :=
  {|
     config_server := config_server env;
     config_errorThreshold := config_errorThreshold env;
     optimus_prime := optimus_prime env;
     optimus_inverse := optimus_inverse env;
     optimus_random := optimus_random env;
     MINESKIN_URL_REGEX_exec := MINESKIN_URL_REGEX_exec env;
     MINECRAFT_TEXTURE_REGEX_exec := MINECRAFT_TEXTURE_REGEX_exec env;
     parseInt := parseInt env;
     URL_parse_host := v;
     imageSize := imageSize env;
     fileType_fromBuffer := fileType_fromBuffer env;
     Jimp_read := Jimp_read env;
     imageHash := imageHash env;
     decodeJson := decodeJson env;
     getHashFromMojangTextureUrl := getHashFromMojangTextureUrl env;
     longAndShortUuid := longAndShortUuid env;
     stripUuid := stripUuid env;
     Date_now := Date_now env;
     random32BitNumber := random32BitNumber env;
     uuid_v4 := uuid_v4 env;
     axios_head := axios_head env;
     Temp_file_ok := Temp_file_ok env;
     Temp_downloadImage := Temp_downloadImage env;
     Temp_copyUploadedImage := Temp_copyUploadedImage env;
     minecraftServicesRequest := minecraftServicesRequest env;
     Caching_getSkinData := Caching_getSkinData env;
     Authentication_authenticate := Authentication_authenticate env |}.

Definition with_imageSize v (env : Env) : Env :=
  {|
     config_server := config_server env;
     config_errorThreshold := config_errorThreshold env;
     optimus_prime := optimus_prime env;
     optimus_inverse := optimus_inverse env;
     optimus_random := optimus_random env;
     MINESKIN_URL_REGEX_exec := MINESKIN_URL_REGEX_exec env;
     MINECRAFT_TEXTURE_REGEX_exec := MINECRAFT_TEXTURE_REGEX_exec env;
     parseInt := parseInt env;
     URL_parse_host := URL_parse_host env;
     imageSize := v;
     fileType_fromBuffer := fileType_fromBuffer env;
     Jimp_read := Jimp_read env;
     imageHash := imageHash env;
     decodeJson := decodeJson env;
     getHashFromMojangTextureUrl := getHashFromMojangTextureUrl env;
     longAndShortUuid := longAndShortUuid env;
     stripUuid := stripUuid env;
     Date_now := Date_now env;
     random32BitNumber := random32BitNumber env;
     uuid_v4 := uuid_v4 env;
     axios_head := axios_head env;
     Temp_file_ok := Temp_file_ok env;
     Temp_downloadImage := Temp_downloadImage env;
     Temp_copyUploadedImage := Temp_copyUploadedImage env;
     minecraftServicesRequest := minecraftServicesRequest env;
     Caching_getSkinData := Caching_getSkinData env;
     Authentication_authenticate := Authentication_authenticate env |}.

Definition with_Temp_copyUploadedImage v (env : Env) : Env :=
  {|
     config_server := config_server env;
     config_errorThreshold := config_errorThreshold env;
     optimus_prime := optimus_prime env;
     optimus_inverse := optimus_inverse env;
     optimus_random := optimus_random env;
     MINESKIN_URL_REGEX_exec := MINESKIN_URL_REGEX_exec env;
     MINECRAFT_TEXTURE_REGEX_exec := MINECRAFT_TEXTURE_REGEX_exec env;
     parseInt := parseInt env;
     URL_parse_host := URL_parse_host env;
     imageSize := imageSize env;
     fileType_fromBuffer := fileType_fromBuffer env;
     Jimp_read := Jimp_read env;
     imageHash := imageHash env;
     decodeJson := decodeJson env;
     getHashFromMojangTextureUrl := getHashFromMojangTextureUrl env;
     longAndShortUuid := longAndShortUuid env;
     stripUuid := stripUuid env;
     Date_now := Date_now env;
     random32BitNumber := random32BitNumber env;
     uuid_v4 := uuid_v4 env;
     axios_head := axios_head env;
     Temp_file_ok := Temp_file_ok env;
     Temp_downloadImage := Temp_downloadImage env;
     Temp_copyUploadedImage := v;
     minecraftServicesRequest := minecraftServicesRequest env;
     Caching_getSkinData := Caching_getSkinData env;
     Authentication_authenticate := Authentication_authenticate env |}.

Definition with_random32BitNumber v (env : Env) : Env :=
  {|
     config_server := config_server env;
     config_errorThreshold := config_errorThreshold env;
     optimus_prime := optimus_prime env;
     optimus_inverse := optimus_inverse env;
     optimus_random := optimus_random env;
     MINESKIN_URL_REGEX_exec := MINESKIN_URL_REGEX_exec env;
     MINECRAFT_TEXTURE_REGEX_exec := MINECRAFT_TEXTURE_REGEX_exec env;
     parseInt := parseInt env;
     URL_parse_host := URL_parse_host env;
     imageSize := imageSize env;
     fileType_fromBuffer := fileType_fromBuffer env;
     Jimp_read := Jimp_read env;
     imageHash := imageHash env;
     decodeJson := decodeJson env;
     getHashFromMojangTextureUrl := getHashFromMojangTextureUrl env;
     longAndShortUuid := longAndShortUuid env;
     stripUuid := stripUuid env;
     Date_now := Date_now env;
     random32BitNumber := v;
     uuid_v4 := uuid_v4 env;
     axios_head := axios_head env;
     Temp_file_ok := Temp_file_ok env;
     Temp_downloadImage := Temp_downloadImage env;
     Temp_copyUploadedImage := Temp_copyUploadedImage env;
     minecraftServicesRequest := minecraftServicesRequest env;
     Caching_getSkinData := Caching_getSkinData env;
     Authentication_authenticate := Authentication_authenticate env |}.

(** An environment whose catalog-URL expression matches every URL, with the
    id 1234. *)
Definition with_Caching_getSkinData v (env : Env) : Env :=
  {|
     config_server := config_server env;
     config_errorThreshold := config_errorThreshold env;
     optimus_prime := optimus_prime env;
     optimus_inverse := optimus_inverse env;
     optimus_random := optimus_random env;
     MINESKIN_URL_REGEX_exec := MINESKIN_URL_REGEX_exec env;
     MINECRAFT_TEXTURE_REGEX_exec := MINECRAFT_TEXTURE_REGEX_exec env;
     parseInt := parseInt env;
     URL_parse_host := URL_parse_host env;
     imageSize := imageSize env;
     fileType_fromBuffer := fileType_fromBuffer env;
     Jimp_read := Jimp_read env;
     imageHash := imageHash env;
     decodeJson := decodeJson env;
     getHashFromMojangTextureUrl := getHashFromMojangTextureUrl env;
     longAndShortUuid := longAndShortUuid env;
     stripUuid := stripUuid env;
     Date_now := Date_now env;
     random32BitNumber := random32BitNumber env;
     uuid_v4 := uuid_v4 env;
     axios_head := axios_head env;
     Temp_file_ok := Temp_file_ok env;
     Temp_downloadImage := Temp_downloadImage env;
     Temp_copyUploadedImage := Temp_copyUploadedImage env;
     minecraftServicesRequest := minecraftServicesRequest env;
     Caching_getSkinData := v;
     Authentication_authenticate := Authentication_authenticate env |}.

Definition urlEnv : Env :=
  with_MINESKIN_URL_REGEX_exec (fun url => Some [url; ".in"; "1234"])
    (with_parseInt (fun _ => 1234) (testEnv Accepted)).

(** A generation result as [generateFromUrl] returns it for a new skin. *)
Definition skinData1 : SkinData :=
  {| data_value := "value"; data_signature := "sig";
     decodedValue :=
       Some {| textures :=
                 Some {| SKIN := Some {| texture_url := "http://textures/1" |};
                         CAPE := None |} |} |}.

Definition result1 : GenerateResult :=
  {| res_duplicate := None;
     res_data := Some skinData1;
     res_meta := Some {| meta_uuid := "uuid"; meta_imageHash := hash40;
                         meta_mojangHash := hash40 |};
     res_account := Some account1 |}.

(** A stored skin with the id 5, which [testEnv] encodes from its first
    random number. *)
Definition skin5 : Skin.t :=
  {| Skin._id := 2; Skin.id := 5; Skin.hash := None; Skin.uuid := None;
     Skin.name := "five"; Skin.model := "steve"; Skin.visibility := 0;
     Skin.value := "v"; Skin.signature := "s"; Skin.url := "http://textures/5";
     Skin.minecraftTextureHash := Some "5"; Skin.textureHash := None;
     Skin.time := 0; Skin.generateDuration := 10; Skin.account := None;
     Skin.type := URL; Skin.via := None; Skin.ua := None;
     Skin.duplicate := 0; Skin.views := 0 |}.

(** A second pool member, used later than [account1] and bound to this
    server, that never generated a skin. *)
Definition account3 : Account.t :=
  {| Account._id := 2; Account.id := 8; Account.uuid := "acc-uuid-3";
     Account.enabled := true;
     Account.requestServer := Some "node1"; Account.lastRequestServer := None;
     Account.lastSelected := None; Account.lastUsed := Some 9;
     Account.forcedTimeoutAt := None; Account.timeAdded := Some 0;
     Account.errorCounter := Some 0; Account.successCounter := None;
     Account.totalErrorCounter := None; Account.totalSuccessCounter := None;
     Account.sameTextureCounter := None; Account.accessToken := Some "token" |}.

(** A pool member whose error counter reached the threshold. *)
Definition account4 : Account.t := Account.set_errorCounter (Some 10) account1.


(** * Properties *)

(** ** Records and the state *)

Lemma set_tick_set_tick a b w : set_tick a (set_tick b w) = set_tick a w.
Proof. by destruct w. Qed.

Lemma set_tick_same w n : n = tick w -> set_tick n w = w.
Proof. intros ->. by destruct w. Qed.

Lemma skins_set_tick a w : skins (set_tick a w) = skins w.
Proof. by destruct w. Qed.

Lemma tick_set_tick a w : tick (set_tick a w) = a.
Proof. by destruct w. Qed.

(** ** Variant detection (C1) *)

Lemma fold_flag {A : Type} (p : A -> bool) (l : list A) (b : bool) :
  fold_left (fun acc x => if p x then false else acc) l b = b && negb (existsb p l).
Proof.
  revert b. induction l as [|a l IH]; intros b; simpl.
  - by rewrite andb_true_r.
  - rewrite IH. by destruct (p a), b.
Qed.

Lemma fold_flag_rows {A B : Type} (p : A -> B -> bool) (xs : list A) (ys : list B)
    (b : bool) :
  fold_left (fun acc y => fold_left (fun acc' x => if p x y then false else acc') xs acc)
    ys b
  = b && negb (existsb (fun y => existsb (fun x => p x y) xs) ys).
Proof.
  revert b. induction ys as [|y ys IH]; intros b; simpl.
  - by rewrite andb_true_r.
  - rewrite IH, fold_flag. destruct b; simpl; [|reflexivity].
    by destruct (existsb _ xs).
Qed.

(** The scan of [validateImageData] on a 64-wide image leaves the flag set
    exactly when no pixel of the rectangle has alpha 255. The 24 byte offsets
    [(64 * y + x) << 2 + 3] are numbers, equal to those of [alpha]. *)
Lemma scan_arm (image : Jimp) :
  getWidth image = 64 ->
  scan image 54 20 2 12
    (fun x y idx allTransparent =>
       if is255 (byteAt (bitmap_data image) (idx + 3)) then false else allTransparent)
    true
  = negb (existsb (fun y => existsb (fun x => opaqueAt image x y) (seqZ 54 2)) (seqZ 20 12)).
Proof.
  intros Hw. unfold scan. rewrite Hw.
  rewrite (fold_flag_rows
             (fun x y => is255 (byteAt (bitmap_data image) (Z.shiftl (64 * y + x) 2 + 3)))).
  rewrite andb_true_l. reflexivity.
Qed.

Lemma existsb_arm (image : Jimp) :
  existsb (fun y => existsb (fun x => opaqueAt image x y) (seqZ 54 2)) (seqZ 20 12) = true
  <-> exists x y, 54 <= x < 56 /\ 20 <= y < 32 /\ alpha image x y = Some 255.
Proof.
  rewrite existsb_exists. split.
  - intros (y & Hy & H). apply existsb_exists in H as (x & Hx & H).
    apply list_elem_of_In, elem_of_seqZ in Hy, Hx.
    exists x, y. repeat split; try lia.
    unfold opaqueAt, is255 in H. destruct (alpha image x y) as [v|]; [|done].
    apply Z.eqb_eq in H. by subst.
  - intros (x & y & Hx & Hy & H). exists y. split.
    + apply list_elem_of_In, elem_of_seqZ. lia.
    + apply existsb_exists. exists x. split.
      * apply list_elem_of_In, elem_of_seqZ. lia.
      * unfold opaqueAt. by rewrite H.
Qed.

Lemma validateImageData_64 (image : Jimp) :
  getWidth image = 64 -> getHeight image = 64 ->
  validateImageData image =
    if existsb (fun y => existsb (fun x => opaqueAt image x y) (seqZ 54 2)) (seqZ 20 12)
    then inr CLASSIC else inr SLIM.
Proof.
  intros Hw Hh. unfold validateImageData. rewrite scan_arm by done.
  generalize (existsb (fun y => existsb (fun x => opaqueAt image x y) (seqZ 54 2))
                (seqZ 20 12)).
  intros e. rewrite Hw, Hh. simpl. by destruct e.
Qed.

(** C1, as amended. For a decoded 64x64 image and options whose model is
    unknown, the inferred model is classic exactly when at least one pixel of
    the rectangle x in [54,56), y in [20,32) has alpha 255 (so in particular
    when all of them have), and slim exactly when no pixel of the rectangle
    has alpha 255. *)
Theorem inferredModel_arm (image : Jimp) :
  is64x64 image ->
  (inferredModel UNKNOWN image = Some CLASSIC <->
   exists x y, 54 <= x < 56 /\ 20 <= y < 32 /\ alpha image x y = Some 255)
  /\ (inferredModel UNKNOWN image = Some SLIM <->
      forall x y, 54 <= x < 56 -> 20 <= y < 32 -> alpha image x y <> Some 255)
  /\ ((forall x y, 54 <= x < 56 -> 20 <= y < 32 -> alpha image x y = Some 255) ->
      inferredModel UNKNOWN image = Some CLASSIC).
Proof.
  intros (Hw & Hh & _). unfold inferredModel.
  rewrite (validateImageData_64 image Hw Hh).
  pose proof (existsb_arm image) as Hex.
  destruct (existsb _ (seqZ 20 12)) eqn:E; simpl.
  - destruct Hex as [Hex _]. specialize (Hex eq_refl).
    split; [done|]. split; [|done]. split; [done|].
    intros Hall. destruct Hex as (x & y & Hx & Hy & Ha). by destruct (Hall x y Hx Hy).
  - split; [|split].
    + split; [done|]. intros H. apply Hex in H. done.
    + split; [|done]. intros _ x y Hx Hy Ha.
      assert (false = true) by (apply Hex; eauto). done.
    + intros Hall. assert (false = true); [|done].
      apply Hex. exists 54, 20. repeat split; try lia. apply Hall; lia.
Qed.

Lemma inferredModel_arm_witness :
  is64x64 opaqueImage /\ inferredModel UNKNOWN opaqueImage = Some CLASSIC.
Proof.
  assert (H : is64x64 opaqueImage).
  { split; [reflexivity|]. split; [reflexivity|]. vm_compute. reflexivity. }
  split; [exact H|].
  apply (proj2 (proj2 (inferredModel_arm opaqueImage H))).
  intros x y Hx Hy.
  assert (Hc : (x = 54 \/ x = 55) /\
               (y = 20 \/ y = 21 \/ y = 22 \/ y = 23 \/ y = 24 \/ y = 25 \/ y = 26 \/
                y = 27 \/ y = 28 \/ y = 29 \/ y = 30 \/ y = 31)) by lia.
  destruct Hc as [Hcx Hcy].
  repeat (destruct Hcx as [->|Hcx] || destruct Hcy as [->|Hcy] || subst);
    vm_compute; reflexivity.
Defined.

(** C1 as stated fails: this image has a pixel of the rectangle that is not
    fully opaque, [(55, 20)], and is detected as classic, not slim, because
    another pixel of the rectangle, [(54, 20)], has alpha 255. *)
Lemma some_transparent_pixel_yet_classic :
  is64x64 onePixelImage /\
  (exists x y, 54 <= x < 56 /\ 20 <= y < 32 /\ alpha onePixelImage x y <> Some 255) /\
  inferredModel UNKNOWN onePixelImage = Some CLASSIC /\
  inferredModel UNKNOWN onePixelImage <> Some SLIM.
Proof.
  split; [|split; [|split]].
  - split; [reflexivity|]. split; [reflexivity|]. vm_compute. reflexivity.
  - exists 55, 20. split; [lia|]. split; [lia|]. vm_compute. discriminate.
  - vm_compute. reflexivity.
  - vm_compute. discriminate.
Qed.

(** ** Id allocation (C3) *)

Lemma land_MAX_INT a : Z.land a MAX_INT = a mod 2 ^ 31.
Proof. change MAX_INT with (Z.ones 31). apply Z.land_ones. lia. Qed.

(** The encoder is undone by the decoder on 31-bit numbers, when the prime
    and the inverse are inverse modulo 2^31: it is one-to-one there. *)
Lemma optimus_decode_encode env n :
  (optimus_prime env * optimus_inverse env) mod 2 ^ 31 = 1 ->
  0 <= n < 2 ^ 31 ->
  optimus_decode env (optimus_encode env n) = n.
Proof.
  intros Hinv Hn. unfold optimus_decode, optimus_encode.
  rewrite Z.lxor_assoc, Z.lxor_nilpotent, Z.lxor_0_r.
  rewrite !land_MAX_INT.
  rewrite Z.mul_mod_idemp_l by lia.
  rewrite <- Z.mul_assoc, <- Z.mul_mod_idemp_r by lia.
  rewrite Hinv, Z.mul_1_r. apply Z.mod_small. lia.
Qed.

Example optimus_test_parameters :
  (optimus_prime (testEnv Accepted) * optimus_inverse (testEnv Accepted)) mod 2 ^ 31 = 1.
Proof. reflexivity. Qed.

Lemma makeRandomSkinId_step env tryN w :
  tryN <= MAX_ID_TRIES ->
  makeRandomSkinId env tryN w =
    if idTaken env w (tick w)
    then makeRandomSkinId env (tryN + 1) (set_tick (S (tick w)) w)
    else (Return (optimus_encode env (random32BitNumber env (tick w))),
          set_tick (S (tick w)) w).
Proof.
  intros Hle. rewrite makeRandomSkinId_unfold_eq. unfold makeRandomSkinId_unfold.
  destruct (Z_gt_dec tryN MAX_ID_TRIES) as [Hgt|Hng]; [lia|].
  unfold makeRandomSkinId_unfold_clause_1, idTaken, bind, ask, Skin_findOne, gets, ret.
  rewrite skins_set_tick.
  by destruct (find _ (skins w)).
Qed.

Lemma makeRandomSkinId_stop env tryN w :
  tryN > MAX_ID_TRIES ->
  makeRandomSkinId env tryN w =
    (Throw (GeneratorError FAILED_TO_CREATE_ID
              ("Failed to create unique skin ID after " +:+ pretty tryN +:+ " tries!")
              500 None), w).
Proof.
  intros Hgt. rewrite makeRandomSkinId_unfold_eq. unfold makeRandomSkinId_unfold.
  destruct (Z_gt_dec tryN MAX_ID_TRIES) as [Hg|Hn]; [done|lia].
Qed.

(** With [n] draws left before giving up: either the [k]-th of them
    ([k < n]) is the first whose id is free, and that id is returned, or all
    [n] collide and the call with [tryN = 11] raises. The state only moves
    along the answers of the random source. *)
Lemma makeRandomSkinId_from env (n : nat) : forall tryN w,
  tryN + Z.of_nat n = MAX_ID_TRIES + 1 ->
  (exists k : nat, (k < n)%nat /\
     (forall j : nat, (j < k)%nat -> idTaken env w (tick w + j) = true) /\
     idTaken env w (tick w + k) = false /\
     makeRandomSkinId env tryN w =
       (Return (optimus_encode env (random32BitNumber env (tick w + k))),
        set_tick (tick w + k + 1) w))
  \/ ((forall j : nat, (j < n)%nat -> idTaken env w (tick w + j) = true) /\
      makeRandomSkinId env tryN w = (Throw failedToCreateId, set_tick (tick w + n) w)).
Proof.
  induction n as [|n IH]; intros tryN w Hn.
  - right. split; [lia|].
    rewrite makeRandomSkinId_stop by (unfold MAX_ID_TRIES in *; lia).
    replace tryN with 11 by (unfold MAX_ID_TRIES in *; lia).
    rewrite set_tick_same by lia. reflexivity.
  - rewrite makeRandomSkinId_step by lia.
    destruct (idTaken env w (tick w)) eqn:Ht.
    + destruct (IH (tryN + 1) (set_tick (S (tick w)) w) ltac:(lia))
        as [(k & Hk & Hbefore & Hat & Hrun)|[Hall Hrun]].
      * left. exists (S k). rewrite tick_set_tick in *.
        unfold idTaken in *. rewrite skins_set_tick in *.
        split; [lia|]. split; [|split].
        -- intros [|j] Hj; [by rewrite Nat.add_0_r|].
           replace (tick w + S j)%nat with (S (tick w) + j)%nat by lia.
           apply Hbefore. lia.
        -- by replace (tick w + S k)%nat with (S (tick w) + k)%nat by lia.
        -- rewrite Hrun, set_tick_set_tick.
           by replace (tick w + S k)%nat with (S (tick w) + k)%nat by lia.
      * right. rewrite tick_set_tick in *.
        unfold idTaken in *. rewrite skins_set_tick in *. split.
        -- intros [|j] Hj; [by rewrite Nat.add_0_r|].
           replace (tick w + S j)%nat with (S (tick w) + j)%nat by lia.
           apply Hall. lia.
        -- rewrite Hrun, set_tick_set_tick. f_equal. f_equal. lia.
    + left. exists 0%nat. rewrite Nat.add_0_r.
      split; [lia|]. split; [lia|]. split; [done|].
      by replace (tick w + 1)%nat with (S (tick w)) by lia.
Qed.

(** C3. [makeNewSkinId] draws a random number, encodes it, and draws again
    while the encoded id is in the catalog: it returns the id of the first
    draw that is free, after [k <= MAX_ID_TRIES = 10] retries; when the first
    draw and all ten retries collide it raises [FAILED_TO_CREATE_ID]. In both
    cases the state differs only by the position on the answers of the
    outside world: the catalog receives nothing. *)
Theorem makeNewSkinId_retries env w :
  (exists k : nat, (k <= Z.to_nat MAX_ID_TRIES)%nat /\
     (forall j : nat, (j < k)%nat -> idTaken env w (tick w + j) = true) /\
     idTaken env w (tick w + k) = false /\
     makeNewSkinId env w =
       (Return (optimus_encode env (random32BitNumber env (tick w + k))),
        set_tick (tick w + k + 1) w))
  \/ ((forall j : nat, (j <= Z.to_nat MAX_ID_TRIES)%nat ->
         idTaken env w (tick w + j) = true) /\
      makeNewSkinId env w =
        (Throw failedToCreateId, set_tick (tick w + S (Z.to_nat MAX_ID_TRIES)) w)).
Proof.
  unfold makeNewSkinId.
  destruct (makeRandomSkinId_from env 11 0 w eq_refl)
    as [(k & Hk & Hbefore & Hat & Hrun)|[Hall Hrun]].
  - left. exists k. change (Z.to_nat MAX_ID_TRIES) with 10%nat.
    split; [lia|]. eauto.
  - right. change (Z.to_nat MAX_ID_TRIES) with 10%nat. split; [|exact Hrun].
    intros j Hj. apply Hall. lia.
Qed.

Lemma makeNewSkinId_frame env w r w' :
  makeNewSkinId env w = (r, w') -> exists n, w' = set_tick n w.
Proof.
  intros H. unfold makeNewSkinId in H.
  destruct (makeRandomSkinId_from env 11 0 w eq_refl) as [(k & _ & _ & _ & Hrun)|[_ Hrun]];
    rewrite Hrun in H; inversion H; eauto.
Qed.

(** ** The image-hash and user-UUID probes (C2) *)

Lemma find_passes {A : Type} (f : A -> bool) (l : list A) (x : A) :
  find f l = Some x -> In x l /\ f x = true.
Proof. apply find_some. Qed.

(** What a hit of the image-hash probe implies for the stored record: the
    hash and the name and the visibility of the request, and a [model] equal
    to the request's name. *)
Lemma findDuplicateFromImageHash_hit hash type w d w' :
  findDuplicateFromImageHash hash type w = (Return (Some d), w') ->
  exists d0, In d0 (skins w) /\ d = counted d0 /\
    Skin.hash d0 = Some hash /\
    Skin.name d0 = opt_name (options w) /\
    Skin.model d0 = opt_name (options w) /\
    Skin.visibility d0 = opt_visibility (options w).
Proof.
  unfold findDuplicateFromImageHash, bind, gets, Skin_findOne, countDuplicate, emit,
    Skin_save, modify, ret. simpl.
  destruct (negb (truthy_str hash) || (Z.of_nat (String.length hash) <? 30)); [done|].
  destruct (find _ (skins w)) as [d0|] eqn:Hfind; [|done].
  intros H. inversion H; subst. apply find_passes in Hfind as [Hin Hf].
  unfold imageHashFilter in Hf. repeat (apply andb_prop in Hf as [Hf ?]).
  exists d0. repeat split; auto.
  - by apply bool_decide_eq_true in Hf.
  - by apply String.eqb_eq.
  - by apply String.eqb_eq.
  - by apply Z.eqb_eq.
Qed.

Lemma findDuplicateFromUuid_hit uuid type w d w' :
  findDuplicateFromUuid uuid type w = (Return (Some d), w') ->
  exists d0, In d0 (skins w) /\ d = counted d0 /\
    Skin.uuid d0 = Some uuid /\
    Skin.name d0 = opt_name (options w) /\
    Skin.model d0 = opt_name (options w) /\
    Skin.visibility d0 = opt_visibility (options w).
Proof.
  unfold findDuplicateFromUuid, bind, gets, Skin_findOne, countDuplicate, emit,
    Skin_save, modify, ret. simpl.
  destruct (negb (truthy_str uuid) || (Z.of_nat (String.length uuid) <? 34)); [done|].
  destruct (find _ (skins w)) as [d0|] eqn:Hfind; [|done].
  intros H. inversion H; subst. apply find_passes in Hfind as [Hin Hf].
  unfold uuidFilter in Hf. repeat (apply andb_prop in Hf as [Hf ?]).
  exists d0. repeat split; auto.
  - by apply bool_decide_eq_true in Hf.
  - by apply String.eqb_eq.
  - by apply String.eqb_eq.
  - by apply Z.eqb_eq.
Qed.

(** C2 fails on the code. The catalog holds one skin named "slim" of model
    "slim"; the request is named "slim" and asks for the classic model
    ("steve"). Both probes return the stored skin as a duplicate although its
    model is not the request's: they compare the stored model with the
    request's name. *)
Theorem probes_compare_model_with_name :
  let w := world [skin1] [] options1 in
  Skin.model skin1 <> SkinModel_str (opt_model (options w))
  /\ fst (findDuplicateFromImageHash hash40 UPLOAD w) = Return (Some (counted skin1))
  /\ fst (findDuplicateFromUuid hash40 USER w) = Return (Some (counted skin1)).
Proof. split; [discriminate|]. split; vm_compute; reflexivity. Qed.

(** ** New records (C10) *)

(** C10. Whenever [saveSkin] stores a record, that record is appended to the
    catalog with [duplicate = 0] and [views = 0]; when [saveSkin] raises, the
    catalog is as before. *)
Theorem saveSkin_counters env result client type start w :
  match saveSkin env result client type start w with
  | (Return s, w') =>
      Skin.duplicate s = 0 /\ Skin.views s = 0 /\ skins w' = (skins w ++ [s])%list
  | (Throw _, w') => skins w' = skins w
  end.
Proof.
  unfold saveSkin. unfold bind at 1.
  destruct (makeNewSkinId env w) as [[id|e] w1] eqn:Hid;
    apply makeNewSkinId_frame in Hid as [n ->]; [|by rewrite skins_set_tick].
  unfold bind, gets, nonNull, ret, throw, ask, Skin_create, modify. simpl.
  destruct (res_data result) as [data|]; simpl; [|by rewrite skins_set_tick].
  destruct (decodedValue data) as [decoded|]; simpl; [|by rewrite skins_set_tick].
  destruct (textures decoded) as [txs|]; simpl; [|by rewrite skins_set_tick].
  destruct (SKIN txs) as [skin|]; simpl; [|by rewrite skins_set_tick].
  destruct w; simpl. auto.
Qed.

(** ** The account pool (C4, C5, C6) *)

Lemma firstSorted_from (l : list Account.t) : forall best a,
  fold_left
    (fun best a =>
       match best with
       | None => Some a
       | Some b => if sortsBefore a b then Some a else Some b
       end) l best = Some a ->
  best = Some a \/ In a l.
Proof.
  induction l as [|x l IH]; intros best a H; simpl in *; [by left|].
  apply IH in H as [H|H]; [|by right; right].
  destruct best as [b|].
  - destruct (sortsBefore x b); inversion H; subst; [right; by left|by left].
  - inversion H. right. by left.
Qed.

Lemma firstSorted_In (l : list Account.t) (a : Account.t) :
  firstSorted l = Some a -> In a l.
Proof. intros H. by destruct (firstSorted_from l None a H). Qed.

Lemma absent_or_lt_spec o bound :
  absent_or_lt o bound = true -> forall t, o = Some t -> t < bound.
Proof. intros H t ->. simpl in H. lia. Qed.

Lemma present_lt_spec o bound :
  present_lt o bound = true -> exists t, o = Some t /\ t < bound.
Proof. destruct o as [t|]; simpl; [|done]. intros H. exists t. split; [done|lia]. Qed.

Lemma usableFilter_eligible env time locked a :
  usableFilter env time locked a = true -> eligible env time locked a.
Proof.
  unfold usableFilter, eligible. intros H.
  apply andb_prop in H as [H Hta]. apply andb_prop in H as [H Hec].
  apply andb_prop in H as [H Hft]. apply andb_prop in H as [H Hlu].
  apply andb_prop in H as [H Hls]. apply andb_prop in H as [H Hrs].
  apply andb_prop in H as [Hen Hlock].
  split; [done|]. split; [by apply present_lt_spec|]. split; [by apply present_lt_spec|].
  split; [by apply absent_or_lt_spec|]. split; [by apply absent_or_lt_spec|].
  split; [by apply absent_or_lt_spec|]. split.
  - destruct (Account.requestServer a) as [s|]; [|by left].
    right. apply orb_prop in Hrs as [Hrs|Hrs].
    + left. apply String.eqb_eq in Hrs. by subst.
    + right. by apply bool_decide_eq_true in Hrs.
  - by apply negb_true_iff, bool_decide_eq_false in Hlock.
Qed.

(** [findUsable], run. *)
Lemma findUsable_run env w :
  findUsable env w =
    let time := Date_now env (tick w) / 1000 in
    match firstSorted (List.filter (usableFilter env time (lockedAccounts w)) (accounts w)) with
    | None =>
        (Return None,
         set_trace (trace w ++ [EvWarn "There are no accounts available!"])
           (set_tick (S (tick w)) w))
    | Some account =>
        (Return (Some (markSelected time account)),
         set_accounts (replace_by_id Account._id (markSelected time account) (accounts w))
           (set_lockedAccounts ({[Account.id account]} ∪ lockedAccounts w)
              (set_tick (S (tick w)) w)))
    end.
Proof.
  unfold findUsable, Caching_getLockedAccounts, Caching_lockSelectedAccount, bind, ask,
    gets, emit, modify, ret, Account_save. destruct w; simpl.
  by destruct (firstSorted _).
Qed.

Lemma replace_by_id_In {A : Type} (key : A -> nat) (d b : A) (l : list A) :
  In b (replace_by_id key d l) -> key b = key d -> b = d.
Proof.
  unfold replace_by_id. intros Hin Hk. apply in_map_iff in Hin as (x & Hx & _).
  destruct (Nat.eqb (key x) (key d)) eqn:E; [done|].
  subst b. apply Nat.eqb_neq in E. done.
Qed.

Lemma markSelected_fields time a :
  Account._id (markSelected time a) = Account._id a
  /\ Account.id (markSelected time a) = Account.id a
  /\ Account.lastSelected (markSelected time a) = Some time
  /\ Account.lastUsed (markSelected time a) = Account.lastUsed a.
Proof.
  unfold markSelected. destruct a; simpl.
  repeat match goal with |- context [if ?b then _ else _] => destruct b; simpl end; auto.
Qed.

(** C4, as amended. The account that [findUsable] returns is a stored
    account that, at the epoch second of the query, is enabled, has an error
    counter below the threshold, was added more than 60 s ago, is bound to no
    server or to "default" or to this one, is not in the locked set, and has
    each of [lastUsed], [lastSelected], [forcedTimeoutAt] either absent or
    older than 100 s, 50 s, 500 s. *)
Theorem findUsable_eligible env w a w' :
  findUsable env w = (Return (Some a), w') ->
  exists a0, In a0 (accounts w)
    /\ a = markSelected (Date_now env (tick w) / 1000) a0
    /\ eligible env (Date_now env (tick w) / 1000) (lockedAccounts w) a0.
Proof.
  rewrite findUsable_run. simpl.
  destruct (firstSorted _) as [a0|] eqn:Hfirst; [|done].
  intros H. inversion H; subst. exists a0.
  apply firstSorted_In, filter_In in Hfirst as [Hin Hf].
  split; [done|]. split; [done|]. by apply usableFilter_eligible.
Qed.

Lemma findUsable_eligible_witness :
  exists a0, In a0 [account1]
    /\ markSelected 1000000 account1 = markSelected 1000000 a0
    /\ eligible (testEnv Accepted) 1000000 ∅ a0.
Proof.
  apply (findUsable_eligible (testEnv Accepted) (world [] [account1] options1)
           (markSelected 1000000 account1)
           (snd (findUsable (testEnv Accepted) (world [] [account1] options1)))).
  vm_compute. reflexivity.
Defined.

(** C4 as stated fails: an account that was never used, never selected and
    never timed out is returned, although it has no [lastUsed],
    [lastSelected] or [forcedTimeoutAt] below the bounds. *)
Lemma account_without_timestamps_selected :
  let env := testEnv Accepted in
  let w := world [] [account2] options1 in
  let now := Date_now env (tick w) / 1000 in
  fst (findUsable env w) = Return (Some (markSelected now account2))
  /\ In account2 (accounts w)
  /\ ~ timestamps_below now account2.
Proof.
  split; [vm_compute; reflexivity|]. split; [by left|].
  intros [[t [H _]] _]. discriminate H.
Qed.

(** [getAndAuthenticateAccount], run on a pool from which [findUsable]
    returns [a0] (already marked). *)
Lemma getAndAuthenticateAccount_run env w a w' :
  getAndAuthenticateAccount env w = (Return a, w') ->
  exists a1 a2 w1,
    findUsable env w = (Return (Some a1), w1)
    /\ Authentication_authenticate env (tick w1) a1 = inr a2
    /\ a = updateRequestServer (config_server env)
             (Account.set_lastUsed (Some (Date_now env (S (tick w1)) / 1000)) a2)
    /\ w' = set_tick (S (S (tick w1))) w1.
Proof.
  unfold getAndAuthenticateAccount. unfold bind at 1.
  destruct (findUsable env w) as [[[a1|]|e] w1] eqn:Hfind; try done.
  unfold Authentication_authenticate_M, bind, ask, ret, throw. simpl.
  destruct (Authentication_authenticate env (tick w1) a1) as [e|a2] eqn:Hauth; [done|].
  intros H. inversion H; subst. exists a1, a2, w1.
  rewrite tick_set_tick, set_tick_set_tick. auto.
Qed.

Lemma updateRequestServer_lastUsed server a :
  Account.lastUsed (updateRequestServer server a) = Account.lastUsed a.
Proof.
  unfold updateRequestServer. destruct a; simpl.
  by destruct (_ && _).
Qed.

Lemma updateRequestServer_requestServer server a :
  Account.requestServer (updateRequestServer server a) = server.
Proof.
  unfold updateRequestServer. destruct a; simpl.
  by destruct (_ && _).
Qed.

Lemma handleGenerateSuccess_run a w :
  handleGenerateSuccess (Some a) w =
    let a' :=
      Account.set_totalSuccessCounter (incr (Account.totalSuccessCounter a))
        (Account.set_successCounter (incr (Account.successCounter a))
           (Account.set_errorCounter (Some 0) a)) in
    (Return (Some a'), set_accounts (replace_by_id Account._id a' (accounts w)) w).
Proof.
  unfold handleGenerateSuccess, try_catch, bind, Account_save, modify, ret.
  destruct a; reflexivity.
Qed.

Lemma handleGenerateError_run env e a w :
  handleGenerateError env e (Some a) w =
    let a0 :=
      Account.set_totalErrorCounter (incr (Account.totalErrorCounter a))
        (Account.set_errorCounter (incr (Account.errorCounter a))
           (Account.set_successCounter (Some 0) a)) in
    if isAuthenticationError e then
      let a' :=
        updateRequestServer None
          (Account.set_forcedTimeoutAt (Some (Date_now env (tick w) / 1000)) a0) in
      (Return (Some a'),
       set_accounts (replace_by_id Account._id a' (accounts w))
         (set_trace (trace w ++ [EvWarn "[Generator] Account forced timeout"])
            (set_tick (S (tick w)) w)))
    else
      (Return (Some a0), set_accounts (replace_by_id Account._id a0 (accounts w)) w).
Proof.
  unfold handleGenerateError, try_catch, bind, Account_save, modify, ret, ask, emit.
  destruct (isAuthenticationError e); destruct a, w; reflexivity.
Qed.

(** C5. Releasing an account whose four counters are numbers: on success
    the error counter becomes 0 and the success counter and the total of
    successes grow by one; on failure the success counter becomes 0 and the
    error counter and the total of errors grow by one, and, when the failure
    is an [AuthenticationError], [forcedTimeoutAt] becomes the current epoch
    second and [requestServer] is cleared. The account is saved. *)
Theorem release_counters env e a w s ts c tc :
  Account.successCounter a = Some s ->
  Account.totalSuccessCounter a = Some ts ->
  Account.errorCounter a = Some c ->
  Account.totalErrorCounter a = Some tc ->
  (exists a',
     handleGenerateSuccess (Some a) w =
       (Return (Some a'), set_accounts (replace_by_id Account._id a' (accounts w)) w)
     /\ Account.errorCounter a' = Some 0
     /\ Account.successCounter a' = Some (s + 1)
     /\ Account.totalSuccessCounter a' = Some (ts + 1))
  /\ (exists a' w',
        handleGenerateError env e (Some a) w = (Return (Some a'), w')
        /\ accounts w' = replace_by_id Account._id a' (accounts w)
        /\ Account.successCounter a' = Some 0
        /\ Account.errorCounter a' = Some (c + 1)
        /\ Account.totalErrorCounter a' = Some (tc + 1)
        /\ if isAuthenticationError e
           then Account.forcedTimeoutAt a' = Some (Date_now env (tick w) / 1000)
                /\ Account.requestServer a' = None
           else Account.forcedTimeoutAt a' = Account.forcedTimeoutAt a
                /\ Account.requestServer a' = Account.requestServer a).
Proof.
  intros Hs Hts Hc Htc. split.
  - rewrite handleGenerateSuccess_run. eexists. split; [reflexivity|].
    destruct a; simpl in *; subst; auto.
  - rewrite handleGenerateError_run. simpl.
    destruct (isAuthenticationError e); eexists; eexists; (split; [reflexivity|]).
    + rewrite updateRequestServer_requestServer.
      unfold updateRequestServer. destruct a, w; simpl in *; subst.
      by destruct (_ && _).
    + destruct a, w; simpl in *; subst; auto 10.
Qed.

Lemma release_counters_witness :
  exists a' w',
    handleGenerateError (testEnv Accepted) (AuthenticationError "invalid credentials")
      (Some account1) (world [] [account1] options1) = (Return (Some a'), w')
    /\ Account.successCounter a' = Some 0
    /\ Account.errorCounter a' = Some 3
    /\ Account.totalErrorCounter a' = Some 5
    /\ Account.forcedTimeoutAt a' = Some 1000000
    /\ Account.requestServer a' = None.
Proof.
  destruct (release_counters (testEnv Accepted) (AuthenticationError "invalid credentials")
              account1 (world [] [account1] options1) 3 9 2 4
              eq_refl eq_refl eq_refl eq_refl) as [_ (a' & w' & Hrun & _ & H1 & H2 & H3 & H4)].
  exists a', w'. simpl in H4. destruct H4 as [H4 H5]. auto 10.
Defined.

(** C6, as amended. When an account is acquired, [findUsable] sets its
    [lastSelected] to the epoch second of the query, in the returned account
    and in the pool; [getAndAuthenticateAccount] sets [lastUsed] to the epoch
    second read right after the authentication, before the skin-change
    request; neither handler changes [lastUsed], and each saves the account
    it is given, so a release, successful or failed, stores the [lastUsed]
    written at acquisition. *)
Theorem lease_timestamps env w a w' :
  getAndAuthenticateAccount env w = (Return a, w') ->
  (exists a1 w1,
     findUsable env w = (Return (Some a1), w1)
     /\ Account.lastSelected a1 = Some (Date_now env (tick w) / 1000)
     /\ forall b, In b (accounts w1) -> Account._id b = Account._id a1 ->
          Account.lastSelected b = Some (Date_now env (tick w) / 1000))
  /\ Account.lastUsed a = Some (Date_now env (tick w + 2) / 1000)
  /\ (forall e w2, exists a' w3,
        handleGenerateError env e (Some a) w2 = (Return (Some a'), w3)
        /\ Account.lastUsed a' = Account.lastUsed a
        /\ accounts w3 = replace_by_id Account._id a' (accounts w2))
  /\ (forall w2, exists a' w3,
        handleGenerateSuccess (Some a) w2 = (Return (Some a'), w3)
        /\ Account.lastUsed a' = Account.lastUsed a
        /\ accounts w3 = replace_by_id Account._id a' (accounts w2)).
Proof.
  intros Hrun.
  apply getAndAuthenticateAccount_run in Hrun as (a1 & a2 & w1 & Hfind & Hauth & -> & ->).
  pose proof Hfind as Hfind'. rewrite findUsable_run in Hfind'. simpl in Hfind'.
  destruct (firstSorted _) as [a0|]; [|done]. inversion Hfind'; subst a1 w1; clear Hfind'.
  destruct (markSelected_fields (Date_now env (tick w) / 1000) a0) as (_ & _ & Hsel & _).
  split; [|split; [|split]].
  - eexists _, _. split; [exact Hfind|]. split; [exact Hsel|].
    intros b Hb Hid. destruct w; simpl in Hb.
    apply replace_by_id_In in Hb; [by subst b|done].
  - rewrite updateRequestServer_lastUsed.
    destruct a2; destruct w as [sk ac lk tf op tk tr]; simpl.
    by replace (tk + 2)%nat with (S (S tk)) by lia.
  - intros e w2. rewrite handleGenerateError_run. simpl.
    destruct (isAuthenticationError e); eexists _, _; (split; [reflexivity|]).
    + rewrite updateRequestServer_lastUsed. split; [|by destruct w2].
      by destruct (updateRequestServer _ _).
    + split; [|by destruct w2]. by destruct (updateRequestServer _ _).
  - intros w2. rewrite handleGenerateSuccess_run. simpl.
    eexists _, _. split; [reflexivity|]. split; [|by destruct w2].
    by destruct (updateRequestServer _ _).
Qed.

Lemma lease_timestamps_witness :
  exists a w',
    getAndAuthenticateAccount (testEnv Accepted) (world [] [account1] options1)
      = (Return a, w')
    /\ Account.lastUsed a = Some 1000002.
Proof.
  eexists _, _. split; [vm_compute; reflexivity|].
  refine (proj1 (proj2 (lease_timestamps (testEnv Accepted)
                          (world [] [account1] options1) _ _ _))).
  vm_compute. reflexivity.
Defined.

(** C6 as stated fails: the pool member was last used at epoch second 5; the
    request by URL acquires it, the skin-change request is rejected, and the
    release on failure stores the [lastUsed] of the acquisition, not the
    value from before. *)
Lemma failed_release_stores_new_lastUsed :
  let w := world [] [account1] options1 in
  let run :=
    generateFromUrlAndSave (testEnv RejectedWithResponse) "http://imgur.com/a.png"
      client1 w in
  (exists msg account, fst run = Throw (GeneratorError SKIN_CHANGE_FAILED msg 500 account))
  /\ map Account.lastUsed (accounts w) = [Some 5]
  /\ map Account.lastUsed (accounts (snd run)) = [Some 1000006]
  /\ map Account.errorCounter (accounts (snd run)) = [Some 3].
Proof.
  split; [eexists _, _; vm_compute; reflexivity|].
  split; [reflexivity|]. split; vm_compute; reflexivity.
Qed.

(** An upload does not get as far as the skin-change request: once the
    account is acquired, appending the file to the form raises; the account
    is released as failed and no request is sent. *)
Example upload_raises_after_acquisition :
  let w := world [] [account1] options1 in
  let run := generateFromUploadAndSave (testEnv Accepted) file128 client1 w in
  fst run = Throw (OtherError "TypeError")
  /\ map Account.errorCounter (accounts (snd run)) = [Some 3]
  /\ map Account.successCounter (accounts (snd run)) = [Some 0]
  /\ Forall (fun ev => isSkinChange ev = false) (trace (snd run))
  /\ tempFiles (snd run) = ∅.
Proof.
  split; [vm_compute; reflexivity|]. split; [vm_compute; reflexivity|].
  split; [vm_compute; reflexivity|]. split; [|vm_compute; reflexivity].
  vm_compute. repeat constructor.
Qed.

(** The handlers only see the account once [getAndAuthenticateAccount] has
    returned it. When the authentication itself raises, the local [account]
    of the entry point is still unassigned: [handleGenerateError] is called
    without an account and returns at once. The selected account keeps its
    counters, gets no forced timeout and stays in the locked set. *)
Example authentication_failure_reaches_no_account :
  let w := world [] [account1] options1 in
  let run := generateFromUploadAndSave authFailingEnv file128 client1 w in
  fst run = Throw (AuthenticationError "Invalid credentials")
  /\ accounts (snd run) = [markSelected 1000003 account1]
  /\ map Account.errorCounter (accounts (snd run)) = map Account.errorCounter (accounts w)
  /\ map Account.forcedTimeoutAt (accounts (snd run)) = [None]
  /\ Account.id account1 ∈ lockedAccounts (snd run)
  /\ tempFiles (snd run) = ∅.
Proof.
  split; [vm_compute; reflexivity|]. split; [vm_compute; reflexivity|].
  split; [vm_compute; reflexivity|]. split; [vm_compute; reflexivity|].
  split; [|vm_compute; reflexivity].
  replace (lockedAccounts _) with ({[Account.id account1]} ∪ (∅ : gset Z));
    [set_solver|vm_compute; reflexivity].
Qed.

(** ** The callback-style [authenticate] (C8) *)

(** C8, as amended. For an account with both a client token and an access
    token, [authenticate] first posts [validate]; when that request comes
    back without error, with a status from 200 to 230 and a body without
    [error], the account is handed to the callback unchanged and nothing else
    is sent: no refresh, no login, no save. *)
Theorem authenticate_valid_token env account statusCode body :
  truthy_ostr (Auth.clientToken account) = true ->
  truthy_ostr (Auth.accessToken account) = true ->
  Auth.validate_reply env = Auth.Response statusCode body ->
  200 <= statusCode <= 230 ->
  (forall b, body = Some b -> truthy_ostr (Auth.error b) = false) ->
  Auth.authenticate env account =
    ([Auth.POST_validate (Auth.accessToken account) (Auth.clientToken account)],
     Auth.Cb_ok account).
Proof.
  intros Hc Ha Hr Hs Hb. unfold Auth.authenticate, Auth.validateFailed.
  rewrite Hc, Ha, Hr. simpl.
  replace (statusCode <? 200) with false by lia.
  replace (statusCode >? 230) with false by lia. simpl.
  destruct body as [b|]; [|done]. by rewrite (Hb b eq_refl).
Qed.

Lemma authenticate_valid_token_witness :
  Auth.authenticate (authEnv (Auth.Response 204 None)) legacyAccount =
    ([Auth.POST_validate (Some "access") (Some "client")], Auth.Cb_ok legacyAccount).
Proof.
  apply (authenticate_valid_token (authEnv (Auth.Response 204 None)) legacyAccount 204 None).
  - reflexivity.
  - reflexivity.
  - reflexivity.
  - lia.
  - intros b Hb. discriminate Hb.
Defined.

(** With both tokens, the first request is always [validate]. *)
Lemma authenticate_validates_first env account :
  truthy_ostr (Auth.clientToken account) = true ->
  truthy_ostr (Auth.accessToken account) = true ->
  exists evs,
    fst (Auth.authenticate env account) =
      Auth.POST_validate (Auth.accessToken account) (Auth.clientToken account) :: evs.
Proof.
  intros Hc Ha. unfold Auth.authenticate. rewrite Hc, Ha. simpl.
  destruct (Auth.validateFailed _); [|by eexists].
  destruct (Auth.refresh env account). by eexists.
Qed.

(** C8 as stated fails: this account has an access token but no client token;
    [validate] would answer 204, yet [authenticate] never posts it and logs
    in with the password instead. *)
Lemma access_token_alone_logs_in :
  let env := authEnv (Auth.Response 204 None) in
  truthy_ostr (Auth.accessToken legacyAccountNoClient) = true
  /\ fst (Auth.authenticate env legacyAccountNoClient) =
       [Auth.POST_authenticate "user" "secret" (Some "new-client");
        Auth.Save (Auth.set_accessToken (Some "fresh")
                     (Auth.set_clientToken (Some "new-client") legacyAccountNoClient))]
  /\ snd (Auth.authenticate env legacyAccountNoClient) <> Auth.Cb_ok legacyAccountNoClient.
Proof. split; [reflexivity|]. split; [reflexivity|]. vm_compute. discriminate. Qed.

(** Within the 2xx range the accepted statuses stop at 230: on a 250 the
    tokens are refreshed. *)
Lemma status_250_refreshes :
  fst (Auth.authenticate (authEnv (Auth.Response 250 None)) legacyAccount) =
    [Auth.POST_validate (Some "access") (Some "client");
     Auth.POST_refresh (Some "access") (Some "client");
     Auth.Save (Auth.set_accessToken (Some "refreshed") legacyAccount)].
Proof. reflexivity. Qed.

(** ** Composing what runs leave behind *)

Lemma quiet_refl w : quiet w w.
Proof.
  split; [done|]. split; [done|]. split; [done|].
  exists []. split; [by rewrite app_nil_r|constructor].
Qed.

Lemma quiet_trans a b c : quiet a b -> quiet b c -> quiet a c.
Proof.
  intros (Hs & Ha & Hl & evs & Ht & Hf) (Hs' & Ha' & Hl' & evs' & Ht' & Hf').
  split; [congruence|]. split; [congruence|]. split; [congruence|].
  exists (evs ++ evs')%list. split; [by rewrite Ht', Ht, app_assoc|by apply Forall_app].
Qed.

Lemma quiet_tick n s : quiet s (set_tick n s).
Proof.
  destruct s as [sk ac lk tf op tk tr]. split; [done|]. split; [done|]. split; [done|].
  exists []. split; [by rewrite app_nil_r|constructor].
Qed.

Lemma quiet_options o s : quiet s (set_options o s).
Proof.
  destruct s as [sk ac lk tf op tk tr]. split; [done|]. split; [done|]. split; [done|].
  exists []. split; [by rewrite app_nil_r|constructor].
Qed.

Lemma quiet_tempFiles m s : quiet s (set_tempFiles m s).
Proof.
  destruct s as [sk ac lk tf op tk tr]. split; [done|]. split; [done|]. split; [done|].
  exists []. split; [by rewrite app_nil_r|constructor].
Qed.

Lemma quiet_emit ev s :
  isDuplicateMetric ev = false -> isSkinChange ev = false ->
  quiet s (set_trace (trace s ++ [ev]) s).
Proof.
  intros Hd Hc. destruct s as [sk ac lk tf op tk tr].
  split; [done|]. split; [done|]. split; [done|].
  exists [ev]. split; [done|]. by repeat constructor.
Qed.

Lemma novel_refl w : novel w w.
Proof. exists []. split; [by rewrite app_nil_r|constructor]. Qed.

Lemma novel_trans a b c : novel a b -> novel b c -> novel a c.
Proof.
  intros (evs & Ht & Hf) (evs' & Ht' & Hf').
  exists (evs ++ evs')%list. split; [by rewrite Ht', Ht, app_assoc|by apply Forall_app].
Qed.

Lemma quiet_novel a b : quiet a b -> novel a b.
Proof.
  intros (_ & _ & _ & evs & Ht & Hf). exists evs. split; [done|].
  eapply Forall_impl; [exact Hf|]. by intros ev [? _].
Qed.

Lemma novel_same_trace s s' : trace s' = trace s -> novel s s'.
Proof. intros H. exists []. split; [by rewrite app_nil_r|constructor]. Qed.

Lemma novel_emit ev s : isDuplicateMetric ev = false -> novel s (set_trace (trace s ++ [ev]) s).
Proof.
  intros Hd. destruct s as [sk ac lk tf op tk tr]. exists [ev]. split; [done|].
  by repeat constructor.
Qed.

Lemma hit_quiet d a b c : hit d a b -> quiet b c -> hit d a c.
Proof.
  intros (Hd & Hs & Ha & Hl & evs & Ht & Hf) (Hs' & Ha' & Hl' & evs' & Ht' & Hf').
  split; [done|]. split; [congruence|]. split; [congruence|]. split; [congruence|].
  exists (evs ++ evs')%list. split; [by rewrite Ht', Ht, app_assoc|].
  apply Forall_app. split; [done|].
  eapply Forall_impl; [exact Hf'|]. by intros ev [_ ?].
Qed.

Lemma quiet_hit d a b c : quiet a b -> hit d b c -> hit d a c.
Proof.
  intros (Hs & Ha & Hl & evs & Ht & Hf) ((d0 & Hin & Hd) & Hs' & Ha' & Hl' & evs' & Ht' & Hf').
  split; [exists d0; by rewrite <- Hs|].
  split; [congruence|]. split; [congruence|]. split; [congruence|].
  exists (evs ++ evs')%list. split; [by rewrite Ht', Ht, app_assoc|].
  apply Forall_app. split; [|done].
  eapply Forall_impl; [exact Hf|]. by intros ev [_ ?].
Qed.


(** *** Running a computation on a symbolic state

    [exec H] unfolds the monad in [H : m w = (r, w')] and splits on every
    call and test that decides the control flow, innermost first; each call
    met leaves an equation on its outcome. *)

Ltac exec_step H :=
  match type of H with
  | context [match ?x with _ => _ end] =>
      lazymatch x with
      | context [match _ with _ => _ end] => fail
      | _ => tryif is_var x then destruct x else destruct x eqn:?
      end
  end;
  cbv beta iota zeta delta [fst snd l_account l_tempFile] in H.

Ltac exec H :=
  cbv beta iota zeta delta
    [bind ret throw gets modify try_catch try_finally lift with_locals ask emit nonNull
     fst snd l_account l_tempFile] in H;
  repeat exec_step H;
  try (injection H as <- <-).

(** Goals [quiet w s], [novel w s] and [hit d w s]: [s] is peeled down to
    [w] along the writes it is built from and the facts known on the states
    in between. *)
Ltac frame :=
  lazymatch goal with
  | |- quiet ?w ?w => apply quiet_refl
  | |- quiet _ (set_tick _ _) => eapply quiet_trans; [|apply quiet_tick]; frame
  | |- quiet _ (set_options _ _) => eapply quiet_trans; [|apply quiet_options]; frame
  | |- quiet _ (set_tempFiles _ _) => eapply quiet_trans; [|apply quiet_tempFiles]; frame
  | |- quiet _ (set_trace (trace ?s ++ [_]) ?s) =>
      eapply quiet_trans; [|apply quiet_emit; reflexivity]; frame
  | |- quiet ?w ?s =>
      match goal with
      | H : quiet ?a s |- _ => apply (quiet_trans w a s); [frame|exact H]
      end
  | |- novel ?w ?w => apply novel_refl
  | |- novel _ (set_tick _ _) =>
      eapply novel_trans; [|apply quiet_novel, quiet_tick]; frame
  | |- novel _ (set_options _ _) =>
      eapply novel_trans; [|apply quiet_novel, quiet_options]; frame
  | |- novel _ (set_tempFiles _ _) =>
      eapply novel_trans; [|apply quiet_novel, quiet_tempFiles]; frame
  | |- novel _ (set_trace (trace ?s ++ [_]) ?s) =>
      eapply novel_trans; [|apply novel_emit; reflexivity]; frame
  | |- novel _ (set_skins _ ?s) =>
      apply (novel_trans _ s); [frame|apply novel_same_trace; by destruct s]
  | |- novel _ (set_accounts _ ?s) =>
      apply (novel_trans _ s); [frame|apply novel_same_trace; by destruct s]
  | |- novel _ (set_lockedAccounts _ ?s) =>
      apply (novel_trans _ s); [frame|apply novel_same_trace; by destruct s]
  | |- novel ?w ?s =>
      match goal with
      | H : novel ?a s |- _ => apply (novel_trans w a s); [frame|exact H]
      | H : quiet ?a s |- _ => apply (novel_trans w a s); [frame|exact (quiet_novel _ _ H)]
      end
  | |- hit _ _ (set_tick _ _) => eapply hit_quiet; [|apply quiet_tick]; frame
  | |- hit _ _ (set_options _ _) => eapply hit_quiet; [|apply quiet_options]; frame
  | |- hit _ _ (set_tempFiles _ _) => eapply hit_quiet; [|apply quiet_tempFiles]; frame
  | |- hit _ _ (set_trace (trace ?s ++ [_]) ?s) =>
      eapply hit_quiet; [|apply quiet_emit; reflexivity]; frame
  | |- hit ?d ?w ?s =>
      match goal with
      | H : hit d ?a s |- _ => apply (quiet_hit d w a s); [frame|exact H]
      | H : quiet ?a s |- _ => apply (hit_quiet d w a s); [frame|exact H]
      end
  end.

(** ** Duplicate hits (C7) *)

Lemma followUrl_dup env url w r w' : followUrl env url w = (r, w') -> quiet w w'.
Proof. intros H. unfold followUrl in H. exec H; frame. Qed.

Lemma countDuplicate_dup d0 source type w r w' :
  countDuplicate d0 source type w = (r, w') ->
  In d0 (skins w) -> r = Return (counted d0) /\ hit (counted d0) w w'.
Proof.
  intros H Hin. unfold countDuplicate, Skin_save in H. exec H.
  split; [done|]. destruct w as [sk ac lk tf op tk tr]; simpl in *.
  split; [by exists d0|]. split; [done|]. split; [done|]. split; [done|].
  eexists. split; [done|]. by repeat constructor.
Qed.

Lemma findDuplicateFromUrl_dup env url type w r w' :
  findDuplicateFromUrl env url type w = (r, w') -> probed w r w'.
Proof.
  intros H. unfold findDuplicateFromUrl, Skin_findOne in H. exec H; simpl; try done.
  all: match goal with Hf : find _ _ = Some _ |- _ => apply find_passes in Hf as [Hin _] end.
  all: match goal with E : countDuplicate _ _ _ _ = _ |- _ =>
         apply countDuplicate_dup in E as [E1 E2]; [|done] end.
  all: congruence.
Qed.

Lemma findDuplicateFromImageHash_dup hash type w r w' :
  findDuplicateFromImageHash hash type w = (r, w') -> probed w r w'.
Proof.
  intros H. unfold findDuplicateFromImageHash, Skin_findOne in H. exec H; simpl; try done.
  all: match goal with Hf : find _ _ = Some _ |- _ => apply find_passes in Hf as [Hin _] end.
  all: match goal with E : countDuplicate _ _ _ _ = _ |- _ =>
         apply countDuplicate_dup in E as [E1 E2]; [|done] end.
  all: congruence.
Qed.

Lemma findDuplicateFromUuid_dup uuid type w r w' :
  findDuplicateFromUuid uuid type w = (r, w') -> probed w r w'.
Proof.
  intros H. unfold findDuplicateFromUuid, Skin_findOne in H. exec H; simpl; try done.
  all: match goal with Hf : find _ _ = Some _ |- _ => apply find_passes in Hf as [Hin _] end.
  all: match goal with E : countDuplicate _ _ _ _ = _ |- _ =>
         apply countDuplicate_dup in E as [E1 E2]; [|done] end.
  all: congruence.
Qed.

Lemma fs_readFile_same p w r w' : fs_readFile p w = (r, w') -> w' = w.
Proof. intros H. unfold fs_readFile in H. by exec H. Qed.

Lemma Temp_file_dup env dir w r w' : Temp_file env dir w = (r, w') -> quiet w w'.
Proof. intros H. unfold Temp_file in H. exec H; frame. Qed.

Lemma Temp_downloadImage_to_dup env url t w r w' :
  Temp_downloadImage_to env url t w = (r, w') -> quiet w w'.
Proof. intros H. unfold Temp_downloadImage_to in H. exec H; frame. Qed.

Lemma Temp_copyUploadedImage_to_dup env file t w r w' :
  Temp_copyUploadedImage_to env file t w = (r, w') -> quiet w w'.
Proof. intros H. unfold Temp_copyUploadedImage_to in H. exec H; frame. Qed.

Lemma TempFile_remove_dup t w r w' : TempFile_remove t w = (r, w') -> returns_quiet w r w'.
Proof. intros H. unfold TempFile_remove in H. exec H; simpl; frame. Qed.

Ltac dup_leaf E :=
  first
    [ apply followUrl_dup in E
    | apply findDuplicateFromUrl_dup in E; unfold probed in E
    | apply findDuplicateFromImageHash_dup in E; unfold probed in E
    | apply findDuplicateFromUuid_dup in E; unfold probed in E
    | apply fs_readFile_same in E
    | apply Temp_file_dup in E
    | apply Temp_downloadImage_to_dup in E
    | apply Temp_copyUploadedImage_to_dup in E
    | apply TempFile_remove_dup in E; unfold returns_quiet in E ].

Lemma validateTempFile_dup env t type w r w' :
  validateTempFile env t type w = (r, w') -> validated w r w'.
Proof.
  intros H. unfold validateTempFile, validateImageData_buffer in H. exec H.
  all: repeat match goal with E : _ = (_, _) |- _ => dup_leaf E end.
  all: subst; unfold validated; try done.
  all: first [ by frame
             | left; split; [reflexivity|by frame]
             | right; eexists; split; [reflexivity|by frame] ].
Qed.

Lemma findUsable_dup env w r w' : findUsable env w = (r, w') -> novel w w'.
Proof. intros H.
  unfold findUsable, Caching_getLockedAccounts, Caching_lockSelectedAccount,
    Account_save in H.
  exec H; frame. Qed.

Lemma getAndAuthenticateAccount_dup env w r w' :
  getAndAuthenticateAccount env w = (r, w') -> novel w w'.
Proof.
  intros H. unfold getAndAuthenticateAccount, Authentication_authenticate_M in H. exec H.
  all: match goal with E : findUsable _ _ = _ |- _ => apply findUsable_dup in E end.
  all: frame.
Qed.

Lemma skinChangeRequest_dup env ev account w r w' :
  isDuplicateMetric ev = false ->
  skinChangeRequest env ev account w = (r, w') -> novel w w'.
Proof.
  intros Hev H. unfold skinChangeRequest in H. exec H.
  all: repeat (eapply novel_trans; [|apply quiet_novel, quiet_tick]).
  all: by apply novel_emit.
Qed.

Lemma getSkinData_dup env uuid account w r w' :
  getSkinData env uuid account w = (r, w') -> novel w w'.
Proof. intros H. unfold getSkinData, decodeValue in H. exec H; frame. Qed.

Lemma getMojangHash_dup env url w r w' : getMojangHash env url w = (r, w') -> novel w w'.
Proof.
  intros H. unfold getMojangHash in H. exec H.
  all: repeat match goal with E : _ = (_, _) |- _ => dup_leaf E end.
  all: subst; try contradiction; frame.
Qed.

Lemma handleGenerateSuccess_dup account w r w' :
  handleGenerateSuccess account w = (r, w') -> returns_novel w r w'.
Proof.
  intros H. unfold handleGenerateSuccess, Account_save in H. exec H; simpl; frame.
Qed.

Lemma handleGenerateError_dup env e account w r w' :
  handleGenerateError env e account w = (r, w') -> returns_novel w r w'.
Proof.
  intros H. unfold handleGenerateError, Account_save in H. exec H; simpl; frame.
Qed.

Lemma makeNewSkinId_dup env w r w' : makeNewSkinId env w = (r, w') -> novel w w'.
Proof. intros H. apply makeNewSkinId_frame in H as [n ->]. frame. Qed.

Lemma saveSkin_dup env result client type start w r w' :
  saveSkin env result client type start w = (r, w') -> novel w w'.
Proof.
  intros H. unfold saveSkin, Skin_create in H. exec H.
  all: match goal with E : makeNewSkinId _ _ = _ |- _ => apply makeNewSkinId_dup in E end.
  all: frame.
Qed.

Ltac dup_call E :=
  first
    [ dup_leaf E
    | apply validateTempFile_dup in E; unfold validated in E
    | apply getAndAuthenticateAccount_dup in E
    | apply skinChangeRequest_dup in E; [|reflexivity]
    | apply getSkinData_dup in E
    | apply getMojangHash_dup in E
    | apply handleGenerateSuccess_dup in E; unfold returns_novel in E
    | apply handleGenerateError_dup in E; unfold returns_novel in E
    | apply saveSkin_dup in E ].









(** Stage C: an upload whose image hash is in the catalog. *)
Example upload_duplicate_by_hash :
  let w := world [skin1] [account1] options2 in
  let run := generateAndSave (testEnv Accepted) (FromUpload file128) client1 w in
  fst run = Return (counted skin1)
  /\ trace (snd run) =
       [EvDuplicateMetric IMAGE_HASH UPLOAD; EvDurationMetric 3000 UPLOAD None]
  /\ accounts (snd run) = accounts w
  /\ tempFiles (snd run) = ∅.
Proof. repeat split; vm_compute; reflexivity. Qed.

(** ** Temp files (C9) *)

Lemma tempFiles_set_tick n s : tempFiles (set_tick n s) = tempFiles s.
Proof. by destruct s. Qed.

Lemma tempFiles_set_trace t s : tempFiles (set_trace t s) = tempFiles s.
Proof. by destruct s. Qed.

Lemma tempFiles_set_options o s : tempFiles (set_options o s) = tempFiles s.
Proof. by destruct s. Qed.

Lemma tempFiles_set_skins l s : tempFiles (set_skins l s) = tempFiles s.
Proof. by destruct s. Qed.

Lemma tempFiles_set_accounts l s : tempFiles (set_accounts l s) = tempFiles s.
Proof. by destruct s. Qed.

Lemma tempFiles_set_lockedAccounts l s : tempFiles (set_lockedAccounts l s) = tempFiles s.
Proof. by destruct s. Qed.

Lemma tempFiles_set_tempFiles m s : tempFiles (set_tempFiles m s) = m.
Proof. by destruct s. Qed.

Create Rewrite HintDb temp.
#[local] Hint Rewrite tempFiles_set_tick tempFiles_set_trace tempFiles_set_options
  tempFiles_set_skins tempFiles_set_accounts tempFiles_set_lockedAccounts
  tempFiles_set_tempFiles : temp.

Lemma Temp_file_temp env dir w r w' : Temp_file env dir w = (r, w') -> acquired w r w'.
Proof.
  intros H. unfold Temp_file in H. exec H; simpl; autorewrite with temp; [|done].
  split; [|done]. apply not_elem_of_dom, is_fresh.
Qed.

Lemma Temp_downloadImage_to_temp env url t w r w' :
  Temp_downloadImage_to env url t w = (r, w') ->
  delete (path t) (tempFiles w') = delete (path t) (tempFiles w).
Proof.
  intros H. unfold Temp_downloadImage_to in H. exec H; autorewrite with temp; [|done].
  apply delete_insert_eq.
Qed.

Lemma Temp_copyUploadedImage_to_temp env file t w r w' :
  Temp_copyUploadedImage_to env file t w = (r, w') ->
  delete (path t) (tempFiles w') = delete (path t) (tempFiles w).
Proof.
  intros H. unfold Temp_copyUploadedImage_to in H. exec H; autorewrite with temp; [|done].
  apply delete_insert_eq.
Qed.

Lemma TempFile_remove_temp t w r w' :
  TempFile_remove t w = (r, w') -> tempFiles w' = delete (path t) (tempFiles w).
Proof. intros H. unfold TempFile_remove in H. exec H. by autorewrite with temp. Qed.

(** The equations on [tempFiles] collected along a path are used up, from
    the final state back to the initial one. *)
Ltac temp_solve :=
  repeat match goal with
    | H : acquired _ (Return _) _ |- _ => destruct H
    | H : acquired _ (Throw _) _ |- _ => unfold acquired in H
    | H : ?s' = ?s :> World |- _ => first [subst s' | subst s]
    end;
  autorewrite with temp in *;
  repeat first
    [ match goal with
      | H : tempFiles ?s = _ |- _ =>
          is_var s; first [rewrite H in * | idtac]; clear H
      end
    | match goal with
      | H : delete ?p (tempFiles ?s) = _ |- context [delete ?p (tempFiles ?s)] =>
          rewrite H
      | H : ?m !! ?p = None |- context [delete ?p (<[?p := _]> ?m)] =>
          rewrite (delete_insert_id m p _ H)
      end
    | progress autorewrite with temp in * ];
  try reflexivity.

Ltac temp_leaf E :=
  first
    [ apply fs_readFile_same in E
    | apply Temp_file_temp in E
    | apply Temp_downloadImage_to_temp in E
    | apply Temp_copyUploadedImage_to_temp in E
    | apply TempFile_remove_temp in E ].

Lemma getMojangHash_temp env url w r w' :
  getMojangHash env url w = (r, w') -> tempFiles w' = tempFiles w.
Proof.
  intros H. unfold getMojangHash in H. exec H.
  all: repeat match goal with E : _ = (_, _) |- _ => temp_leaf E end.
  all: temp_solve.
Qed.

Lemma followUrl_temp env url w r w' :
  followUrl env url w = (r, w') -> tempFiles w' = tempFiles w.
Proof. intros H. unfold followUrl in H. exec H; temp_solve. Qed.

Lemma countDuplicate_temp d0 source type w r w' :
  countDuplicate d0 source type w = (r, w') -> tempFiles w' = tempFiles w.
Proof. intros H. unfold countDuplicate, Skin_save in H. exec H; temp_solve. Qed.

Lemma findDuplicateFromUrl_temp env url type w r w' :
  findDuplicateFromUrl env url type w = (r, w') -> tempFiles w' = tempFiles w.
Proof.
  intros H. unfold findDuplicateFromUrl, Skin_findOne in H. exec H.
  all: repeat match goal with E : _ = (_, _) |- _ => apply countDuplicate_temp in E end.
  all: temp_solve.
Qed.

Lemma findDuplicateFromImageHash_temp hash type w r w' :
  findDuplicateFromImageHash hash type w = (r, w') -> tempFiles w' = tempFiles w.
Proof.
  intros H. unfold findDuplicateFromImageHash, Skin_findOne in H. exec H.
  all: repeat match goal with E : _ = (_, _) |- _ => apply countDuplicate_temp in E end.
  all: temp_solve.
Qed.

Lemma findDuplicateFromUuid_temp uuid type w r w' :
  findDuplicateFromUuid uuid type w = (r, w') -> tempFiles w' = tempFiles w.
Proof.
  intros H. unfold findDuplicateFromUuid, Skin_findOne in H. exec H.
  all: repeat match goal with E : _ = (_, _) |- _ => apply countDuplicate_temp in E end.
  all: temp_solve.
Qed.

Lemma validateTempFile_temp env t type w r w' :
  validateTempFile env t type w = (r, w') -> tempFiles w' = tempFiles w.
Proof.
  intros H. unfold validateTempFile, validateImageData_buffer in H. exec H.
  all: repeat match goal with
         | E : _ = (_, _) |- _ =>
             first [temp_leaf E | apply findDuplicateFromImageHash_temp in E]
         end.
  all: temp_solve.
Qed.

Lemma getAndAuthenticateAccount_temp env w r w' :
  getAndAuthenticateAccount env w = (r, w') -> tempFiles w' = tempFiles w.
Proof.
  intros H.
  unfold getAndAuthenticateAccount, findUsable, Caching_getLockedAccounts,
    Caching_lockSelectedAccount, Account_save, Authentication_authenticate_M in H.
  exec H; temp_solve.
Qed.

Lemma skinChangeRequest_temp env ev account w r w' :
  skinChangeRequest env ev account w = (r, w') -> tempFiles w' = tempFiles w.
Proof. intros H. unfold skinChangeRequest in H. exec H; temp_solve. Qed.

Lemma getSkinData_temp env uuid account w r w' :
  getSkinData env uuid account w = (r, w') -> tempFiles w' = tempFiles w.
Proof. intros H. unfold getSkinData, decodeValue in H. exec H; temp_solve. Qed.

Lemma handleGenerateSuccess_temp account w r w' :
  handleGenerateSuccess account w = (r, w') -> tempFiles w' = tempFiles w.
Proof.
  intros H. unfold handleGenerateSuccess, Account_save in H. exec H; temp_solve.
Qed.

Lemma handleGenerateError_temp env e account w r w' :
  handleGenerateError env e account w = (r, w') -> tempFiles w' = tempFiles w.
Proof.
  intros H. unfold handleGenerateError, Account_save in H. exec H; temp_solve.
Qed.

Lemma saveSkin_temp env result client type start w r w' :
  saveSkin env result client type start w = (r, w') -> tempFiles w' = tempFiles w.
Proof.
  intros H. unfold saveSkin, Skin_create in H. exec H.
  all: match goal with E : makeNewSkinId _ _ = _ |- _ =>
         apply makeNewSkinId_frame in E as [? ->] end.
  all: temp_solve.
Qed.

Ltac temp_call E :=
  first
    [ temp_leaf E
    | apply followUrl_temp in E
    | apply findDuplicateFromUrl_temp in E
    | apply findDuplicateFromUuid_temp in E
    | apply validateTempFile_temp in E
    | apply getAndAuthenticateAccount_temp in E
    | apply skinChangeRequest_temp in E
    | apply getSkinData_temp in E
    | apply getMojangHash_temp in E
    | apply handleGenerateSuccess_temp in E
    | apply handleGenerateError_temp in E
    | apply saveSkin_temp in E ].

Ltac temp_paths :=
  repeat match goal with E : _ = (_, _) |- _ => temp_call E end;
  temp_solve.

Lemma generateFromUser_temp env uuid w r w' :
  generateFromUser env uuid w = (r, w') -> tempFiles w' = tempFiles w.
Proof.
  intros H. unfold generateFromUser, skinUrlOf in H. exec H.
  all: temp_paths.
Qed.

Lemma generateFromUpload_temp env file w r w' :
  generateFromUpload env file w = (r, w') -> tempFiles w' = tempFiles w.
Proof.
  intros H.
  unfold generateFromUpload, FormData_append_Blob, finishGenerate, catchGenerate,
    finallyGenerate, assign_account, assign_tempFile, skinUrlOf, noLocals in H.
  exec H.
  all: temp_paths.
Qed.

Lemma generateFromUrl_temp env url w r w' :
  generateFromUrl env url w = (r, w') -> tempFiles w' = tempFiles w.
Proof.
  intros H.
  unfold generateFromUrl, finishGenerate, catchGenerate, finallyGenerate,
    assign_account, assign_tempFile, skinUrlOf, noLocals, getUrlFromResponse,
    getContentTypeFromResponse, getSizeFromResponse in H.
  exec H.
  all: temp_paths.
Qed.

Lemma andSave_temp env (generate : M World GenerateResult) client type w r w' :
  (forall w r w', generate w = (r, w') -> tempFiles w' = tempFiles w) ->
  (start <- ask (Date_now env) ;;
   data <- generate ;;
   doc <- getDuplicateOrSaved env data client type start ;;
   end_ <- ask (Date_now env) ;;
   emit (EvDurationMetric (end_ - start) type (Account.id <$> res_account data)) ;;
   ret doc) w = (r, w') ->
  tempFiles w' = tempFiles w.
Proof.
  intros Hgen H. unfold getDuplicateOrSaved in H. exec H.
  all: repeat match goal with
         | E : _ = (_, _) |- _ => first [apply Hgen in E | temp_call E]
         end.
  all: temp_solve.
Qed.

Lemma generateAndSave_temp env request client w r w' :
  generateAndSave env request client w = (r, w') -> tempFiles w' = tempFiles w.
Proof.
  destruct request as [url|file|user]; simpl.
  - apply andSave_temp. intros w0 r0 w0'. apply generateFromUrl_temp.
  - apply andSave_temp. intros w0 r0 w0'. apply generateFromUpload_temp.
  - apply andSave_temp. intros w0 r0 w0'. apply generateFromUser_temp.
Qed.

(** C9. Whatever the request and however it ends (a new skin, a duplicate,
    a validation error, an upstream failure or any other error raised on the
    way), the temp files after the run are those from before it: every
    handle acquired during the request has been released. *)
Theorem temp_files_released env request client w :
  tempFiles (snd (generateAndSave env request client w)) = tempFiles w.
Proof.
  destruct (generateAndSave env request client w) as [r w'] eqn:Hrun.
  exact (generateAndSave_temp env request client w r w' Hrun).
Qed.

(** On this run two handles are acquired (for the download and for the
    upstream texture), and both are gone at the end. *)
Example url_acquires_and_releases :
  let run := generateAndSave (testEnv Accepted) (FromUrl "http://imgur.com/a.png") client1
               (world [] [account1] options1) in
  (exists s, fst run = Return s /\ Skin.duplicate s = 0)
  /\ In (EvDownload "http://imgur.com/a.png") (trace (snd run))
  /\ In (EvDownload "http://textures/1") (trace (snd run))
  /\ tempFiles (snd run) = ∅.
Proof.
  split; [eexists; split; vm_compute; reflexivity|].
  split; [vm_compute; auto 10|]. split; vm_compute; [auto 10|reflexivity].
Qed.

(** * Further properties of the generator *)

(** ** The probes *)

Lemma countDuplicate_run d0 source type w :
  countDuplicate d0 source type w =
    (Return (counted d0),
     set_skins
       (replace_by_id Skin._id (counted d0)
          (skins (set_trace (trace w ++ [EvDuplicateMetric source type]) w)))
       (set_trace (trace w ++ [EvDuplicateMetric source type]) w)).
Proof. reflexivity. Qed.

(** X1. When the source-URL probe hits, the stored record it counts has the
    name, the model and the visibility of the request, and it matches the
    URL: by its id when the URL is a catalog URL, by its texture URL or
    texture hash when the URL is an upstream texture URL. *)
Theorem findDuplicateFromUrl_hit env url type w d w' :
  findDuplicateFromUrl env url type w = (Return (Some d), w') ->
  exists d0, In d0 (skins w) /\ d = counted d0
    /\ Skin.name d0 = opt_name (options w)
    /\ Skin.model d0 = SkinModel_str (opt_model (options w))
    /\ Skin.visibility d0 = opt_visibility (options w)
    /\ ((exists groups, MINESKIN_URL_REGEX_exec env url = Some groups
           /\ Skin.id d0 = parseInt env (nth 2 groups ""))
        \/ (exists groups, MINECRAFT_TEXTURE_REGEX_exec env url = Some groups
              /\ (Skin.url d0 = nth 0 groups ""
                  \/ Skin.minecraftTextureHash d0 = Some (nth 1 groups "")))).
Proof.
  intros H. unfold findDuplicateFromUrl, Skin_findOne in H. exec H.
  all: try discriminate.
  all: match goal with E : countDuplicate _ _ _ _ = _ |- _ =>
         rewrite countDuplicate_run in E; injection E as <- <- end.
  all: match goal with Hfind : find _ _ = Some ?d0 |- _ =>
         apply find_passes in Hfind as [Hin Hf]; exists d0 end.
  all: apply andb_prop in Hf as [Hf Hv]; apply andb_prop in Hf as [Hf Hmo];
       apply andb_prop in Hf as [Hk Hn].
  all: split; [done|]; split; [done|].
  all: split; [by apply String.eqb_eq|]; split; [by apply String.eqb_eq|].
  all: split; [by apply Z.eqb_eq|].
  - left. destruct (MINESKIN_URL_REGEX_exec env url) as [groups|]; [|done].
    exists groups. split; [done|]. by apply Z.eqb_eq.
  - right. destruct (MINECRAFT_TEXTURE_REGEX_exec env url) as [groups|]; [|done].
    exists groups. split; [done|].
    apply orb_prop in Hk as [Hk|Hk]; [left; by apply String.eqb_eq|].
    right. by apply bool_decide_eq_true in Hk.
Qed.

Lemma findDuplicateFromUrl_hit_witness :
  exists d0, In d0 [skin1] /\ Skin.id d0 = 1234 /\ Skin.model d0 = "slim".
Proof.
  destruct (findDuplicateFromUrl_hit urlEnv "https://minesk.in/1234" URL
              (world [skin1] [] options2) (counted skin1)
              (snd (findDuplicateFromUrl urlEnv "https://minesk.in/1234" URL
                      (world [skin1] [] options2))))
    as (d0 & Hin & _ & _ & Hmodel & _ & Hmatch).
  - vm_compute. reflexivity.
  - exists d0. split; [exact Hin|]. split; [|exact Hmodel].
    destruct Hin as [<-|[]]. reflexivity.
Defined.

(** X2. A probe does not look up a key shorter than its minimum (8
    characters for a URL, 30 for an image hash, 34 for a UUID): it finds
    nothing and leaves the state as it is. *)
Theorem probe_short_key env p type w :
  (String.length (probeKey p) < probeMinLength p)%nat ->
  runProbe env p type w = (Return None, w).
Proof.
  intros Hlen.
  destruct p as [url|hash|uuid]; simpl in *;
    unfold findDuplicateFromUrl, findDuplicateFromImageHash, findDuplicateFromUuid,
      bind, gets, ret.
  - replace (Z.of_nat (String.length url) <? 8) with true by lia.
    by rewrite orb_true_r.
  - replace (Z.of_nat (String.length hash) <? 30) with true by lia.
    by rewrite orb_true_r.
  - replace (Z.of_nat (String.length uuid) <? 34) with true by lia.
    by rewrite orb_true_r.
Qed.

Lemma probe_short_key_witness :
  runProbe (testEnv Accepted) (ProbeImageHash "0123456789abcdef") UPLOAD
    (world [skin1] [] options2)
  = (Return None, world [skin1] [] options2).
Proof.
  apply (probe_short_key (testEnv Accepted) (ProbeImageHash "0123456789abcdef")).
  vm_compute. lia.
Defined.

(** X3. Whichever probe hits, the record it returns is a stored record
    counted once more, whose name and visibility are those of the request
    and whose key is at least the probe's minimum length; the state changes
    by that record and one duplicate metric only. In particular a stored
    skin under another name is never returned. *)
Theorem probe_hit_same_name env p type w d w' :
  runProbe env p type w = (Return (Some d), w') ->
  exists d0 source, In d0 (skins w) /\ d = counted d0
    /\ Skin.name d0 = opt_name (options w)
    /\ Skin.visibility d0 = opt_visibility (options w)
    /\ (probeMinLength p <= String.length (probeKey p))%nat
    /\ In source (probeSource p)
    /\ w' = set_skins (replace_by_id Skin._id d (skins w))
              (set_trace (trace w ++ [EvDuplicateMetric source type]) w).
Proof.
  intros H. destruct p as [url|hash|uuid]; simpl in *.
  all: unfold findDuplicateFromUrl, findDuplicateFromImageHash, findDuplicateFromUuid,
         Skin_findOne in H; exec H.
  all: try discriminate.
  all: match goal with E : countDuplicate _ ?src _ _ = _ |- _ =>
         rewrite countDuplicate_run in E; injection E as <- <-;
         match goal with Hfind : find _ _ = Some ?d0 |- _ =>
           apply find_passes in Hfind as [Hin Hf]; exists d0, src end end.
  all: unfold imageHashFilter, uuidFilter in Hf.
  all: apply andb_prop in Hf as [Hf Hv]; apply andb_prop in Hf as [Hf Hmo];
       apply andb_prop in Hf as [Hk Hn].
  all: split; [done|]; split; [done|].
  all: split; [by apply String.eqb_eq|]; split; [by apply Z.eqb_eq|].
  all: split; [|split; [simpl; auto|by destruct w]].
  all: match goal with Hg : (_ || _) = false |- _ =>
         repeat (apply orb_false_elim in Hg as [Hg ?]) end.
  all: lia.
Qed.

Lemma probe_hit_same_name_witness :
  exists d0, In d0 [skin1] /\ Skin.name d0 = "slim" /\ Skin.visibility d0 = 0.
Proof.
  destruct (probe_hit_same_name (testEnv Accepted) (ProbeUuid hash40) USER
              (world [skin1] [] options2) (counted skin1)
              (snd (runProbe (testEnv Accepted) (ProbeUuid hash40) USER
                      (world [skin1] [] options2))))
    as (d0 & source & Hin & _ & Hname & Hvis & _).
  - vm_compute. reflexivity.
  - exists d0. auto.
Defined.

(** ** Saving *)

Lemma skins_set_trace t s : skins (set_trace t s) = skins s.
Proof. by destruct s. Qed.

Lemma skins_set_options o s : skins (set_options o s) = skins s.
Proof. by destruct s. Qed.

Lemma skins_set_tempFiles m s : skins (set_tempFiles m s) = skins s.
Proof. by destruct s. Qed.

Lemma skins_set_accounts l s : skins (set_accounts l s) = skins s.
Proof. by destruct s. Qed.

Lemma skins_set_lockedAccounts l s : skins (set_lockedAccounts l s) = skins s.
Proof. by destruct s. Qed.

Lemma skins_set_skins l s : skins (set_skins l s) = l.
Proof. by destruct s. Qed.

Create Rewrite HintDb cat.
#[local] Hint Rewrite skins_set_tick skins_set_trace skins_set_options skins_set_tempFiles
  skins_set_accounts skins_set_lockedAccounts skins_set_skins : cat.

(** The id that [makeNewSkinId] returns is the id of no stored skin. *)
Lemma makeNewSkinId_free env w id w' :
  makeNewSkinId env w = (Return id, w') ->
  (forall s0, In s0 (skins w) -> Skin.id s0 <> id) /\ exists n, w' = set_tick n w.
Proof.
  intros H. unfold makeNewSkinId in H.
  destruct (makeRandomSkinId_from env 11 0 w eq_refl)
    as [(k & _ & _ & Hfree & Hrun)|[_ Hrun]]; rewrite Hrun in H; [|discriminate].
  injection H as <- <-. split; [|by eexists].
  intros s0 Hin Hid. unfold idTaken in Hfree.
  destruct (find _ (skins w)) as [x|] eqn:Hfind; [discriminate|].
  pose proof (find_none _ _ Hfind s0 Hin) as Hne. simpl in Hne.
  apply Z.eqb_neq in Hne. done.
Qed.

(** X4. The record that [saveSkin] stores has an id that no stored record
    had: ids that were pairwise distinct before the save are pairwise
    distinct after it. *)
Theorem saveSkin_fresh_id env result client type start w s w' :
  saveSkin env result client type start w = (Return s, w') ->
  (forall s0, In s0 (skins w) -> Skin.id s0 <> Skin.id s)
  /\ (NoDup (map Skin.id (skins w)) -> NoDup (map Skin.id (skins w'))).
Proof.
  intros H. unfold saveSkin, Skin_create in H. exec H.
  all: try discriminate.
  match goal with E : makeNewSkinId _ _ = _ |- _ =>
    apply makeNewSkinId_free in E as [Hfree [n ->]] end.
  autorewrite with cat. simpl. split; [exact Hfree|].
  intros Hnd. rewrite map_app. simpl. apply NoDup_app. split; [done|].
  split; [|apply NoDup_singleton].
  intros x Hx Hx'. apply list_elem_of_In in Hx. apply in_map_iff in Hx as (old & <- & Hin).
  apply list_elem_of_In in Hx'. destruct Hx' as [Heq|[]].
  by apply (Hfree old Hin).
Qed.

Lemma saveSkin_fresh_id_witness :
  let w := world [skin1; skin5] [account1] options1 in
  exists s w', saveSkin (testEnv Accepted) result1 client1 UPLOAD 0 w = (Return s, w')
    /\ Skin.id s = 6
    /\ forall s0, In s0 (skins w) -> Skin.id s0 <> Skin.id s.
Proof.
  intros w. eexists _, _. split; [vm_compute; reflexivity|]. split; [reflexivity|].
  refine (proj1 (saveSkin_fresh_id (testEnv Accepted) result1 client1 UPLOAD 0 w _ _ _)).
  vm_compute. reflexivity.
Defined.

(** ** Validation *)

Lemma options_set_tick n s : options (set_tick n s) = options s.
Proof. by destruct s. Qed.

Lemma options_set_trace t s : options (set_trace t s) = options s.
Proof. by destruct s. Qed.

Lemma options_set_skins l s : options (set_skins l s) = options s.
Proof. by destruct s. Qed.

Lemma options_set_accounts l s : options (set_accounts l s) = options s.
Proof. by destruct s. Qed.

Lemma options_set_lockedAccounts l s : options (set_lockedAccounts l s) = options s.
Proof. by destruct s. Qed.

Lemma options_set_tempFiles m s : options (set_tempFiles m s) = options s.
Proof. by destruct s. Qed.

Lemma options_set_options o s : options (set_options o s) = o.
Proof. by destruct s. Qed.

Create Rewrite HintDb opt.
#[local] Hint Rewrite options_set_tick options_set_trace options_set_skins
  options_set_accounts options_set_lockedAccounts options_set_tempFiles
  options_set_options : opt.

Lemma validateImageData_known image model :
  validateImageData image = inr model -> model <> UNKNOWN.
Proof.
  unfold validateImageData.
  repeat match goal with |- context [if ?b then _ else _] => destruct b end;
    intros H; inversion H; done.
Qed.

Lemma switchModel_known m0 model : model <> UNKNOWN -> switchModel m0 model <> UNKNOWN.
Proof. by destruct m0, model. Qed.

Lemma badImageType_png mime : badImageType mime = false -> mime = Some "image/png".
Proof.
  destruct mime as [m|]; simpl; [|done]. intros H.
  apply orb_false_elim in H as [_ H]. apply negb_false_iff, bool_decide_eq_true in H.
  apply list_elem_of_In in H. destruct H as [<-|[]]. done.
Qed.

Lemma badImageSize_bounds size :
  badImageSize (Some size) = false -> 100 <= size <= MAX_IMAGE_SIZE.
Proof.
  unfold badImageSize. simpl. intros H.
  apply orb_false_elim in H as [H Hhi]. apply orb_false_elim in H as [_ Hlo]. lia.
Qed.

Lemma fs_readFile_run p w :
  fs_readFile p w =
    match tempFiles w !! p with
    | Some bytes => (Return bytes, w)
    | None => (Throw (OtherError "ENOENT"), w)
    end.
Proof. unfold fs_readFile, bind, gets. simpl. by destruct (tempFiles w !! p). Qed.

Lemma findDuplicateFromImageHash_state hash type w r w' :
  findDuplicateFromImageHash hash type w = (r, w') ->
  options w' = options w /\ tempFiles w' = tempFiles w /\ exists o, r = Return o.
Proof.
  intros H. unfold findDuplicateFromImageHash, Skin_findOne in H. exec H.
  all: try match goal with E : countDuplicate _ _ _ _ = _ |- _ =>
             rewrite countDuplicate_run in E;
             first [discriminate E | injection E as <- <-] end.
  all: autorewrite with opt temp; eauto.
Qed.

(** X5. When [validateTempFile] returns, the temp file holds between 100
    and 20000 bytes, which [imageSize] measures as 64x64 or 64x32, which
    [fileType] detects as image/png and which [Jimp] decodes; the model left
    in the options is the one the options had, or the detected one if they
    had none, and is never unknown; without a duplicate, the result carries
    these bytes and their image hash. *)
Theorem validateTempFile_accepts env t type w v w' :
  validateTempFile env t type w = (Return v, w') ->
  exists bytes image model,
    tempFiles w !! path t = Some bytes
    /\ 100 <= Z.of_nat (length bytes) <= MAX_IMAGE_SIZE
    /\ (imageSize env bytes = Some (64, 64) \/ imageSize env bytes = Some (64, 32))
    /\ fileType_fromBuffer env bytes = Some "image/png"
    /\ Jimp_read env bytes = Some image
    /\ validateImageData image = inr model
    /\ opt_model (options w') = switchModel (opt_model (options w)) model
    /\ opt_model (options w') <> UNKNOWN
    /\ (res_duplicate (tfv_result v) = None ->
        tfv_buffer v = Some bytes /\ tfv_hash v = imageHash env bytes).
Proof.
  intros H. unfold validateTempFile, validateImageData_buffer in H. exec H.
  all: try discriminate.
  all: match goal with E : fs_readFile _ _ = _ |- _ =>
         rewrite fs_readFile_run in E;
         destruct (tempFiles w !! path t) as [bytes|] eqn:Hfile; [|discriminate];
         injection E as <- <- end.
  all: match goal with E : findDuplicateFromImageHash _ _ _ = _ |- _ =>
         apply findDuplicateFromImageHash_state in E as (Hopt & _ & _) end.
  all: match goal with
       | Hj : Jimp_read _ _ = Some ?image, Hm : validateImageData ?image = inr ?model |- _ =>
           exists bytes, image, model
       end.
  all: autorewrite with opt in *.
  all: match goal with Hs : badImageSize _ = false |- _ => apply badImageSize_bounds in Hs end.
  all: match goal with Ht : badImageType _ = false |- _ => apply badImageType_png in Ht end.
  all: match goal with
       | Hd : (negb (?z =? 64) || negb (?z0 =? 64) && negb (?z0 =? 32)) = false |- _ =>
           assert (z = 64 /\ (z0 = 64 \/ z0 = 32)) as [-> Hh]
             by (clear -Hd;
                 destruct (Z.eqb_spec z 64), (Z.eqb_spec z0 64), (Z.eqb_spec z0 32);
                 simpl in Hd; auto; discriminate)
       end.
  all: rewrite ?Hopt; simpl.
  all: split; [done|]; split; [done|].
  all: split; [destruct Hh as [->| ->]; auto|].
  all: split; [done|]; split; [done|]; split; [done|]; split; [done|].
  all: split; [apply switchModel_known; by eapply validateImageData_known|].
  all: intros Hnone; try discriminate Hnone; by split.
Qed.

Lemma validateTempFile_accepts_witness :
  let w := set_tempFiles {[ 0%nat := file128 ]} (world [] [] options1) in
  exists v w', validateTempFile (testEnv Accepted) {| path := 0 |} UPLOAD w = (Return v, w')
    /\ tfv_hash v = Some hash40
    /\ opt_model (options w') <> UNKNOWN.
Proof.
  intros w. eexists _, _. split; [vm_compute; reflexivity|]. split; [reflexivity|].
  destruct (validateTempFile_accepts (testEnv Accepted) {| path := 0 |} UPLOAD w _ _
              ltac:(vm_compute; reflexivity))
    as (bytes & image & model & _ & _ & _ & _ & _ & _ & _ & Hknown & _).
  exact Hknown.
Defined.

Lemma validateImageData_rejects image code httpCode :
  validateImageData image = inl (code, httpCode) ->
  code = INVALID_IMAGE /\ httpCode = 400
  /\ (getWidth image <> 64 \/ (getHeight image <> 64 /\ getHeight image <> 32)).
Proof.
  unfold validateImageData.
  destruct (negb (getWidth image =? 64)
            || negb (getHeight image =? 64) && negb (getHeight image =? 32)) eqn:Hd.
  - intros H. injection H as <- <-. split; [done|]. split; [done|].
    apply orb_prop in Hd as [Hd|Hd].
    + left. apply negb_true_iff in Hd. lia.
    + right. apply andb_prop in Hd as [H1 H2]. apply negb_true_iff in H1, H2. lia.
  - repeat match goal with |- context [if ?b then _ else _] => destruct b end; done.
Qed.

Lemma badImageSize_outside size :
  badImageSize (Some size) = true -> size < 100 \/ MAX_IMAGE_SIZE < size.
Proof.
  unfold badImageSize. simpl. intros H.
  apply orb_prop in H as [H|H]; [apply orb_prop in H as [H|H]|].
  - apply negb_true_iff, negb_false_iff in H. lia.
  - lia.
  - lia.
Qed.

Lemma badImageType_other mime : badImageType mime = true -> mime <> Some "image/png".
Proof. intros H ->. discriminate H. Qed.

(** X6. When [validateTempFile] raises a [GeneratorError], the error is
    INVALID_IMAGE with HTTP code 400 and names no account, the state is the
    one from before the call, and one of the checks failed on the bytes of
    the file: fewer than 100 or more than 20000 bytes, measured dimensions
    other than 64x64 and 64x32, a detected type other than image/png, or
    decoded dimensions other than 64x64 and 64x32. *)
Theorem validateTempFile_rejects env t type w code msg httpCode account w' :
  validateTempFile env t type w = (Throw (GeneratorError code msg httpCode account), w') ->
  code = INVALID_IMAGE /\ httpCode = 400 /\ account = None /\ w' = w
  /\ exists bytes, tempFiles w !! path t = Some bytes
       /\ (Z.of_nat (length bytes) < 100
           \/ MAX_IMAGE_SIZE < Z.of_nat (length bytes)
           \/ (exists d, imageSize env bytes = Some d /\ d <> (64, 64) /\ d <> (64, 32))
           \/ fileType_fromBuffer env bytes <> Some "image/png"
           \/ (exists image, Jimp_read env bytes = Some image
                 /\ (getWidth image <> 64
                     \/ (getHeight image <> 64 /\ getHeight image <> 32)))).
Proof.
  intros H. unfold validateTempFile, validateImageData_buffer in H. exec H.
  all: try match goal with E : findDuplicateFromImageHash _ _ _ = (Throw _, _) |- _ =>
             apply findDuplicateFromImageHash_state in E as (_ & _ & o & Ho);
             discriminate Ho end.
  all: try discriminate.
  all: match goal with E : fs_readFile ?p ?s = _ |- _ =>
         rewrite fs_readFile_run in E;
         destruct (tempFiles s !! p) as [bytes|] eqn:Hfile;
         inversion E; subst; clear E end.
  all: try (inversion H; subst; clear H).
  all: try match goal with Hv : validateImageData _ = inl _ |- _ =>
             apply validateImageData_rejects in Hv as (-> & -> & Hv) end.
  all: repeat (split; [done|]); eexists; (split; [reflexivity|]).
  all: match goal with
       | Hs : badImageSize _ = true |- _ =>
           apply badImageSize_outside in Hs as [Hs|Hs]; [by left|by right; left]
       | Hd : (negb (?z =? 64) || negb (?z0 =? 64) && negb (?z0 =? 32)) = true,
         Hi : imageSize _ _ = Some _ |- _ =>
           right; right; left; eexists; split; [exact Hi|];
           clear -Hd; split; intros Heq; injection Heq as -> ->; discriminate Hd
       | Ht : badImageType _ = true |- _ =>
           right; right; right; left; exact (badImageType_other _ Ht)
       | Hj : Jimp_read _ _ = Some _, Hv : _ \/ _ |- _ =>
           right; right; right; right; eexists; split; [exact Hj|exact Hv]
       end.
Qed.

Lemma validateTempFile_rejects_witness :
  let w := set_tempFiles {[ 0%nat := replicate 10 0 ]} (world [skin1] [account1] options1) in
  exists msg w',
    validateTempFile (testEnv Accepted) {| path := 0 |} UPLOAD w
      = (Throw (GeneratorError INVALID_IMAGE msg 400 None), w')
    /\ w' = w.
Proof.
  intros w. eexists _, _. split; [vm_compute; reflexivity|].
  refine (proj1 (proj2 (proj2 (proj2
            (validateTempFile_rejects (testEnv Accepted) {| path := 0 |} UPLOAD w
               _ _ _ _ _ _))))).
  vm_compute. reflexivity.
Defined.

(** ** The account pool, further *)

Lemma absent_or_lt_intro o bound :
  (forall t, o = Some t -> t < bound) -> absent_or_lt o bound = true.
Proof. destruct o as [t|]; simpl; [|done]. intros H. specialize (H t eq_refl). lia. Qed.

Lemma present_lt_intro o bound t : o = Some t -> t < bound -> present_lt o bound = true.
Proof. intros -> H. simpl. lia. Qed.

Lemma eligible_usableFilter env time locked a :
  eligible env time locked a -> usableFilter env time locked a = true.
Proof.
  intros (Hen & (c & Hc & Hclt) & (t & Ht & Htlt) & Hlu & Hls & Hft & Hrs & Hlock).
  unfold errorThreshold in Hclt. unfold usableFilter.
  rewrite Hen, (absent_or_lt_intro _ _ Hlu), (absent_or_lt_intro _ _ Hls),
    (absent_or_lt_intro _ _ Hft), (present_lt_intro _ _ _ Hc Hclt),
    (present_lt_intro _ _ _ Ht Htlt), bool_decide_eq_false_2 by done.
  simpl. rewrite !andb_true_r.
  destruct (Account.requestServer a) as [s|] eqn:Hs; [|done].
  destruct Hrs as [Hrs|[Hrs|Hrs]]; [done| |].
  - injection Hrs as ->. done.
  - rewrite <- Hrs. rewrite bool_decide_eq_true_2 by done. by rewrite orb_true_r.
Qed.

Lemma fold_best_Some (l : list Account.t) b :
  exists a,
    fold_left
      (fun best a =>
         match best with
         | None => Some a
         | Some b => if sortsBefore a b then Some a else Some b
         end) l (Some b) = Some a.
Proof.
  revert b. induction l as [|x l IH]; intros b; simpl; [by eexists|].
  destruct (sortsBefore x b); apply IH.
Qed.

Lemma firstSorted_None l : firstSorted l = None -> l = [].
Proof.
  destruct l as [|x l]; [done|]. unfold firstSorted. simpl. intros H.
  destruct (fold_best_Some l x) as [a Ha]. congruence.
Qed.

Lemma key_lt_spec a b :
  key_lt a b = true <->
  match a, b with
  | None, Some _ => True
  | Some x, Some y => x < y
  | _, None => False
  end.
Proof. destruct a, b; simpl; try done. apply Z.ltb_lt. Qed.

Ltac key_cases :=
  repeat case_bool_decide;
  repeat match goal with
    | H : Some ?x = Some ?y |- _ => assert (x = y) by congruence; clear H
    | H : Some ?x <> Some ?y |- _ => assert (x <> y) by congruence; clear H
    | H : Some _ = None |- _ => discriminate H
    | H : None = Some _ |- _ => discriminate H
    | H : None <> None |- _ => destruct (H eq_refl)
    | H : context [?x <? ?y] |- _ => destruct (Z.ltb_spec x y)
    | |- context [?x <? ?y] => destruct (Z.ltb_spec x y)
    end;
  simpl in *; try done; try lia.

Lemma key_lt_trans a b c : key_lt a b = true -> key_lt b c = true -> key_lt a c = true.
Proof. destruct a, b, c; simpl; key_cases. Qed.

Lemma key_lt_negtrans a b c :
  key_lt a b = false -> key_lt b c = false -> key_lt a c = false.
Proof. destruct a, b, c; simpl; key_cases. Qed.

(** One level of a lexicographic comparison, over the comparison of the
    levels below. *)
Lemma lex_trans ka kb kc (rab rbc rac : bool) :
  (rab = true -> rbc = true -> rac = true) ->
  key_lt ka kb || (bool_decide (ka = kb) && rab) = true ->
  key_lt kb kc || (bool_decide (kb = kc) && rbc) = true ->
  key_lt ka kc || (bool_decide (ka = kc) && rac) = true.
Proof.
  intros Hr. destruct ka as [x|], kb as [y|], kc as [z|]; simpl; key_cases.
  all: destruct rab, rbc; simpl; try done; intros _ _; by apply Hr.
Qed.

Lemma lex_negtrans ka kb kc (rab rbc rac : bool) :
  (rab = false -> rbc = false -> rac = false) ->
  key_lt ka kb || (bool_decide (ka = kb) && rab) = false ->
  key_lt kb kc || (bool_decide (kb = kc) && rbc) = false ->
  key_lt ka kc || (bool_decide (ka = kc) && rac) = false.
Proof.
  intros Hr. destruct ka as [x|], kb as [y|], kc as [z|]; simpl; key_cases.
  all: destruct rab, rbc; simpl; try done; intros _ _; by apply Hr.
Qed.

(** The sort order of [findUsable] is a strict weak order. *)
Lemma sortsBefore_trans a b c :
  sortsBefore a b = true -> sortsBefore b c = true -> sortsBefore a c = true.
Proof. unfold sortsBefore. apply lex_trans, lex_trans, key_lt_trans. Qed.

Lemma sortsBefore_negtrans a b c :
  sortsBefore a b = false -> sortsBefore b c = false -> sortsBefore a c = false.
Proof. unfold sortsBefore. apply lex_negtrans, lex_negtrans, key_lt_negtrans. Qed.

Lemma sortsBefore_irrefl a : sortsBefore a a = false.
Proof.
  unfold sortsBefore.
  destruct (Account.lastUsed a), (Account.lastSelected a),
    (Account.sameTextureCounter a); simpl; key_cases.
Qed.

Lemma fold_best_least (l : list Account.t) : forall best a,
  fold_left
    (fun best a =>
       match best with
       | None => Some a
       | Some b => if sortsBefore a b then Some a else Some b
       end) l best = Some a ->
  (forall y, In y l -> sortsBefore y a = false)
  /\ (forall b0, best = Some b0 -> sortsBefore b0 a = false).
Proof.
  induction l as [|x l IH]; intros best a H; simpl in H.
  - split; [by intros y []|]. intros b0 Hb. rewrite Hb in H. injection H as ->.
    apply sortsBefore_irrefl.
  - apply IH in H as [Hl Hbest]. destruct best as [b0|].
    + destruct (sortsBefore x b0) eqn:Hx.
      * pose proof (Hbest x eq_refl) as Hxa. split.
        -- intros y [<-|Hy]; [done|by apply Hl].
        -- intros b1 Hb1. injection Hb1 as <-.
           destruct (sortsBefore b0 a) eqn:Hba; [|done].
           assert (sortsBefore x a = true) by by eapply sortsBefore_trans.
           congruence.
      * pose proof (Hbest b0 eq_refl) as Hba. split.
        -- intros y [<-|Hy]; [|by apply Hl]. by eapply sortsBefore_negtrans.
        -- intros b1 Hb1. by injection Hb1 as <-.
    + pose proof (Hbest x eq_refl) as Hxa. split; [|done].
      intros y [<-|Hy]; [done|by apply Hl].
Qed.

(** X7. [findUsable] finds an account whenever a stored account is
    eligible; the account it returns is then locked. *)
Theorem findUsable_finds env w a0 :
  In a0 (accounts w) ->
  eligible env (Date_now env (tick w) / 1000) (lockedAccounts w) a0 ->
  exists a w', findUsable env w = (Return (Some a), w')
    /\ Account.id a ∈ lockedAccounts w'.
Proof.
  intros Hin Hel. rewrite findUsable_run. simpl.
  destruct (firstSorted _) as [b|] eqn:Hfirst.
  - eexists _, _. split; [reflexivity|].
    destruct (markSelected_fields (Date_now env (tick w) / 1000) b) as (_ & -> & _).
    destruct w; simpl. set_solver.
  - apply firstSorted_None in Hfirst.
    assert (In a0 (List.filter
                     (usableFilter env (Date_now env (tick w) / 1000) (lockedAccounts w))
                     (accounts w))) as Hin'.
    { apply filter_In. split; [done|]. by apply eligible_usableFilter. }
    rewrite Hfirst in Hin'. destruct Hin'.
Qed.

Lemma findUsable_finds_witness :
  exists a w', findUsable (testEnv Accepted) (world [] [account4; account3] options1)
               = (Return (Some a), w')
    /\ Account.id a ∈ lockedAccounts w'.
Proof.
  apply (findUsable_finds (testEnv Accepted) (world [] [account4; account3] options1) account3).
  - right. by left.
  - unfold eligible. simpl.
    split; [done|]. split; [by exists 0|]. split; [exists 0; split; [done|vm_compute; done]|].
    split; [intros t Ht; injection Ht as <-; vm_compute; done|].
    split; [done|]. split; [done|]. split; [by right; right|]. set_solver.
Defined.

(** X8. When no stored account is eligible, [getAndAuthenticateAccount]
    raises NO_ACCOUNT_AVAILABLE with HTTP code 500 and no account; the pool
    and the locked set are as before and two warnings are logged. *)
Theorem no_account_available env w :
  (forall a, In a (accounts w) ->
     ~ eligible env (Date_now env (tick w) / 1000) (lockedAccounts w) a) ->
  exists w',
    getAndAuthenticateAccount env w =
      (Throw (GeneratorError NO_ACCOUNT_AVAILABLE "No account available" 500 None), w')
    /\ accounts w' = accounts w
    /\ lockedAccounts w' = lockedAccounts w
    /\ trace w' = (trace w ++ [EvWarn "There are no accounts available!";
                               EvWarn "[Generator] No account available!"])%list.
Proof.
  intros Hnone. unfold getAndAuthenticateAccount. unfold bind at 1.
  rewrite findUsable_run. simpl.
  destruct (firstSorted _) as [b|] eqn:Hfirst.
  - apply firstSorted_In, filter_In in Hfirst as [Hin Hf].
    destruct (Hnone b Hin). by apply usableFilter_eligible.
  - eexists. split; [reflexivity|]. destruct w; simpl.
    split; [done|]. split; [done|]. by rewrite <- app_assoc.
Qed.

Lemma no_account_available_witness :
  exists w',
    getAndAuthenticateAccount (testEnv Accepted) (world [] [account4] options1) =
      (Throw (GeneratorError NO_ACCOUNT_AVAILABLE "No account available" 500 None), w')
    /\ accounts w' = [account4]
    /\ lockedAccounts w' = ∅.
Proof.
  destruct (no_account_available (testEnv Accepted) (world [] [account4] options1))
    as (w' & Hrun & Ha & Hl & _).
  - intros a [<-|[]] (_ & (c & Hc & Hlt) & _). injection Hc as <-. vm_compute in Hlt. done.
  - exists w'. auto.
Defined.

(** X9. Selection is exclusive: once [findUsable] has returned an account,
    its id is in the locked set, and no later [findUsable] on a state whose
    locked set still holds it returns an account with that id. *)
Theorem findUsable_exclusive env w a w1 w2 b w3 :
  findUsable env w = (Return (Some a), w1) ->
  lockedAccounts w1 ⊆ lockedAccounts w2 ->
  findUsable env w2 = (Return (Some b), w3) ->
  Account.id a ∈ lockedAccounts w1 /\ Account.id b <> Account.id a.
Proof.
  rewrite !findUsable_run. simpl. intros H1 Hsub H2.
  destruct (firstSorted _) as [a0|] eqn:Ha in H1; [|done].
  destruct (firstSorted _) as [b0|] eqn:Hb in H2; [|done].
  injection H1 as <- <-. injection H2 as <- <-.
  destruct (markSelected_fields (Date_now env (tick w) / 1000) a0) as (_ & -> & _).
  destruct (markSelected_fields (Date_now env (tick w2) / 1000) b0) as (_ & -> & _).
  assert (Account.id a0 ∈ lockedAccounts
            (set_accounts
               (replace_by_id Account._id (markSelected (Date_now env (tick w) / 1000) a0)
                  (accounts w))
               (set_lockedAccounts ({[Account.id a0]} ∪ lockedAccounts w)
                  (set_tick (S (tick w)) w)))) as Hlocked.
  { destruct w; simpl. set_solver. }
  split; [done|]. intros Heq.
  apply firstSorted_In, filter_In in Hb as [_ Hf].
  apply usableFilter_eligible in Hf. destruct Hf as (_ & _ & _ & _ & _ & _ & _ & Hfree).
  apply Hfree. rewrite Heq. by apply Hsub.
Qed.

Lemma findUsable_exclusive_witness :
  let w := world [] [account1; account3] options1 in
  let w1 := snd (findUsable (testEnv Accepted) w) in
  Account.id (markSelected 1000000 account1) ∈ lockedAccounts w1
  /\ Account.id (markSelected 1000001 account3) <> Account.id (markSelected 1000000 account1).
Proof.
  intros w w1.
  apply (findUsable_exclusive (testEnv Accepted) w (markSelected 1000000 account1) w1 w1
           (markSelected 1000001 account3) (snd (findUsable (testEnv Accepted) w1))).
  - vm_compute. reflexivity.
  - done.
  - vm_compute. reflexivity.
Defined.

(** X10. [findUsable] returns the least recently used eligible account: no
    stored account that is eligible sorts before the one it selected, so
    none of them has an older [lastUsed]. *)
Theorem findUsable_least_recently_used env w a w' :
  findUsable env w = (Return (Some a), w') ->
  exists a0, In a0 (accounts w)
    /\ a = markSelected (Date_now env (tick w) / 1000) a0
    /\ forall b, In b (accounts w) ->
         eligible env (Date_now env (tick w) / 1000) (lockedAccounts w) b ->
         sortsBefore b a0 = false
         /\ key_lt (Account.lastUsed b) (Account.lastUsed a0) = false.
Proof.
  rewrite findUsable_run. simpl.
  destruct (firstSorted _) as [a0|] eqn:Hfirst; [|done].
  intros H. injection H as <- <-. exists a0.
  pose proof (firstSorted_In _ _ Hfirst) as Hin. apply filter_In in Hin as [Hin _].
  split; [done|]. split; [done|]. intros b Hb Hel.
  apply fold_best_least in Hfirst as [Hleast _].
  assert (sortsBefore b a0 = false) as Hnot.
  { apply Hleast, filter_In. split; [done|]. by apply eligible_usableFilter. }
  split; [done|]. unfold sortsBefore in Hnot. by apply orb_false_elim in Hnot as [? _].
Qed.

Lemma findUsable_least_recently_used_witness :
  exists a0, In a0 [account3; account1]
    /\ markSelected 1000000 account1 = markSelected 1000000 a0
    /\ sortsBefore account3 a0 = false.
Proof.
  destruct (findUsable_least_recently_used (testEnv Accepted)
              (world [] [account3; account1] options1) (markSelected 1000000 account1)
              (snd (findUsable (testEnv Accepted) (world [] [account3; account1] options1))))
    as (a0 & Hin & Heq & Hleast).
  - vm_compute. reflexivity.
  - exists a0. split; [done|]. split; [done|].
    apply Hleast; [by left|].
    unfold eligible. simpl.
    split; [done|]. split; [by exists 0|]. split; [exists 0; split; [done|vm_compute; done]|].
    split; [intros t Ht; injection Ht as <-; vm_compute; done|].
    split; [done|]. split; [done|]. split; [by right; right|]. set_solver.
Defined.

Lemma markSelected_counters time a :
  Account.successCounter (markSelected time a) = Some (num_or (Account.successCounter a) 0)
  /\ Account.errorCounter (markSelected time a) = Some (num_or (Account.errorCounter a) 0)
  /\ Account.totalSuccessCounter (markSelected time a)
     = Some (num_or (Account.totalSuccessCounter a) 0)
  /\ Account.totalErrorCounter (markSelected time a)
     = Some (num_or (Account.totalErrorCounter a) 0).
Proof.
  unfold markSelected.
  destruct a as [i0 i1 u en rs lrs ls lu ft ta ec sc tec tsc stc tok]; simpl.
  destruct sc as [[|?|?]|], ec as [[|?|?]|], tsc as [[|?|?]|], tec as [[|?|?]|];
    repeat split; reflexivity.
Qed.

(** X11. The account that [findUsable] returns has its four counters set
    to numbers: the stored value, or 0 where the stored account had none.
    Releasing it therefore stores numbers again: one more than that on the
    counters the release increments. *)
Theorem findUsable_counters env w a w' :
  findUsable env w = (Return (Some a), w') ->
  exists a0, In a0 (accounts w)
    /\ Account.successCounter a = Some (num_or (Account.successCounter a0) 0)
    /\ Account.errorCounter a = Some (num_or (Account.errorCounter a0) 0)
    /\ Account.totalSuccessCounter a = Some (num_or (Account.totalSuccessCounter a0) 0)
    /\ Account.totalErrorCounter a = Some (num_or (Account.totalErrorCounter a0) 0)
    /\ (forall w2, exists a' w3,
          handleGenerateSuccess (Some a) w2 = (Return (Some a'), w3)
          /\ Account.successCounter a' = Some (num_or (Account.successCounter a0) 0 + 1)
          /\ Account.totalSuccessCounter a'
             = Some (num_or (Account.totalSuccessCounter a0) 0 + 1))
    /\ (forall e w2, exists a' w3,
          handleGenerateError env e (Some a) w2 = (Return (Some a'), w3)
          /\ Account.errorCounter a' = Some (num_or (Account.errorCounter a0) 0 + 1)
          /\ Account.totalErrorCounter a'
             = Some (num_or (Account.totalErrorCounter a0) 0 + 1)).
Proof.
  intros H. rewrite findUsable_run in H. simpl in H.
  destruct (firstSorted _) as [a0|] eqn:Hfirst; [|done].
  injection H as <- <-. exists a0.
  apply firstSorted_In, filter_In in Hfirst as [Hin _].
  destruct (markSelected_counters (Date_now env (tick w) / 1000) a0)
    as (Hs & He & Hts & Hte).
  split; [done|]. split; [done|]. split; [done|]. split; [done|]. split; [done|].
  split.
  - intros w2. rewrite handleGenerateSuccess_run. simpl. eexists _, _.
    split; [reflexivity|].
    destruct (markSelected _ a0); simpl in *. by rewrite Hs, Hts.
  - intros e w2. rewrite handleGenerateError_run. simpl.
    destruct (isAuthenticationError e); eexists _, _; (split; [reflexivity|]).
    + unfold updateRequestServer. destruct (markSelected _ a0); simpl in *.
      rewrite He, Hte. by destruct (_ && _).
    + destruct (markSelected _ a0); simpl in *. by rewrite He, Hte.
Qed.

Lemma findUsable_counters_witness :
  exists a0, In a0 [account3]
    /\ Account.successCounter (markSelected 1000000 account3)
       = Some (num_or (Account.successCounter a0) 0)
    /\ Account.successCounter a0 = None.
Proof.
  destruct (findUsable_counters (testEnv Accepted) (world [] [account3] options1)
              (markSelected 1000000 account3)
              (snd (findUsable (testEnv Accepted) (world [] [account3] options1))))
    as (a0 & Hin & Hs & _).
  - vm_compute. reflexivity.
  - exists a0. split; [done|]. split; [done|]. by destruct Hin as [<-|[]].
Defined.

Lemma updateRequestServer_idempotent server a :
  updateRequestServer server (updateRequestServer server a)
  = updateRequestServer server a.
Proof.
  unfold updateRequestServer.
  destruct a as [i0 i1 u en rs lrs ls lu ft ta ec sc tec tsc stc tok]; simpl.
  destruct (truthy_ostr rs && negb (bool_decide (rs = server))); simpl;
    rewrite bool_decide_eq_true_2 by done; by rewrite andb_false_r.
Qed.

(** X12. An account remembers the server it was bound to: after a release
    on an authentication failure (which clears [requestServer]) and a new
    acquisition on [server], [lastRequestServer] is the server from before
    the failure; and binding an account twice to the same server is the same
    as binding it once. *)
Theorem requestServer_remembered server a previous :
  Account.requestServer a = Some previous ->
  truthy_str previous = true ->
  let a' := updateRequestServer server (updateRequestServer None a) in
  Account.requestServer a' = server
  /\ Account.lastRequestServer a' = Some previous
  /\ updateRequestServer server a' = a'.
Proof.
  intros Hrs Ht a'. subst a'.
  split; [apply updateRequestServer_requestServer|].
  split; [|apply updateRequestServer_idempotent].
  unfold updateRequestServer.
  destruct a as [i0 i1 u en rs lrs ls lu ft ta ec sc tec tsc stc tok]; simpl in *.
  subst rs. simpl. rewrite Ht. simpl. done.
Qed.

Lemma requestServer_remembered_witness :
  let a' := updateRequestServer (Some "node2") (updateRequestServer None account3) in
  Account.requestServer a' = Some "node2"
  /\ Account.lastRequestServer a' = Some "node1"
  /\ updateRequestServer (Some "node2") a' = a'.
Proof.
  apply (requestServer_remembered (Some "node2") account3 "node1"); reflexivity.
Defined.

(** ** Following a URL and reading skin data *)

(** X13. [followUrl] never raises, and it sends a HEAD request only to a
    host of the whitelist: for any other host (or none) it returns nothing
    and leaves the state as it is; when it returns a response, the host of
    the URL is in the whitelist and the request is the one event logged. *)
Theorem followUrl_whitelist env urlStr w r w' :
  followUrl env urlStr w = (r, w') ->
  (exists o, r = Return o)
  /\ (forall host, URL_parse_host env urlStr = Some host ->
        default "" host ∉ URL_FOLLOW_WHITELIST -> r = Return None /\ w' = w)
  /\ (forall response, r = Return (Some response) ->
        exists host, URL_parse_host env urlStr = Some (Some host)
          /\ host ∈ URL_FOLLOW_WHITELIST
          /\ axios_head env (tick w) urlStr = Some response
          /\ trace w' = (trace w ++ [EvHead urlStr])%list).
Proof.
  intros H. unfold followUrl in H. exec H.
  all: split; [by eexists|].
  all: split; [intros host' Hhost Hout|intros response Hr]; try discriminate Hr.
  all: try (injection Hhost as <-).
  all: try match goal with
         | Hb : bool_decide _ && _ = true |- _ =>
             apply andb_prop in Hb as [Hb _]; apply bool_decide_eq_true in Hb; done
         end.
  all: try done.
  injection Hr as <-.
  match goal with
  | Hb : bool_decide _ && isSome ?h = true |- _ =>
      apply andb_prop in Hb as [Hb Hs]; apply bool_decide_eq_true in Hb;
      destruct h as [host|]; [|discriminate Hs]; exists host
  end.
  split; [done|]. split; [done|]. split; [|by destruct w].
  by destruct w.
Qed.

Lemma followUrl_whitelist_witness :
  let env := with_URL_parse_host (fun _ => Some (Some "example.org")) (testEnv Accepted) in
  let w := world [skin1] [account1] options1 in
  followUrl env "http://example.org/skin.png" w = (Return None, w).
Proof.
  intros env w.
  destruct (followUrl env "http://example.org/skin.png" w) as [r w'] eqn:Hrun.
  destruct (followUrl_whitelist env "http://example.org/skin.png" w r w' Hrun)
    as (_ & Hout & _).
  destruct (Hout (Some "example.org") eq_refl) as [-> ->]; [|done].
  vm_compute. intros Hin. apply list_elem_of_In in Hin.
  destruct Hin as [Hin|[Hin|[]]]; discriminate Hin.
Defined.

Lemma makeNewSkinId_raises env w e w' :
  makeNewSkinId env w = (Throw e, w') -> e = failedToCreateId.
Proof.
  intros H. unfold makeNewSkinId in H.
  destruct (makeRandomSkinId_from env 11 0 w eq_refl)
    as [(k & _ & _ & _ & Hrun)|[_ Hrun]]; rewrite Hrun in H; [discriminate|].
  by injection H as <- _.
Qed.

Lemma skinUrlOf_run {S : Type} (data : SkinData) (st : S) :
  skinUrlOf data st =
    match decodedValue data with
    | Some decoded =>
        match textures decoded with
        | Some txs =>
            match SKIN txs with
            | Some skin => (Return (texture_url skin), st)
            | None => (Throw (OtherError "TypeError"), st)
            end
        | None => (Throw (OtherError "TypeError"), st)
        end
    | None => (Throw (OtherError "TypeError"), st)
    end.
Proof.
  unfold skinUrlOf, bind, nonNull, ret, throw.
  destruct (decodedValue data) as [decoded|]; [|done]. simpl.
  destruct (textures decoded) as [txs|]; [|done]. simpl.
  by destruct (SKIN txs).
Qed.

Lemma hasSkinInfo_url (data : SkinData) :
  hasSkinInfo (decodedValue data) = true ->
  exists url, forall (S : Type) (st : S), skinUrlOf data st = (Return url, st).
Proof.
  intros Hi. destruct (decodedValue data) as [[[[[[url]|] cape]|]]|] eqn:Hdec;
    try discriminate Hi.
  exists url. intros S st. rewrite skinUrlOf_run, Hdec. reflexivity.
Qed.

(** What [getSkinData] checked on the data it returns. *)
Lemma getSkinData_decoded env uuid account w data w' :
  getSkinData env uuid account w = (Return data, w') ->
  truthy_str (data_value data) = true
  /\ decodeJson env (data_value data) = Some (decodedValue data)
  /\ hasSkinInfo (decodedValue data) = true.
Proof.
  intros H. unfold getSkinData, decodeValue in H. exec H; try discriminate H.
  match goal with
  | Hv : negb (truthy_str _) = false, Hi : negb (hasSkinInfo _) = false |- _ =>
      apply negb_false_iff in Hv, Hi
  end.
  by simpl.
Qed.

(** X14. The data that [getSkinData] returns has a non-empty value and a
    decoded value with a skin texture, so reading its texture URL does not
    fail; the one event logged is the lookup. A [GeneratorError] it raises
    is INVALID_SKIN_DATA with HTTP code 500, and names no account, also when
    the call was made for one. *)
Theorem getSkinData_has_skin env uuid account w r w' :
  getSkinData env uuid account w = (r, w') ->
  trace w' = (trace w ++ [EvGetSkinData (stripUuid env uuid)])%list
  /\ match r with
     | Return data =>
         data_value data <> ""
         /\ decodeJson env (data_value data) = Some (decodedValue data)
         /\ exists url, forall (S : Type) (s : S), skinUrlOf data s = (Return url, s)
     | Throw (GeneratorError code msg httpCode account') =>
         code = INVALID_SKIN_DATA /\ httpCode = 500 /\ account' = None
     | Throw _ => True
     end.
Proof.
  intros H. split.
  - unfold getSkinData, decodeValue in H. exec H; by destruct w.
  - destruct r as [data|e].
    + apply getSkinData_decoded in H as (Hv & Hd & Hi).
      split; [intros Hempty; rewrite Hempty in Hv; discriminate Hv|].
      split; [done|]. by apply hasSkinInfo_url.
    + unfold getSkinData, decodeValue in H. exec H; done.
Qed.

Lemma getSkinData_has_skin_witness :
  exists data w',
    getSkinData (testEnv Accepted) "acc-uuid" (Some account1) (world [] [account1] options1)
      = (Return data, w')
    /\ data_value data <> ""
    /\ exists url, forall (S : Type) (s : S), skinUrlOf data s = (Return url, s).
Proof.
  eexists _, _. split; [vm_compute; reflexivity|].
  destruct (getSkinData_has_skin (testEnv Accepted) "acc-uuid" (Some account1)
              (world [] [account1] options1) _ _ ltac:(vm_compute; reflexivity))
    as (_ & Hvalue & _ & Hurl).
  split; [exact Hvalue|exact Hurl].
Defined.

(** The lookup fails for the account: the error carries no account. *)
Example getSkinData_error_without_account :
  let env := with_Caching_getSkinData (fun _ _ => Some None) (testEnv Accepted) in
  fst (getSkinData env "acc-uuid" (Some account1) (world [] [account1] options1))
  = Throw (GeneratorError INVALID_SKIN_DATA "Skin data was invalid" 500 None).
Proof. vm_compute. reflexivity. Qed.

(** X15. Saving the data that [getSkinData] returned does not fail on the
    data: whatever the rest of the result, [saveSkin] either stores a record
    with the value, the signature and the texture URL of the data, or raises
    the error of [makeNewSkinId] for want of a free id. *)
Theorem saveSkin_after_getSkinData env uuid account w data w1 result client type start w2 r w3 :
  getSkinData env uuid account w = (Return data, w1) ->
  res_data result = Some data ->
  saveSkin env result client type start w2 = (r, w3) ->
  match r with
  | Return s =>
      Skin.value s = data_value data /\ Skin.signature s = data_signature data
      /\ (forall (S : Type) (st : S), skinUrlOf data st = (Return (Skin.url s), st))
      /\ skins w3 = (skins w2 ++ [s])%list
  | Throw e => e = failedToCreateId
  end.
Proof.
  intros Hdata Hres H.
  apply getSkinData_decoded in Hdata as (_ & _ & Hinfo).
  apply hasSkinInfo_url in Hinfo as [url Hurl].
  pose proof (Hurl unit tt) as Hurl'. rewrite skinUrlOf_run in Hurl'.
  unfold saveSkin, Skin_create in H. rewrite Hres in H. exec H.
  all: try match goal with E : makeNewSkinId _ _ = (Throw _, _) |- _ =>
             by apply makeNewSkinId_raises in E end.
  all: repeat match goal with
         | Heq : _ = Some _ |- _ => rewrite Heq in Hurl'
         | Heq : _ = None |- _ => rewrite Heq in Hurl'
         end.
  all: try discriminate Hurl'.
  match goal with E : makeNewSkinId _ _ = _ |- _ =>
    apply makeNewSkinId_frame in E as [n ->] end.
  simpl. split; [done|]. split; [done|]. split; [|by autorewrite with cat].
  intros S st. rewrite skinUrlOf_run.
  repeat match goal with Heq : _ = Some _ |- _ => rewrite Heq end. reflexivity.
Qed.

Lemma saveSkin_after_getSkinData_witness :
  let w := world [skin1] [account1] options1 in
  exists s w3,
    saveSkin (testEnv Accepted) result1 client1 UPLOAD 0 w = (Return s, w3)
    /\ Skin.value s = data_value skinData1
    /\ skins w3 = (skins w ++ [s])%list.
Proof.
  intros w. eexists _, _. split; [vm_compute; reflexivity|].
  pose proof (saveSkin_after_getSkinData (testEnv Accepted) "acc-uuid" (Some account1)
                w skinData1
                (snd (getSkinData (testEnv Accepted) "acc-uuid" (Some account1) w))
                result1 client1 UPLOAD 0 w _ _
                ltac:(vm_compute; reflexivity) eq_refl ltac:(vm_compute; reflexivity))
    as Hsave.
  cbv beta iota in Hsave. destruct Hsave as (Hv & _ & _ & Hs).
  split; [exact Hv|exact Hs].
Defined.

(** ** The callback-style [authenticate], further *)

Ltac auth_paths H :=
  unfold Auth.authenticate, Auth.refresh, Auth.loginCallback in H;
  repeat match type of H with
    | context [match ?x with _ => _ end] =>
        lazymatch x with
        | context [match _ with _ => _ end] => fail
        | _ => destruct x eqn:?
        end
    | context [if ?x then _ else _] =>
        lazymatch x with
        | context [if _ then _ else _] => fail
        | _ => destruct x eqn:?
        end
    end;
  simpl in H.

(** X16. When the tokens are there but [validate] fails, the tokens are
    refreshed; if the refresh comes back with a body without [error],
    whatever its status code, the new access token is stored, the account is
    saved and handed to the callback, and the password is not sent. *)
Theorem authenticate_refreshes env account statusCode body :
  truthy_ostr (Auth.clientToken account) = true ->
  truthy_ostr (Auth.accessToken account) = true ->
  Auth.validateFailed (Auth.validate_reply env) = true ->
  Auth.refresh_reply env = Auth.Response statusCode (Some body) ->
  truthy_ostr (Auth.error body) = false ->
  let account' := Auth.set_accessToken (Auth.body_accessToken body) account in
  Auth.authenticate env account =
    ([Auth.POST_validate (Auth.accessToken account) (Auth.clientToken account);
      Auth.POST_refresh (Auth.accessToken account) (Auth.clientToken account);
      Auth.Save account'],
     Auth.Cb_ok account').
Proof.
  intros Hc Ha Hv Hr He account'. unfold Auth.authenticate, Auth.refresh.
  by rewrite Hc, Ha, Hv, Hr, He.
Qed.

Lemma authenticate_refreshes_witness :
  Auth.authenticate (authEnv (Auth.Response 403 None)) legacyAccount =
    ([Auth.POST_validate (Some "access") (Some "client");
      Auth.POST_refresh (Some "access") (Some "client");
      Auth.Save (Auth.set_accessToken (Some "refreshed") legacyAccount)],
     Auth.Cb_ok (Auth.set_accessToken (Some "refreshed") legacyAccount)).
Proof.
  apply (authenticate_refreshes (authEnv (Auth.Response 403 None)) legacyAccount 200
           {| Auth.error := None; Auth.body_accessToken := Some "refreshed" |});
    reflexivity.
Defined.

(** X17. The account that [authenticate] hands to the callback is the
    account it was given, but for the tokens: the id, the user name, the
    password and the request IP are the same, and so is a client token the
    account had. Unless the tokens were still valid and nothing changed, the
    account handed over is the one saved last. *)
Theorem authenticate_ok_saved env account evs account' :
  Auth.authenticate env account = (evs, Auth.Cb_ok account') ->
  Auth.id account' = Auth.id account
  /\ Auth.username account' = Auth.username account
  /\ Auth.passwordNew account' = Auth.passwordNew account
  /\ Auth.requestIp account' = Auth.requestIp account
  /\ (truthy_ostr (Auth.clientToken account) = true ->
      Auth.clientToken account' = Auth.clientToken account)
  /\ ((account' = account
       /\ evs = [Auth.POST_validate (Auth.accessToken account) (Auth.clientToken account)])
      \/ exists evs0, evs = (evs0 ++ [Auth.Save account'])%list).
Proof.
  intros H. auth_paths H.
  all: try discriminate.
  all: injection H as <- <-.
  all: repeat (split; [reflexivity|]).
  all: simpl.
  all: try match goal with
         | |- (_ -> _) /\ _ =>
             split; [intros Ht; simpl in *; rewrite Ht in *; simpl in *; discriminate|]
         end.
  all: first
    [ left; split; reflexivity
    | right; by eexists [_]
    | right; by eexists [_; _]
    | right; by eexists [_; _; _]
    | right; by eexists [_; _; _; _] ].
Qed.

Lemma authenticate_ok_saved_witness :
  exists evs0,
    fst (Auth.authenticate (authEnv (Auth.Response 204 None)) legacyAccountNoClient)
    = (evs0 ++ [Auth.Save
                  (Auth.set_accessToken (Some "fresh")
                     (Auth.set_clientToken (Some "new-client") legacyAccountNoClient))])%list.
Proof.
  destruct (authenticate_ok_saved (authEnv (Auth.Response 204 None)) legacyAccountNoClient
              (fst (Auth.authenticate (authEnv (Auth.Response 204 None))
                      legacyAccountNoClient))
              (Auth.set_accessToken (Some "fresh")
                 (Auth.set_clientToken (Some "new-client") legacyAccountNoClient))
              eq_refl)
    as (_ & _ & _ & _ & _ & [[Hsame _]|Hsaved]).
  - discriminate Hsame.
  - exact Hsaved.
Defined.

(** X18. [authenticate] reports an error only after a login with the
    password failed: the last request is then the login, with the user name
    and the decrypted password of the account, and nothing is saved after
    it. If the account came with both tokens, the refresh had failed before
    and the account was saved without its access token. *)
Theorem authenticate_error_after_login env account evs out :
  Auth.authenticate env account = (evs, out) ->
  (forall a, out <> Auth.Cb_ok a) ->
  (forall what, out <> Auth.Uncaught what) ->
  exists evs0 clientToken,
    evs = (evs0 ++ [Auth.POST_authenticate (Auth.username account)
                      (Auth.decrypt env (Auth.passwordNew account)) clientToken])%list
    /\ (truthy_ostr (Auth.clientToken account) = true ->
        truthy_ostr (Auth.accessToken account) = true ->
        In (Auth.Save (Auth.set_accessToken None account)) evs0).
Proof.
  intros H Hok Hun. auth_paths H.
  all: injection H as <- <-.
  all: try (by destruct (Hok _ eq_refl)).
  all: try (by destruct (Hun _ eq_refl)).
  all: simpl.
  all: first
    [ eexists [], _; split; [reflexivity|]
    | eexists [_], _; split; [reflexivity|]
    | eexists [_; _], _; split; [reflexivity|]
    | eexists [_; _; _], _; split; [reflexivity|] ].
  all: intros Hc Ha; simpl; try (right; right; left; reflexivity).
  all: match goal with
       | Hb : truthy_ostr _ && truthy_ostr _ = false |- _ =>
           rewrite Hc, Ha in Hb; discriminate Hb
       | _ => auto
       end.
Qed.

Lemma authenticate_error_after_login_witness :
  let env :=
    {| Auth.validate_reply := Auth.NetError "timeout";
       Auth.refresh_reply := Auth.NetError "timeout";
       Auth.authenticate_reply := Auth.NetError "timeout";
       Auth.uuid := "new-client";
       Auth.decrypt := fun s => s |} in
  exists evs0 clientToken,
    fst (Auth.authenticate env legacyAccount)
    = (evs0 ++ [Auth.POST_authenticate "user" "secret" clientToken])%list
    /\ In (Auth.Save (Auth.set_accessToken None legacyAccount)) evs0.
Proof.
  intros env.
  destruct (authenticate_error_after_login env legacyAccount
              (fst (Auth.authenticate env legacyAccount))
              (snd (Auth.authenticate env legacyAccount)) eq_refl)
    as (evs0 & clientToken & Hevs & Hsave).
  - intros a Ha. discriminate Ha.
  - intros what Hw. discriminate Hw.
  - exists evs0, clientToken. split; [exact Hevs|]. apply Hsave; reflexivity.
Defined.

(** ** Statistics on the account pool *)

Lemma filter_length_mono {A : Type} (f g : A -> bool) (l : list A) :
  (forall a, f a = true -> g a = true) ->
  (length (List.filter f l) <= length (List.filter g l))%nat.
Proof.
  intros Himp. induction l as [|x l IH]; simpl; [lia|].
  destruct (f x) eqn:Hf.
  - rewrite (Himp x Hf). simpl. lia.
  - destruct (g x); simpl; lia.
Qed.

Lemma count_mono {A : Type} (f g : A -> bool) (l : list A) :
  (forall a, f a = true -> g a = true) -> 0 <= count f l <= count g l.
Proof. intros Himp. unfold count. pose proof (filter_length_mono f g l Himp). lia. Qed.

Lemma count_length {A : Type} (f : A -> bool) (l : list A) :
  count f l <= Z.of_nat (length l).
Proof.
  unfold count. induction l as [|x l IH]; simpl; [lia|].
  destruct (f x); simpl length; lia.
Qed.

Lemma count_In {A : Type} (f : A -> bool) (l : list A) (a : A) :
  In a l -> f a = true -> 1 <= count f l.
Proof.
  intros Hin Hf. unfold count.
  assert (In a (List.filter f l)) as Hin' by (apply filter_In; auto).
  destruct (List.filter f l); [destruct Hin'|simpl length; lia].
Qed.

(** X19. The counts that [getStats] reports are ordered: the useable
    accounts are among the healthy ones, the healthy ones and those of this
    server are among the enabled ones, and no count exceeds the size of the
    pool. Taking the statistics changes nothing but the clock. *)
Theorem getStats_ordered env w r w' :
  getStats env w = (r, w') ->
  w' = set_tick (S (tick w)) w
  /\ exists s, r = Return s
       /\ 0 <= stats_useableAccounts s <= stats_healthyAccounts s
       /\ stats_healthyAccounts s <= stats_accounts s
       /\ 0 <= stats_serverAccounts s <= stats_accounts s
       /\ stats_accounts s <= Z.of_nat (length (accounts w)).
Proof.
  intros H. unfold getStats, countGlobalUsable in H. exec H.
  split; [done|]. eexists. split; [reflexivity|]. simpl.
  destruct w as [sk ac lk tf op tk tr]; simpl.
  split; [|split; [|split]].
  - apply count_mono. intros a Ha. unfold statsUseableFilter in Ha.
    unfold globalUsableFilter.
    apply andb_prop in Ha as [Ha _]. apply andb_prop in Ha as [Ha Hec].
    apply andb_prop in Ha as [Ha _]. apply andb_prop in Ha as [Ha _].
    apply andb_prop in Ha as [Hen _]. by rewrite Hen, Hec.
  - apply count_mono. intros a Ha. by apply andb_prop in Ha as [Hen _].
  - apply count_mono. intros a Ha. by apply andb_prop in Ha as [Hen _].
  - apply count_length.
Qed.

Lemma getStats_ordered_witness :
  exists s,
    fst (getStats (testEnv Accepted) (world [] [account1; account3; account4] options1))
      = Return s
    /\ 0 <= stats_useableAccounts s <= stats_healthyAccounts s
    /\ stats_healthyAccounts s <= stats_accounts s.
Proof.
  destruct (getStats_ordered (testEnv Accepted)
              (world [] [account1; account3; account4] options1)
              (fst (getStats (testEnv Accepted)
                      (world [] [account1; account3; account4] options1)))
              (snd (getStats (testEnv Accepted)
                      (world [] [account1; account3; account4] options1))))
    as (_ & s & Hr & Hu & Hh & _).
  - vm_compute. reflexivity.
  - exists s. auto.
Defined.

(** X20. Whenever [findUsable] finds an account, [countGlobalUsable]
    counts at least one: the account found is enabled and its error counter
    is below the threshold, before the selection and after it. *)
Theorem findUsable_counted_usable env w a w' :
  findUsable env w = (Return (Some a), w') ->
  (exists n, countGlobalUsable env w = (Return n, w) /\ 1 <= n)
  /\ globalUsableFilter env a = true.
Proof.
  intros H. rewrite findUsable_run in H. simpl in H.
  destruct (firstSorted _) as [a0|] eqn:Hfirst; [|done].
  injection H as <- <-.
  apply firstSorted_In, filter_In in Hfirst as [Hin Hf].
  assert (globalUsableFilter env a0 = true) as Hg.
  { unfold usableFilter in Hf. unfold globalUsableFilter.
    apply andb_prop in Hf as [Hf _]. apply andb_prop in Hf as [Hf Hec].
    apply andb_prop in Hf as [Hf _]. apply andb_prop in Hf as [Hf _].
    apply andb_prop in Hf as [Hf _]. apply andb_prop in Hf as [Hf _].
    apply andb_prop in Hf as [Hen _]. by rewrite Hen, Hec. }
  split.
  - eexists. split; [reflexivity|]. by eapply count_In.
  - unfold globalUsableFilter in *. apply andb_prop in Hg as [Hen Hec].
    destruct (markSelected_counters (Date_now env (tick w) / 1000) a0) as (_ & He & _).
    rewrite He.
    assert (Account.enabled (markSelected (Date_now env (tick w) / 1000) a0)
            = Account.enabled a0) as ->.
    { unfold markSelected. destruct a0; simpl.
      repeat match goal with |- context [if ?b then _ else _] => destruct b; simpl end;
        done. }
    rewrite Hen. simpl.
    destruct (Account.errorCounter a0) as [c|]; [|done]. simpl in *.
    destruct (Z.eqb_spec c 0); [subst; done|done].
Qed.

Lemma findUsable_counted_usable_witness :
  exists n,
    countGlobalUsable (testEnv Accepted) (world [] [account4; account3] options1)
      = (Return n, world [] [account4; account3] options1)
    /\ 1 <= n.
Proof.
  refine (proj1 (findUsable_counted_usable (testEnv Accepted)
                   (world [] [account4; account3] options1)
                   (markSelected 1000000 account3) _ _)).
  vm_compute. reflexivity.
Defined.

(** *** Accounts per server *)

Lemma groupCount_bump k k' groups :
  groupCount k' (group_bump k groups)
  = groupCount k' groups + (if bool_decide (k = k') then 1 else 0).
Proof.
  unfold groupCount. induction groups as [|[k0 c] rest IH]; simpl.
  - repeat case_bool_decide; simpl; congruence || lia.
  - destruct (bool_decide (k = k0)) eqn:Hk; simpl.
    + apply bool_decide_eq_true in Hk. subst k0.
      repeat case_bool_decide; simpl; congruence || lia.
    + apply bool_decide_eq_false in Hk.
      destruct (bool_decide (k0 = k')) eqn:Hk0; simpl.
      * apply bool_decide_eq_true in Hk0. subst k0.
        rewrite bool_decide_eq_false_2 by done. lia.
      * exact IH.
Qed.

Lemma groupCount_fold l : forall groups k,
  groupCount k (fold_left (fun groups a => group_bump (Account.requestServer a) groups)
                  l groups)
  = groupCount k groups
    + count (fun a => bool_decide (Account.requestServer a = k)) l.
Proof.
  unfold count. induction l as [|a l IH]; intros groups k; simpl; [lia|].
  rewrite IH, groupCount_bump.
  destruct (bool_decide (Account.requestServer a = k)); simpl length; lia.
Qed.

Lemma group_bump_fst k groups :
  forall k', k' ∈ map fst (group_bump k groups) <-> k' = k \/ k' ∈ map fst groups.
Proof.
  induction groups as [|[k0 c] rest IH]; intros k'; simpl.
  - rewrite list_elem_of_singleton. split; [by left|]. intros [H|H]; [done|].
    by apply elem_of_nil in H.
  - case_bool_decide; simpl.
    + subst k0. rewrite !elem_of_cons. tauto.
    + rewrite !elem_of_cons, IH. tauto.
Qed.

Lemma group_bump_ok k groups : groupsOk groups -> groupsOk (group_bump k groups).
Proof.
  intros [Hnd Hpos]. induction groups as [|[k0 c] rest IH]; simpl.
  - split; [apply NoDup_singleton|]. repeat constructor. simpl. lia.
  - simpl in Hnd. apply NoDup_cons in Hnd as [Hnotin Hnd].
    apply Forall_cons in Hpos as [Hc Hpos]. simpl in Hc.
    case_bool_decide; simpl.
    + split; [by apply NoDup_cons|]. apply Forall_cons. simpl. split; [lia|done].
    + destruct (IH Hnd Hpos) as [Hnd' Hpos'].
      split; [|by apply Forall_cons].
      apply NoDup_cons. split; [|done]. simpl. intros Hin.
      apply group_bump_fst in Hin as [->|Hin]; done.
Qed.

Lemma groupByServer_ok l : groupsOk (groupByServer l).
Proof.
  unfold groupByServer.
  assert (groupsOk []) as Hnil by (split; constructor).
  revert Hnil. generalize (@nil (option string * Z)).
  induction l as [|a l IH]; intros groups Hok; simpl; [done|].
  by apply IH, group_bump_ok.
Qed.

Lemma groupCount_In k c groups :
  NoDup (map fst groups) -> In (k, c) groups -> groupCount k groups = c.
Proof.
  unfold groupCount. induction groups as [|[k0 c0] rest IH]; intros Hnd Hin; [destruct Hin|].
  simpl in *. apply NoDup_cons in Hnd as [Hnotin Hnd].
  destruct Hin as [Heq|Hin].
  - injection Heq as -> ->. by rewrite bool_decide_eq_true_2.
  - rewrite bool_decide_eq_false_2; [by apply IH|].
    intros ->. apply Hnotin. apply list_elem_of_In.
    apply in_map_iff. by exists (k, c).
Qed.

Lemma groupCount_pos k groups :
  1 <= groupCount k groups -> In (k, groupCount k groups) groups.
Proof.
  unfold groupCount. induction groups as [|[k0 c0] rest IH]; simpl; [lia|].
  case_bool_decide; simpl in *; [subst; by left|]. intros Hpos. right. by apply IH.
Qed.

Lemma filter_and_length {A : Type} (f g : A -> bool) (l : list A) :
  length (List.filter (fun a => f a && g a) l) = length (List.filter g (List.filter f l)).
Proof.
  induction l as [|x l IH]; simpl; [done|].
  destruct (f x); simpl; [destruct (g x); simpl; congruence|done].
Qed.

Lemma groupByServer_count k l :
  groupCount k (groupByServer (List.filter perServerMatch l)) = healthyOn k l.
Proof.
  unfold groupByServer. rewrite groupCount_fold. unfold healthyOn, count, groupCount.
  simpl. by rewrite filter_and_length.
Qed.

Lemma sort_insert_perm x l : sort_insert x l ≡ₚ x :: l.
Proof.
  induction l as [|y l IH]; simpl; [done|].
  destruct (snd x <=? snd y); [done|]. rewrite IH. apply Permutation_swap.
Qed.

Lemma sortByCount_perm l : sortByCount l ≡ₚ l.
Proof.
  induction l as [|x l IH]; simpl; [done|]. by rewrite sort_insert_perm, IH.
Qed.

Lemma sort_insert_ascending x l : ascendingGroups l -> ascendingGroups (sort_insert x l).
Proof.
  induction l as [|y l IH]; simpl; [by split|]. intros [Hy Hl].
  destruct (Z.leb_spec (snd x) (snd y)); simpl.
  - split; [|by split]. apply Forall_cons. split; [done|].
    eapply Forall_impl; [exact Hy|]. intros b Hb. simpl in Hb. lia.
  - split; [|by apply IH].
    rewrite sort_insert_perm. apply Forall_cons. split; [lia|done].
Qed.

Lemma sortByCount_ascending l : ascendingGroups (sortByCount l).
Proof. induction l as [|x l IH]; simpl; [done|]. by apply sort_insert_ascending. Qed.

Lemma ascending_map l :
  ascendingGroups l ->
  ascending (map (fun a => {| server := fst a; server_count := snd a |}) l).
Proof.
  induction l as [|x l IH]; simpl; [done|]. intros [Hx Hl]. split; [|by apply IH].
  apply Forall_map. eapply Forall_impl; [exact Hx|]. done.
Qed.

(** What [getAccountsPerServer] returns, on the groups. *)
Lemma accountsPerServer_groups l :
  let groups := sortByCount (groupByServer (List.filter perServerMatch l)) in
  ascendingGroups groups
  /\ NoDup (map fst groups)
  /\ forall s c, In (s, c) groups <-> c = healthyOn s l /\ 1 <= c.
Proof.
  intros groups. subst groups.
  destruct (groupByServer_ok (List.filter perServerMatch l)) as [Hnd Hpos].
  split; [apply sortByCount_ascending|]. split; [by rewrite sortByCount_perm|].
  intros s c. rewrite <- !list_elem_of_In, sortByCount_perm, list_elem_of_In.
  split.
  - intros Hin. rewrite <- (groupByServer_count s l).
    rewrite (groupCount_In s c _ Hnd Hin). split; [done|].
    rewrite Forall_forall in Hpos. apply list_elem_of_In in Hin.
    by specialize (Hpos _ Hin).
  - intros [-> Hc]. rewrite <- (groupByServer_count s l) in *. by apply groupCount_pos.
Qed.

(** X21. [getAccountsPerServer] lists, in ascending order of count, every
    server that has at least one enabled account with fewer than 10 errors,
    each once, with the number of those accounts; it reads the pool and
    changes nothing. *)
Theorem getAccountsPerServer_counts w r w' :
  getAccountsPerServer w = (r, w') ->
  w' = w
  /\ exists l, r = Return l
       /\ ascending l
       /\ NoDup (map server l)
       /\ forall s c,
            In {| server := s; server_count := c |} l
            <-> c = healthyOn s (accounts w) /\ 1 <= c.
Proof.
  intros H. unfold getAccountsPerServer in H. exec H.
  split; [done|]. eexists. split; [reflexivity|].
  destruct (accountsPerServer_groups (accounts w)) as (Hasc & Hnd & Hin).
  split; [by apply ascending_map|]. split.
  - by rewrite map_map.
  - intros s c. rewrite <- Hin, in_map_iff. split.
    + intros ([s0 c0] & Heq & Hin0). simpl in Heq. by injection Heq as -> ->.
    + intros Hin0. by exists (s, c).
Qed.

Lemma getAccountsPerServer_counts_witness :
  exists l,
    fst (getAccountsPerServer (world [] [account1; account3; account2; account4] options1))
      = Return l
    /\ In {| server := Some "node1"; server_count := 1 |} l
    /\ In {| server := None; server_count := 2 |} l.
Proof.
  destruct (getAccountsPerServer_counts
              (world [] [account1; account3; account2; account4] options1)
              (fst (getAccountsPerServer
                      (world [] [account1; account3; account2; account4] options1)))
              (snd (getAccountsPerServer
                      (world [] [account1; account3; account2; account4] options1))))
    as (_ & l & Hr & _ & _ & Hin).
  - vm_compute. reflexivity.
  - exists l. split; [exact Hr|].
    split; apply Hin; (split; [vm_compute; reflexivity|lia]).
Defined.

(** X22. The server that [getPreferredAccountServer] prefers is the one
    with the fewest enabled accounts with fewer than 10 errors, among the
    servers that have any; without any such account there is no
    preference. *)
Theorem getPreferredAccountServer_least w r w' :
  getPreferredAccountServer w = (r, w') ->
  w' = w
  /\ match r with
     | Return (Some s) =>
         1 <= healthyOn s (accounts w)
         /\ forall s', 1 <= healthyOn s' (accounts w) ->
              healthyOn s (accounts w) <= healthyOn s' (accounts w)
     | Return None => forall s, healthyOn s (accounts w) = 0
     | Throw _ => False
     end.
Proof.
  intros H. unfold getPreferredAccountServer, getAccountsPerServer, bind, gets, ret in H.
  destruct (accountsPerServer_groups (accounts w)) as (Hasc & Hnd & Hin).
  destruct (sortByCount _) as [|[s c] rest] eqn:Hsort; simpl in H; injection H as <- <-.
  - split; [done|]. intros s. unfold healthyOn, count.
    destruct (Z.of_nat _) as [|p|p] eqn:Hn; [done| |lia].
    destruct (proj2 (Hin s (Z.pos p))) as [].
    split; [by unfold healthyOn, count|lia].
  - split; [done|]. destruct (proj1 (Hin s c) (or_introl eq_refl)) as [-> Hc].
    split; [done|]. intros s' Hs'.
    destruct (proj2 (Hin s' (healthyOn s' (accounts w))) (conj eq_refl Hs')) as [Heq|Hrest].
    + injection Heq as Hs _. subst s'. lia.
    + destruct Hasc as [Hle _]. rewrite Forall_forall in Hle.
      apply list_elem_of_In in Hrest. by specialize (Hle _ Hrest).
Qed.

Lemma getPreferredAccountServer_least_witness :
  fst (getPreferredAccountServer (world [] [account1; account3; account2; account4] options1))
    = Return (Some (Some "node1"))
  /\ healthyOn (Some "node1") [account1; account3; account2; account4]
     <= healthyOn None [account1; account3; account2; account4].
Proof.
  split; [vm_compute; reflexivity|].
  pose proof (getPreferredAccountServer_least
                (world [] [account1; account3; account2; account4] options1)
                (Return (Some (Some "node1")))
                (snd (getPreferredAccountServer
                        (world [] [account1; account3; account2; account4] options1)))
                ltac:(vm_compute; reflexivity)) as [_ [_ Hleast]].
  apply Hleast. vm_compute. discriminate.
Defined.

(** *** The counters *)






(** A statistic without a value: the increment is rejected and the
    collection stays as it is. *)
Example Stat_inc_rejects_absent_value :
  let stats := [ {| Stat._id := 1; Stat.key := "generate.new"; Stat.value := None |} ] in
  Stat.inc "generate.new" 1 stats = (Throw (OtherError "ValidationError"), stats).
Proof. reflexivity. Qed.

(** ** The catalog and the options over a request *)

Ltac steady_solve :=
  repeat match goal with
    | H : False |- _ => destruct H
    | H : steady _ _ |- _ => destruct H
    | H : ?s' = ?s :> World |- _ => first [subst s' | subst s]
    end;
  unfold steady; autorewrite with cat opt in *;
  first [split; congruence | congruence].

Lemma followUrl_steady env url w r w' : followUrl env url w = (r, w') -> steady w w'.
Proof. intros H. unfold followUrl in H. exec H; steady_solve. Qed.

Lemma Temp_file_steady env dir w r w' : Temp_file env dir w = (r, w') -> steady w w'.
Proof. intros H. unfold Temp_file in H. exec H; steady_solve. Qed.

Lemma Temp_downloadImage_to_steady env url t w r w' :
  Temp_downloadImage_to env url t w = (r, w') -> steady w w'.
Proof. intros H. unfold Temp_downloadImage_to in H. exec H; steady_solve. Qed.

Lemma Temp_copyUploadedImage_to_steady env file t w r w' :
  Temp_copyUploadedImage_to env file t w = (r, w') -> steady w w'.
Proof. intros H. unfold Temp_copyUploadedImage_to in H. exec H; steady_solve. Qed.

Lemma TempFile_remove_steady t w r w' :
  TempFile_remove t w = (r, w') -> returns_steady w r w'.
Proof. intros H. unfold TempFile_remove in H. exec H. simpl. steady_solve. Qed.

Lemma getAndAuthenticateAccount_steady env w r w' :
  getAndAuthenticateAccount env w = (r, w') -> steady w w'.
Proof.
  intros H.
  unfold getAndAuthenticateAccount, findUsable, Caching_getLockedAccounts,
    Caching_lockSelectedAccount, Account_save, Authentication_authenticate_M in H.
  exec H; steady_solve.
Qed.

Lemma skinChangeRequest_steady env ev account w r w' :
  skinChangeRequest env ev account w = (r, w') -> steady w w'.
Proof. intros H. unfold skinChangeRequest in H. exec H; steady_solve. Qed.

Lemma getSkinData_steady env uuid account w r w' :
  getSkinData env uuid account w = (r, w') -> steady w w'.
Proof. intros H. unfold getSkinData, decodeValue in H. exec H; steady_solve. Qed.

Ltac steady_leaf E :=
  first
    [ apply fs_readFile_same in E
    | apply followUrl_steady in E
    | apply Temp_file_steady in E
    | apply Temp_downloadImage_to_steady in E
    | apply Temp_copyUploadedImage_to_steady in E
    | apply TempFile_remove_steady in E; unfold returns_steady in E
    | apply getAndAuthenticateAccount_steady in E
    | apply skinChangeRequest_steady in E
    | apply getSkinData_steady in E ].

Lemma getMojangHash_steady env url w r w' :
  getMojangHash env url w = (r, w') -> steady w w'.
Proof.
  intros H. unfold getMojangHash in H. exec H.
  all: repeat match goal with E : _ = (_, _) |- _ => steady_leaf E end.
  all: try discriminate.
  all: steady_solve.
Qed.

Lemma handleGenerateSuccess_steady account w r w' :
  handleGenerateSuccess account w = (r, w') -> returns_steady w r w'.
Proof.
  intros H. unfold handleGenerateSuccess, Account_save in H. exec H.
  all: simpl; steady_solve.
Qed.

Lemma handleGenerateError_steady env e account w r w' :
  handleGenerateError env e account w = (r, w') -> returns_steady w r w'.
Proof.
  intros H. unfold handleGenerateError, Account_save in H. exec H.
  all: simpl; steady_solve.
Qed.

(** The probes change the catalog by the record they count, which has the
    name and the visibility of the request, and never the options. *)
Lemma probe_catalog env p type w r w' :
  runProbe env p type w = (r, w') ->
  options w' = options w
  /\ match r with
     | Return (Some d) =>
         exists d0, In d0 (skins w) /\ d = counted d0
           /\ skins w' = replace_by_id Skin._id d (skins w)
           /\ Skin.name d = opt_name (options w)
           /\ Skin.visibility d = opt_visibility (options w)
     | Return None => w' = w
     | Throw _ => False
     end.
Proof.
  intros H. destruct p as [url|hash|uuid]; simpl in H.
  all: unfold findDuplicateFromUrl, findDuplicateFromImageHash, findDuplicateFromUuid,
         Skin_findOne in H; exec H.
  all: try match goal with E : countDuplicate _ _ _ _ = _ |- _ =>
             rewrite countDuplicate_run in E;
             first [discriminate E | injection E as <- <-] end.
  all: autorewrite with opt cat; split; try done.
  all: match goal with Hfind : find _ _ = Some ?d0 |- _ =>
         apply find_passes in Hfind as [Hin Hf]; exists d0 end.
  all: unfold imageHashFilter, uuidFilter in Hf.
  all: apply andb_prop in Hf as [Hf Hv]; apply andb_prop in Hf as [Hf Hmo];
       apply andb_prop in Hf as [Hk Hn].
  all: apply String.eqb_eq in Hn; apply Z.eqb_eq in Hv.
  all: split; [done|]; split; [done|]; split; [by destruct w|].
  all: match goal with Hname : Skin.name ?x = _ |- _ =>
         destruct x; simpl in *; by split end.
Qed.

Lemma saveSkin_catalog env result client type start w r w' :
  saveSkin env result client type start w = (r, w') ->
  options w' = options w
  /\ match r with
     | Return s =>
         skins w' = (skins w ++ [s])%list /\ Skin.duplicate s = 0
         /\ (forall s0, In s0 (skins w) -> Skin.id s0 <> Skin.id s)
         /\ Skin.name s = opt_name (options w)
         /\ Skin.visibility s = opt_visibility (options w)
         /\ Skin.model s = SkinModel_str (opt_model (options w))
     | Throw _ => skins w' = skins w
     end.
Proof.
  intros H. unfold saveSkin, Skin_create in H. exec H.
  all: match goal with
       | E : makeNewSkinId _ _ = (Return _, _) |- _ =>
           apply makeNewSkinId_free in E as [Hfree [n ->]]
       | E : makeNewSkinId _ _ = _ |- _ =>
           apply makeNewSkinId_frame in E as [n ->]
       end.
  all: autorewrite with opt cat; split; done.
Qed.

Lemma optionsKept_same w w' : options w' = options w -> optionsKept w w'.
Proof. intros H. unfold optionsKept. rewrite H. auto. Qed.

Lemma switchModel_kept o m :
  switchModel o m = o \/ (o = UNKNOWN /\ switchModel o m <> UNKNOWN).
Proof. destruct o, m; simpl; auto. Qed.

Lemma optionsKept_switch w w' m :
  options w' =
    {| opt_name := opt_name (options w);
       opt_model := switchModel (opt_model (options w)) m;
       opt_visibility := opt_visibility (options w) |} ->
  optionsKept w w'.
Proof.
  intros H. unfold optionsKept. rewrite H. simpl.
  split; [done|]. split; [done|]. apply switchModel_kept.
Qed.

Lemma optionsKept_frame a b c d :
  options b = options a -> optionsKept b c -> options d = options c -> optionsKept a d.
Proof. unfold optionsKept. intros Hab Hbc Hcd. by rewrite Hcd, <- Hab. Qed.

(** [validateTempFile] on the catalog and the options. *)
Lemma validateTempFile_catalog env t type w r w' :
  validateTempFile env t type w = (r, w') ->
  optionsKept w w'
  /\ match r with
     | Return v =>
         (res_duplicate (tfv_result v) = None /\ skins w' = skins w)
         \/ (exists d d0, tfv_result v = duplicateResult d /\ In d0 (skins w)
               /\ d = counted d0 /\ skins w' = replace_by_id Skin._id d (skins w)
               /\ Skin.name d = opt_name (options w)
               /\ Skin.visibility d = opt_visibility (options w))
     | Throw _ => skins w' = skins w
     end.
Proof.
  intros H. unfold validateTempFile, validateImageData_buffer in H. exec H.
  all: repeat match goal with
         | E : fs_readFile _ _ = _ |- _ => apply fs_readFile_same in E; subst
         | E : findDuplicateFromImageHash ?h ?ty ?s = (?r0, ?s') |- _ =>
             pose proof (probe_catalog env (ProbeImageHash h) ty s r0 s' E) as [? ?];
             clear E
         end.
  all: repeat match goal with
         | H : False |- _ => destruct H
         | H : ?s' = ?s :> World |- _ => first [subst s' | subst s]
         | H : exists _, _ |- _ => destruct H as (? & ? & ? & ? & ? & ?)
         end.
  all: autorewrite with opt cat in *.
  all: split;
       [ first [ by apply optionsKept_same
               | eapply optionsKept_switch; autorewrite with opt;
                 first [reflexivity | eassumption] ]
       | ].
  all: try done.
  all: first [ left; split; [reflexivity|]; by autorewrite with cat
             | right; eexists _, _; split; [reflexivity|]; split; [eassumption|];
               split; [done|]; split; [by autorewrite with cat in *|];
               match goal with
               | Hn : Skin.name _ = _, Hv : Skin.visibility _ = _ |- _ =>
                   simpl in Hn, Hv; by split
               end ].
Qed.

Ltac cat_call E :=
  first
    [ steady_leaf E
    | apply getMojangHash_steady in E
    | apply handleGenerateSuccess_steady in E; unfold returns_steady in E
    | apply handleGenerateError_steady in E; unfold returns_steady in E
    | match type of E with
      | findDuplicateFromUrl ?env ?u ?ty ?s = (?r0, ?s') =>
          pose proof (probe_catalog env (ProbeUrl u) ty s r0 s' E) as [? ?]; clear E
      | findDuplicateFromUuid ?u ?ty ?s = (?r0, ?s') =>
          pose proof (probe_catalog (testEnv Accepted) (ProbeUuid u) ty s r0 s' E) as [? ?];
          clear E
      | validateTempFile _ _ _ _ = _ =>
          apply validateTempFile_catalog in E; destruct E as [? E]
      end ].

(** The name and the visibility of a counted record against the options
    of the initial state, along the equations and [optionsKept] facts on the
    options in between. *)
Ltac cat_names :=
  repeat match goal with
    | Hk : optionsKept _ _ |- _ => destruct Hk as (? & ? & _)
    end;
  split; congruence.

Ltac cat_paths :=
  repeat match goal with E : _ = (_, _) |- _ => cat_call E end;
  repeat match goal with
    | H : False |- _ => destruct H
    | H : steady _ _ |- _ => destruct H
    | H : ?s' = ?s :> World |- _ => first [subst s' | subst s]
    | H : _ \/ _ |- _ => destruct H as [[? ?]|(? & ? & ? & ? & ? & ? & ? & ?)]
    | H : exists _, _ |- _ => destruct H as (? & ? & ? & ? & ? & ?)
    end;
  autorewrite with cat opt in *;
  try match goal with
      | Hd : tfv_result ?v = duplicateResult _, Hn : res_duplicate (tfv_result ?v) = None
        |- _ => rewrite Hd in Hn; discriminate Hn
      end;
  repeat match goal with
    | H : skins ?s = skins ?s0 |- _ => rewrite H in *; clear H
    end;
  (split;
   [ unfold catalogued;
     first
       [ congruence
       | right; split; [reflexivity|congruence]
       | left; eexists _, _; split; [first [reflexivity | eassumption]|];
         split; [eassumption|]; split; [eassumption|]; split; [congruence|];
         cat_names ]
   | first
       [ match goal with
         | Hk : optionsKept ?a ?b |- optionsKept ?w ?w' =>
             apply (optionsKept_frame w a b w'); [congruence|exact Hk|congruence]
         end
       | apply optionsKept_same; congruence ] ]).

Lemma generateFromUser_catalog env uuid w r w' :
  generateFromUser env uuid w = (r, w') -> catalogued w r w' /\ optionsKept w w'.
Proof.
  intros H. unfold generateFromUser, skinUrlOf in H. exec H.
  all: cat_paths.
Qed.

Lemma generateFromUpload_catalog env file w r w' :
  generateFromUpload env file w = (r, w') -> catalogued w r w' /\ optionsKept w w'.
Proof.
  intros H.
  unfold generateFromUpload, FormData_append_Blob, finishGenerate, catchGenerate,
    finallyGenerate, assign_account, assign_tempFile, skinUrlOf, noLocals in H.
  exec H.
  all: cat_paths.
Qed.

Lemma generateFromUrl_catalog env url w r w' :
  generateFromUrl env url w = (r, w') -> catalogued w r w' /\ optionsKept w w'.
Proof.
  intros H.
  unfold generateFromUrl, finishGenerate, catchGenerate, finallyGenerate,
    assign_account, assign_tempFile, skinUrlOf, noLocals, getUrlFromResponse,
    getContentTypeFromResponse, getSizeFromResponse in H.
  exec H.
  all: cat_paths.
Qed.

(** The skeleton shared by the three [...AndSave] entry points, over the
    generation proper. *)
Lemma andSave_catalog env (generate : M World GenerateResult) client type w r w' :
  (forall w r w', generate w = (r, w') -> catalogued w r w' /\ optionsKept w w') ->
  (start <- ask (Date_now env) ;;
   data <- generate ;;
   doc <- getDuplicateOrSaved env data client type start ;;
   end_ <- ask (Date_now env) ;;
   emit (EvDurationMetric (end_ - start) type (Account.id <$> res_account data)) ;;
   ret doc) w = (r, w') ->
  optionsKept w w'
  /\ match r with
     | Return s =>
         (exists d0, In d0 (skins w) /\ s = counted d0
            /\ skins w' = replace_by_id Skin._id s (skins w)
            /\ Skin.name s = opt_name (options w)
            /\ Skin.visibility s = opt_visibility (options w))
         \/ (skins w' = (skins w ++ [s])%list /\ Skin.duplicate s = 0
             /\ (forall s0, In s0 (skins w) -> Skin.id s0 <> Skin.id s)
             /\ Skin.name s = opt_name (options w)
             /\ Skin.visibility s = opt_visibility (options w)
             /\ Skin.model s = SkinModel_str (opt_model (options w')))
     | Throw _ => skins w' = skins w
     end.
Proof.
  intros Hgen H. unfold getDuplicateOrSaved in H. exec H.
  all: repeat match goal with
         | E : _ = (_, _) |- _ =>
             first [ apply Hgen in E; destruct E as [E ?]
                   | apply saveSkin_catalog in E; destruct E as [? E] ]
         end.
  all: unfold catalogued in *.
  all: repeat match goal with
         | H : False |- _ => destruct H
         | H : _ \/ _ |- _ => destruct H as [(? & ? & ? & ? & ? & ? & ? & ?)|[? ?]]
         | H : _ /\ _ |- _ => destruct H as [? ?]
         end.
  all: subst; simpl in *; try congruence.
  all: repeat match goal with
         | H : Some _ = Some _ |- _ => injection H as H; subst
         | H : duplicateResult _ = duplicateResult _ |- _ => injection H as H; subst
         end.
  all: autorewrite with cat opt in *.
  all: repeat match goal with
         | H : skins ?s = skins ?s0 |- _ => rewrite H in *; clear H
         end.
  all: split;
       [ first
           [ match goal with
             | Hk : optionsKept ?a ?b |- optionsKept ?w ?w' =>
                 apply (optionsKept_frame w a b w');
                 [by autorewrite with opt|exact Hk|by autorewrite with opt; congruence]
             end ]
       | ].
  all: try congruence.
  all: first
    [ left; eexists; split; [eassumption|]; split; [reflexivity|];
      autorewrite with opt in *; repeat split; congruence
    | right ].
  all: match goal with
       | Hk : optionsKept _ _ |- _ =>
           destruct Hk as (Hname & Hvis & _); autorewrite with opt in Hname, Hvis
       end.
  all: repeat split; first [congruence | assumption].
Qed.

Lemma generateAndSave_catalog env request client w r w' :
  generateAndSave env request client w = (r, w') ->
  optionsKept w w'
  /\ match r with
     | Return s =>
         (exists d0, In d0 (skins w) /\ s = counted d0
            /\ skins w' = replace_by_id Skin._id s (skins w)
            /\ Skin.name s = opt_name (options w)
            /\ Skin.visibility s = opt_visibility (options w))
         \/ (skins w' = (skins w ++ [s])%list /\ Skin.duplicate s = 0
             /\ (forall s0, In s0 (skins w) -> Skin.id s0 <> Skin.id s)
             /\ Skin.name s = opt_name (options w)
             /\ Skin.visibility s = opt_visibility (options w)
             /\ Skin.model s = SkinModel_str (opt_model (options w')))
     | Throw _ => skins w' = skins w
     end.
Proof.
  destruct request as [url|file|user]; simpl.
  - apply andSave_catalog. intros w0 r0 w0'. apply generateFromUrl_catalog.
  - apply andSave_catalog. intros w0 r0 w0'. apply generateFromUpload_catalog.
  - apply andSave_catalog. intros w0 r0 w0'. apply generateFromUser_catalog.
Qed.

(** X24. A request changes the catalog in one of two ways only: a stored
    record is counted once more as a duplicate and returned, or one new
    record, with no duplicates and with an id that no stored record had, is
    appended and returned. A request that fails, for whatever reason, leaves
    the catalog as it was. *)
Theorem catalog_evolves env request client w r w' :
  generateAndSave env request client w = (r, w') ->
  match r with
  | Return s =>
      (exists d0, In d0 (skins w) /\ s = counted d0
         /\ skins w' = replace_by_id Skin._id s (skins w))
      \/ (skins w' = (skins w ++ [s])%list /\ Skin.duplicate s = 0
          /\ forall s0, In s0 (skins w) -> Skin.id s0 <> Skin.id s)
  | Throw _ => skins w' = skins w
  end.
Proof.
  intros H. apply generateAndSave_catalog in H as [_ H].
  destruct r as [s|e]; [|done].
  destruct H as [(d0 & Hin & Hd & Hs & _)|(Hs & Hdup & Hfree & _)].
  - left. by exists d0.
  - by right.
Qed.

Lemma catalog_evolves_witness :
  let w := world [skin5] [account1] options1 in
  exists s w',
    generateAndSave (testEnv Accepted) (FromUrl "http://imgur.com/a.png") client1 w
      = (Return s, w')
    /\ skins w' = [skin5; s].
Proof.
  intros w. eexists _, _. split; [vm_compute; reflexivity|].
  pose proof (catalog_evolves (testEnv Accepted) (FromUrl "http://imgur.com/a.png")
                client1 w _ _
                ltac:(vm_compute; reflexivity)) as Hcat.
  cbv beta iota in Hcat.
  destruct Hcat as [(d0 & [<-|[]] & Hd & _)|(Hs & _)]; [discriminate Hd|exact Hs].
Defined.

(** X25. A request keeps what was asked for: over the whole run the options
    keep their name and their visibility, and their model unless none was
    given; the record returned, new or duplicate, has the name and the
    visibility of the request, and a new record has the model that the
    options end with. *)
Theorem record_as_requested env request client w r w' :
  generateAndSave env request client w = (r, w') ->
  optionsKept w w'
  /\ forall s, r = Return s ->
       Skin.name s = opt_name (options w)
       /\ Skin.visibility s = opt_visibility (options w)
       /\ ((exists d0, In d0 (skins w) /\ s = counted d0)
           \/ Skin.model s = SkinModel_str (opt_model (options w'))).
Proof.
  intros H. apply generateAndSave_catalog in H as [Hkept H].
  split; [done|]. intros s ->.
  destruct H as [(d0 & Hin & Hd & _ & Hn & Hv)|(_ & _ & _ & Hn & Hv & Hm)].
  - split; [done|]. split; [done|]. left. by exists d0.
  - split; [done|]. split; [done|]. by right.
Qed.

Lemma record_as_requested_witness :
  let w := world [skin5] [account1] options1 in
  exists s w',
    generateAndSave (testEnv Accepted) (FromUrl "http://imgur.com/a.png") client1 w
      = (Return s, w')
    /\ Skin.name s = "slim" /\ Skin.visibility s = 0.
Proof.
  intros w. eexists _, _. split; [vm_compute; reflexivity|].
  pose proof (record_as_requested (testEnv Accepted) (FromUrl "http://imgur.com/a.png")
                client1 w _ _
                ltac:(vm_compute; reflexivity)) as [_ Hrec].
  destruct (Hrec _ eq_refl) as (Hn & Hv & _). split; [exact Hn|exact Hv].
Defined.

(** ** Requests that do not touch the account pool *)

Lemma poolKept_refl w : poolKept w w.
Proof.
  split; [done|]. split; [done|]. exists []. split; [by rewrite app_nil_r|constructor].
Qed.

Lemma poolKept_trans a b c : poolKept a b -> poolKept b c -> poolKept a c.
Proof.
  intros (Ha & Hl & evs & Ht & Hf) (Ha' & Hl' & evs' & Ht' & Hf').
  split; [congruence|]. split; [congruence|].
  exists (evs ++ evs')%list. split; [by rewrite Ht', Ht, app_assoc|by apply Forall_app].
Qed.

Lemma quiet_poolKept a b : quiet a b -> poolKept a b.
Proof.
  intros (_ & Ha & Hl & evs & Ht & Hf). split; [done|]. split; [done|].
  exists evs. split; [done|]. eapply Forall_impl; [exact Hf|]. by intros ev [_ ?].
Qed.

Lemma hit_poolKept d a b : hit d a b -> poolKept a b.
Proof. intros (_ & _ & Ha & Hl & Hevs). by split; [|split]. Qed.

Lemma poolKept_emit ev s :
  isSkinChange ev = false -> poolKept s (set_trace (trace s ++ [ev]) s).
Proof.
  intros Hev. destruct s as [sk ac lk tf op tk tr]. split; [done|]. split; [done|].
  exists [ev]. split; [done|]. by repeat constructor.
Qed.

Lemma poolKept_skins l s : poolKept s (set_skins l s).
Proof.
  destruct s as [sk ac lk tf op tk tr]. split; [done|]. split; [done|].
  exists []. split; [by rewrite app_nil_r|constructor].
Qed.

Ltac pool_frame :=
  lazymatch goal with
  | |- poolKept ?w ?w => apply poolKept_refl
  | |- poolKept _ (set_tick _ _) =>
      eapply poolKept_trans; [|apply quiet_poolKept, quiet_tick]; pool_frame
  | |- poolKept _ (set_skins _ _) =>
      eapply poolKept_trans; [|apply poolKept_skins]; pool_frame
  | |- poolKept _ (set_trace (trace ?s ++ [_]) ?s) =>
      eapply poolKept_trans; [|apply poolKept_emit; reflexivity]; pool_frame
  | |- poolKept ?w ?s =>
      match goal with
      | H : poolKept ?a s |- _ => apply (poolKept_trans w a s); [pool_frame|exact H]
      | H : quiet ?a s |- _ =>
          apply (poolKept_trans w a s); [pool_frame|exact (quiet_poolKept _ _ H)]
      | H : hit _ ?a s |- _ =>
          apply (poolKept_trans w a s); [pool_frame|exact (hit_poolKept _ _ _ H)]
      end
  end.

Lemma getSkinData_quiet env uuid account w r w' :
  getSkinData env uuid account w = (r, w') -> quiet w w'.
Proof. intros H. unfold getSkinData, decodeValue in H. exec H; frame. Qed.

Lemma getMojangHash_quiet env url w r w' : getMojangHash env url w = (r, w') -> quiet w w'.
Proof.
  intros H. unfold getMojangHash in H. exec H.
  all: repeat match goal with E : _ = (_, _) |- _ => dup_leaf E end.
  all: subst; try contradiction; frame.
Qed.

Lemma saveSkin_poolKept env result client type start w r w' :
  saveSkin env result client type start w = (r, w') ->
  poolKept w w'
  /\ forall s, r = Return s -> Skin.account s = Account.id <$> res_account result.
Proof.
  intros H. unfold saveSkin, Skin_create in H. exec H.
  all: match goal with E : makeNewSkinId _ _ = _ |- _ =>
         apply makeNewSkinId_frame in E as [n ->] end.
  all: split; [pool_frame|]; intros saved Hsaved; try discriminate Hsaved.
  by injection Hsaved as <-.
Qed.

(** X26. A request for the skin of a user never touches the accounts: the
    pool and the locked set are as before, no skin-change request is sent,
    and the record returned is a stored one counted once more or a new one
    that names no account. *)
Theorem user_request_keeps_pool env user client w r w' :
  generateAndSave env (FromUser user) client w = (r, w') ->
  poolKept w w'
  /\ forall s, r = Return s ->
       (exists d0, In d0 (skins w) /\ s = counted d0) \/ Skin.account s = None.
Proof.
  intros H. simpl in H.
  unfold generateFromUserAndSave, generateFromUser, getDuplicateOrSaved, skinUrlOf in H.
  exec H.
  all: repeat match goal with
         | E : findDuplicateFromUuid _ _ _ = _ |- _ =>
             apply findDuplicateFromUuid_dup in E; unfold probed in E
         | E : getSkinData _ _ _ _ = _ |- _ => apply getSkinData_quiet in E
         | E : getMojangHash _ _ _ = _ |- _ => apply getMojangHash_quiet in E
         | E : saveSkin _ _ _ _ _ _ = _ |- _ =>
             apply saveSkin_poolKept in E; destruct E as [E ?]
         end.
  all: repeat match goal with
         | H : False |- _ => destruct H
         | H : ?s' = ?s :> World |- _ => first [subst s' | subst s]
         end.
  all: try discriminate.
  all: split; [pool_frame|]; intros saved Hsaved; try discriminate Hsaved.
  all: injection Hsaved as <-.
  - left. match goal with Hh : hit _ _ _ |- _ => destruct Hh as ((d0 & Hin & Hd) & _) end.
    exists d0. autorewrite with cat in Hin. simpl in *.
    match goal with Heq : Some _ = Some _ |- _ => injection Heq as <- end. done.
  - right. match goal with Hs : forall s, _ = Return s -> _ |- _ => apply Hs; reflexivity end.
Qed.

Lemma user_request_keeps_pool_witness :
  let w := world [skin5] [account1] options1 in
  exists s w',
    generateAndSave (testEnv Accepted) (FromUser "player") client1 w = (Return s, w')
    /\ accounts w' = [account1] /\ lockedAccounts w' = ∅.
Proof.
  intros w. eexists _, _. split; [vm_compute; reflexivity|].
  destruct (user_request_keeps_pool (testEnv Accepted) "player" client1 w _ _
              ltac:(vm_compute; reflexivity)) as [(Ha & Hl & _) _].
  split; [exact Ha|exact Hl].
Defined.

(** ** Requests rejected as invalid *)

Lemma getAndAuthenticateAccount_raises env w e w' :
  (forall n a e, Authentication_authenticate env n a = inl e -> isValidationError e = false) ->
  getAndAuthenticateAccount env w = (Throw e, w') -> isValidationError e = false.
Proof.
  intros Hauth H.
  unfold getAndAuthenticateAccount, findUsable, Caching_getLockedAccounts,
    Caching_lockSelectedAccount, Account_save, Authentication_authenticate_M in H.
  exec H; try done. eauto.
Qed.

Lemma skinChangeRequest_raises env ev account w e w' :
  skinChangeRequest env ev account w = (Throw e, w') -> isValidationError e = false.
Proof. intros H. unfold skinChangeRequest in H. by exec H. Qed.

Lemma getSkinData_raises env uuid account w e w' :
  getSkinData env uuid account w = (Throw e, w') -> isValidationError e = false.
Proof. intros H. unfold getSkinData, decodeValue in H. by exec H. Qed.

Lemma getMojangHash_raises env url w e w' :
  getMojangHash env url w = (Throw e, w') -> isValidationError e = false.
Proof.
  intros H. unfold getMojangHash, Temp_file, Temp_downloadImage_to, fs_readFile,
    TempFile_remove in H.
  by exec H.
Qed.

Lemma saveSkin_raises env result client type start w e w' :
  saveSkin env result client type start w = (Throw e, w') -> isValidationError e = false.
Proof.
  intros H. unfold saveSkin, Skin_create in H. exec H; try done.
  match goal with E : makeNewSkinId _ _ = _ |- _ =>
    by apply makeNewSkinId_raises in E as -> end.
Qed.

Ltac raise_fact Hauth E :=
  first
    [ apply (getAndAuthenticateAccount_raises _ _ _ _ Hauth) in E
    | apply skinChangeRequest_raises in E
    | apply getSkinData_raises in E
    | apply getMojangHash_raises in E
    | apply saveSkin_raises in E ].

(** On a path that raised [e], known to be a validation error: the calls
    that cannot raise such an error did not raise [e]; what is left ran
    before any account was looked for. *)
Ltac invalid_paths Hauth Hval :=
  try (simpl in Hval; discriminate Hval);
  try (match goal with
       | E : _ = (Throw ?e, _) |- _ =>
           lazymatch type of Hval with
           | isValidationError e = true => raise_fact Hauth E; congruence
           end
       end);
  repeat match goal with
    | E : handleGenerateError _ _ None _ = _ |- _ =>
        cbv [handleGenerateError ret] in E; injection E as <- <-
    end;
  repeat match goal with E : _ = (_, _) |- _ => dup_call E end;
  repeat match goal with
    | H : False |- _ => destruct H
    | H : _ \/ _ |- _ => destruct H as [[? ?]|(? & ? & ?)]
    | H : ?s' = ?s :> World |- _ => first [subst s' | subst s]
    end;
  try discriminate;
  frame.

Lemma generateFromUpload_invalid env file w e w' :
  (forall n a e, Authentication_authenticate env n a = inl e -> isValidationError e = false) ->
  generateFromUpload env file w = (Throw e, w') ->
  isValidationError e = true -> quiet w w'.
Proof.
  intros Hauth H Hval.
  unfold generateFromUpload, FormData_append_Blob, finishGenerate, catchGenerate,
    finallyGenerate, assign_account, assign_tempFile, skinUrlOf, noLocals in H.
  exec H.
  all: try discriminate H.
  all: invalid_paths Hauth Hval.
Qed.

Lemma generateFromUrl_invalid env url w e w' :
  (forall n a e, Authentication_authenticate env n a = inl e -> isValidationError e = false) ->
  generateFromUrl env url w = (Throw e, w') ->
  isValidationError e = true -> quiet w w'.
Proof.
  intros Hauth H Hval.
  unfold generateFromUrl, finishGenerate, catchGenerate, finallyGenerate,
    assign_account, assign_tempFile, skinUrlOf, noLocals, getUrlFromResponse,
    getContentTypeFromResponse, getSizeFromResponse in H.
  exec H.
  all: try discriminate H.
  all: invalid_paths Hauth Hval.
Qed.

Lemma generateFromUser_invalid env uuid w e w' :
  (forall n a e, Authentication_authenticate env n a = inl e -> isValidationError e = false) ->
  generateFromUser env uuid w = (Throw e, w') ->
  isValidationError e = true -> quiet w w'.
Proof.
  intros Hauth H Hval. unfold generateFromUser, skinUrlOf in H. exec H.
  all: try discriminate H.
  all: invalid_paths Hauth Hval.
Qed.

Lemma andSave_invalid env (generate : M World GenerateResult) client type w e w' :
  (forall n a e, Authentication_authenticate env n a = inl e -> isValidationError e = false) ->
  (forall w e w', generate w = (Throw e, w') -> isValidationError e = true -> quiet w w') ->
  (start <- ask (Date_now env) ;;
   data <- generate ;;
   doc <- getDuplicateOrSaved env data client type start ;;
   end_ <- ask (Date_now env) ;;
   emit (EvDurationMetric (end_ - start) type (Account.id <$> res_account data)) ;;
   ret doc) w = (Throw e, w') ->
  isValidationError e = true -> quiet w w'.
Proof.
  intros Hauth Hgen H Hval. unfold getDuplicateOrSaved in H. exec H.
  all: try discriminate H.
  all: try (simpl in Hval; discriminate Hval).
  all: try match goal with E : saveSkin _ _ _ _ _ _ = (Throw _, _) |- _ =>
             apply saveSkin_raises in E; congruence end.
  match goal with E : _ = (Throw _, _) |- _ => apply Hgen in E; [|done] end.
  frame.
Qed.

(** X27. A request rejected as invalid (an INVALID_IMAGE or
    INVALID_IMAGE_URL error) was rejected before any account was looked for:
    the catalog, the pool and the locked set are as before the request, and
    neither a skin-change request nor a duplicate metric was emitted. The
    authentication is assumed to raise no such error itself. *)
Theorem invalid_request_leaves_no_trace env request client w e w' :
  (forall n a e, Authentication_authenticate env n a = inl e -> isValidationError e = false) ->
  generateAndSave env request client w = (Throw e, w') ->
  isValidationError e = true ->
  quiet w w'.
Proof.
  intros Hauth. destruct request as [url|file|user]; simpl.
  - apply andSave_invalid; [done|]. intros w0 e0 w0'. by apply generateFromUrl_invalid.
  - apply andSave_invalid; [done|]. intros w0 e0 w0'. by apply generateFromUpload_invalid.
  - apply andSave_invalid; [done|]. intros w0 e0 w0'. by apply generateFromUser_invalid.
Qed.

Lemma invalid_request_leaves_no_trace_witness :
  let w := world [skin1] [account1] options1 in
  exists msg w',
    generateAndSave authFailingEnv (FromUpload (replicate 10 0)) client1 w
      = (Throw (GeneratorError INVALID_IMAGE msg 400 None), w')
    /\ accounts w' = [account1] /\ lockedAccounts w' = ∅ /\ skins w' = [skin1].
Proof.
  intros w. eexists _, _. split; [vm_compute; reflexivity|].
  edestruct (invalid_request_leaves_no_trace authFailingEnv (FromUpload (replicate 10 0))
               client1 w) as (Hs & Ha & Hl & _).
  - intros n a e He. injection He as <-. reflexivity.
  - vm_compute. reflexivity.
  - reflexivity.
  - split; [exact Ha|]. split; [exact Hl|exact Hs].
Defined.
